(** * Oi360 SOA reconciliation worker: a shallow embedding and its properties

    The development follows [RecoWorker.run] of
    [oi_360_soa_reco_pyqt_final.py]: the match-key normaliser
    [clean_match_value], the ageing step with its [bucket] function, the
    sequential left joins against the reference slots with the shared
    source-label dictionary, the date clean-up and the amount comparison.

    Python strings are modelled as [string]; a character stands for the code
    point below 256 with the same number, with Python's own classification of
    those code points ([str.isspace], [str.isdigit]).  *)

From Stdlib Require Import ZArith Lia Bool Ascii String List.
From Stdlib Require Import DecimalString.
From Stdlib Require Import Floats.SpecFloat.
From stdpp Require Import gmap strings list fin_maps.

Local Open Scope Z_scope.

(** ** Python string primitives *)
Module Py.

Definition code (c : ascii) : N := N_of_ascii c.

(** [str.isspace] on one character (code points below 256). *)
Definition isspace (c : ascii) : bool :=
  let n := code c in
  (((9 <=? n) && (n <=? 13)) || ((28 <=? n) && (n <=? 32))
   || (n =? 133) || (n =? 160))%N.

(** [str.isdigit] on one character: the decimal digits and the superscript
    digits of Latin-1. *)
Definition isdigit_char (c : ascii) : bool :=
  let n := code c in
  (((48 <=? n) && (n <=? 57)) || (n =? 178) || (n =? 179) || (n =? 185))%N.

Definition is_empty (s : string) : bool :=
  match s with EmptyString => true | String _ _ => false end.

Fixpoint all_chars (p : ascii -> bool) (s : string) : bool :=
  match s with
  | EmptyString => true
  | String c t => p c && all_chars p t
  end.

(** [s.isdigit()]: false on the empty string. *)
Definition isdigit (s : string) : bool :=
  negb (is_empty s) && all_chars isdigit_char s.

Fixpoint lstrip_by (p : ascii -> bool) (s : string) : string :=
  match s with
  | EmptyString => EmptyString
  | String c t => if p c then lstrip_by p t else s
  end.

Fixpoint rstrip_by (p : ascii -> bool) (s : string) : string :=
  match s with
  | EmptyString => EmptyString
  | String c t =>
      let t' := rstrip_by p t in
      if p c && is_empty t' then EmptyString else String c t'
  end.

(** [s.strip()] *)
Definition strip (s : string) : string := rstrip_by isspace (lstrip_by isspace s).

Definition is_zero_char (c : ascii) : bool := Ascii.eqb c "0".

(** [s.lstrip('0')] *)
Definition lstrip0 (s : string) : string := lstrip_by is_zero_char s.

Definition quote : ascii := "'".

(** [s.startswith(c)] for a one-character prefix. *)
Definition starts_with_char (c : ascii) (s : string) : bool :=
  match s with
  | EmptyString => false
  | String d _ => Ascii.eqb d c
  end.

Definition starts_with_space (s : string) : bool :=
  match s with
  | EmptyString => false
  | String d _ => isspace d
  end.

(** [s[1:]] *)
Definition tail (s : string) : string :=
  match s with EmptyString => EmptyString | String _ t => t end.

(** [a or b] on strings: the empty string is falsy. *)
Definition str_or (a b : string) : string := if is_empty a then b else a.

(** [sep.join(l)] *)
Fixpoint join (sep : string) (l : list string) : string :=
  match l with
  | [] => ""
  | [x] => x
  | x :: rest => x +:+ sep +:+ join sep rest
  end.

(** [str(n)] for a natural number. *)
Definition str_nat (n : nat) : string := NilZero.string_of_uint (Nat.to_uint n).

(** [str(z)] for an integer. *)
Definition str_int (z : Z) : string := NilZero.string_of_int (Z.to_int z).

Fixpoint starts_with (p s : string) : bool :=
  match p, s with
  | EmptyString, _ => true
  | String a p', String b s' => Ascii.eqb a b && starts_with p' s'
  | String _ _, EmptyString => false
  end.

(** [needle in hay] *)
Fixpoint contains (needle hay : string) : bool :=
  starts_with needle hay ||
  match hay with
  | EmptyString => false
  | String _ t => contains needle t
  end.

(** [s.replace(c, '')] for a one-character [c]. *)
Fixpoint remove_char (c : ascii) (s : string) : string :=
  match s with
  | EmptyString => EmptyString
  | String d t => if Ascii.eqb d c then remove_char c t else String d (remove_char c t)
  end.

(** [s.split(c)[0]] *)
Fixpoint before_char (c : ascii) (s : string) : string :=
  match s with
  | EmptyString => EmptyString
  | String d t => if Ascii.eqb d c then EmptyString else String d (before_char c t)
  end.

Definition lower_char (c : ascii) : ascii :=
  let n := code c in
  if (((65 <=? n) && (n <=? 90)) || ((192 <=? n) && (n <=? 214))
      || ((216 <=? n) && (n <=? 222)))%N
  then ascii_of_N (n + 32) else c.

(** [s.lower()] *)
Fixpoint lower (s : string) : string :=
  match s with
  | EmptyString => EmptyString
  | String c t => String (lower_char c) (lower t)
  end.

End Py.

(** ** The match-key normaliser (lines 410-419) *)

Definition clean_match_value (val : string) : string :=
  let s := Py.strip val in
  let s := if Py.starts_with_char Py.quote s then Py.tail s else s in
  if Py.isdigit s || (negb (Py.is_empty s) && Py.isdigit (Py.lstrip0 s))
  then Py.str_or (Py.lstrip0 s) "0"
  else s.

(** ** Exceptions and fallible computations *)

Inductive exn : Type :=
| KeyError (key : string)
| IndexError (msg : string)
| ValueError (msg : string)
| MergeError (msg : string)
| IOError (msg : string).

(** [str(e)] *)
Definition str_exn (e : exn) : string :=
  match e with
  | KeyError k => "'" +:+ k +:+ "'"
  | IndexError m | ValueError m | MergeError m | IOError m => m
  end.

Inductive result (A : Type) : Type :=
| Ok (a : A)
| Raise (e : exn).
Arguments Ok {A} a.
Arguments Raise {A} e.

Definition bind {A B : Type} (r : result A) (k : A -> result B) : result B :=
  match r with
  | Ok a => k a
  | Raise e => Raise e
  end.

Notation "'let?' x ':=' r 'in' k" := (bind r (fun x => k))
  (at level 10, x pattern, r at level 100, k at level 200).

(** ** Data frames

    A cell of a frame read with [dtype=str] is a string or missing; the
    ageing step adds a numeric column, whose dtype is float as soon as one
    entry is missing. *)

Inductive cell : Type :=
| NaN
| Str (s : string)
| Num (z : Z) (is_float : bool).

Module Frame.

(** A frame is the ordered sequence of its labelled columns. *)
Abbreviation t := (list (string * list cell)).

Definition cell_eqb (a b : cell) : bool :=
  match a, b with
  | NaN, NaN => true
  | Str x, Str y => String.eqb x y
  | Num x fx, Num y fy => (x =? y) && Bool.eqb fx fy
  | _, _ => false
  end.

(** [pd.notna] *)
Definition notna (c : cell) : bool :=
  match c with NaN => false | _ => true end.

(** [str(c)], which is also what [astype(str)] stores. *)
Definition to_str (c : cell) : string :=
  match c with
  | NaN => "nan"
  | Str s => s
  | Num z false => Py.str_int z
  | Num z true => Py.str_int z +:+ ".0"
  end.

Definition astype_str (col : list cell) : list string := map to_str col.

Definition columns (df : t) : list string := map fst df.

Definition mem (name : string) (l : list string) : bool :=
  existsb (String.eqb name) l.

Definition has_col (name : string) (df : t) : bool := mem name (columns df).

(** [df.shape[0]] *)
Definition nrows (df : t) : nat :=
  match df with
  | [] => O
  | (_, col) :: _ => length col
  end.

(** [df[name]] *)
Fixpoint get_col (name : string) (df : t) : result (list cell) :=
  match df with
  | [] => Raise (KeyError name)
  | (n, col) :: rest => if String.eqb n name then Ok col else get_col name rest
  end.

Fixpoint replace_col (name : string) (vals : list cell) (df : t) : t :=
  match df with
  | [] => []
  | (n, col) :: rest =>
      if String.eqb n name then (n, vals) :: rest
      else (n, col) :: replace_col name vals rest
  end.

(** [df[name] = vals]: overwrite in place, or append a new last column. *)
Definition set_col (name : string) (vals : list cell) (df : t) : t :=
  if has_col name df then replace_col name vals df else df ++ [(name, vals)].

(** [df.drop(columns=[name])] for a label that is present. *)
Fixpoint drop_col (name : string) (df : t) : t :=
  match df with
  | [] => []
  | (n, col) :: rest =>
      if String.eqb n name then rest else (n, col) :: drop_col name rest
  end.

(** [df.pop(name)] *)
Definition pop (name : string) (df : t) : result (list cell * t) :=
  let? col := get_col name df in Ok (col, drop_col name df).

(** [df.insert(loc, name, vals)] *)
Definition insert_col (loc : nat) (name : string) (vals : list cell) (df : t)
  : result t :=
  if has_col name df
  then Raise (ValueError ("cannot insert " +:+ name +:+ ", already exists"))
  else Ok (firstn loc df ++ (name, vals) :: skipn loc df).

(** [df[names]] *)
Fixpoint select (names : list string) (df : t) : result t :=
  match names with
  | [] => Ok []
  | n :: rest =>
      let? col := get_col n df in
      let? sel := select rest df in
      Ok ((n, col) :: sel)
  end.

(** [df.columns = names] *)
Definition rename_all (names : list string) (df : t) : t :=
  combine names (map snd df).

(** *** Left merge on one key column *)

Fixpoint matches_from (i : nat) (k : cell) (rkeys : list cell) : list nat :=
  match rkeys with
  | [] => []
  | r :: rest =>
      if cell_eqb k r then i :: matches_from (S i) k rest
      else matches_from (S i) k rest
  end.

(** The rows of a left join: every left row in order, once per matching
    right row (in the right frame's order), or once with no partner. *)
Fixpoint join_plan_from (i : nat) (lkeys rkeys : list cell)
  : list (nat * option nat) :=
  match lkeys with
  | [] => []
  | k :: rest =>
      match matches_from O k rkeys with
      | [] => [(i, None)]
      | ms => map (fun j => (i, Some j)) ms
      end ++ join_plan_from (S i) rest rkeys
  end.

Definition join_plan := join_plan_from O.

Definition take_left (plan : list (nat * option nat)) (col : list cell) : list cell :=
  map (fun p => nth (fst p) col NaN) plan.

Definition take_right (plan : list (nat * option nat)) (col : list cell) : list cell :=
  map (fun p => match snd p with Some j => nth j col NaN | None => NaN end) plan.

Fixpoint has_dup (l : list string) : bool :=
  match l with
  | [] => false
  | x :: rest => mem x rest || has_dup rest
  end.

Definition suffix_overlap (other : list string) (sfx : string) (n : string) : string :=
  if mem n other then n +:+ sfx else n.

(** [pd.merge(left, right, left_on=lk, right_on=rk, how='left')] on frames
    with unique labels.  Equal key labels give one key column (the right
    one is dropped; on an empty left frame it is the left one); labels
    present on both sides get the suffixes [_x] and [_y], and a suffix
    that produces a duplicate label is refused. *)
Definition merge_left (left right : t) (lk rk : string) : result t :=
  let? lkeys := get_col lk left in
  let? rkeys := get_col rk right in
  let plan := join_plan lkeys rkeys in
  let same := String.eqb lk rk in
  let left' := if same && Nat.eqb (nrows left) O then drop_col lk left else left in
  let right' := if same && negb (Nat.eqb (nrows left) O) then drop_col rk right else right in
  let lnames := map (suffix_overlap (columns right') "_x") (columns left') in
  let rnames := map (suffix_overlap (columns left') "_y") (columns right') in
  if has_dup lnames || has_dup rnames
  then Raise (MergeError "Passing 'suffixes' which cause duplicate columns is not allowed.")
  else Ok (combine lnames (map (take_left plan) (map snd left'))
           ++ combine rnames (map (take_right plan) (map snd right'))).

End Frame.

(** ** Binary64 arithmetic

    Python floats are IEEE binary64 numbers: [spec_float] at precision 53
    and maximal exponent 1024, with round-to-nearest-even operations. *)
Module Float64.

Definition prec : Z := 53.
Definition emax : Z := 1024.

Abbreviation float := spec_float.

Definition sub : float -> float -> float := SFsub prec emax.
Definition mul : float -> float -> float := SFmul prec emax.
Definition div : float -> float -> float := SFdiv prec emax.
Definition abs : float -> float := SFabs.
Definition ltb : float -> float -> bool := SFltb.

(** The correctly rounded quotient of two integers, the second positive:
    [n / d] on Python integers, and the value of a decimal literal. *)
Definition of_ratio (n : Z) (d : positive) : float :=
  match n with
  | Z0 => S754_zero false
  | Zpos p => div (S754_finite false p 0) (S754_finite false d 0)
  | Zneg p => div (S754_finite true p 0) (S754_finite false d 0)
  end.

Definition of_Z (n : Z) : float := of_ratio n 1.

(** [int(x)]: truncation towards zero; infinities and NaN raise. *)
Definition to_int (x : float) : result Z :=
  match x with
  | S754_zero _ => Ok 0
  | S754_finite s m e =>
      let a := if 0 <=? e then Z.shiftl (Zpos m) e else Z.shiftr (Zpos m) (- e) in
      Ok (if s then - a else a)
  | S754_infinity _ => Raise (ValueError "cannot convert float infinity to integer")
  | S754_nan => Raise (ValueError "cannot convert float NaN to integer")
  end.

(** Nearest integer to [n / d], ties to even ([d] positive, [n] not
    negative). *)
Definition round_half_even (n d : Z) : Z :=
  let q := n / d in
  let r := n mod d in
  match 2 * r ?= d with
  | Lt => q
  | Gt => q + 1
  | Eq => if Z.even q then q else q + 1
  end.

Definition two_digits (n : Z) : string :=
  if n <? 10 then "0" +:+ Py.str_int n else Py.str_int n.

(** [f"{x:.2f}"] *)
Definition format_2f (x : float) : string :=
  match x with
  | S754_nan => "nan"
  | S754_infinity s => if s then "-inf" else "inf"
  | S754_zero s => if s then "-0.00" else "0.00"
  | S754_finite s m e =>
      let cents :=
        if 0 <=? e then 100 * Z.shiftl (Zpos m) e
        else round_half_even (100 * Zpos m) (Z.shiftl 1 (- e)) in
      (if s then "-" else "") +:+ Py.str_int (cents / 100) +:+ "."
        +:+ two_digits (cents mod 100)
  end.

(** *** [float(s)] on a string

    The grammar of the [float] constructor: an optional sign, then
    [inf], [infinity] or [nan] in any case, or a decimal number with an
    optional fraction and exponent, where single underscores may separate
    digits.  The caller has stripped the string. *)

Definition digit_val (c : ascii) : option Z :=
  let n := Py.code c in
  if ((48 <=? n) && (n <=? 57))%N then Some (Z.of_N n - 48) else None.

(** A digit part [digit (["_"] digit)*] read from the front of [s]:
    the accumulated value, the number of digits, and the rest. *)
Fixpoint digits_from (acc : Z) (cnt : Z) (s : string) : Z * Z * string :=
  match s with
  | String c t =>
      match digit_val c with
      | Some d => digits_from (10 * acc + d) (cnt + 1) t
      | None =>
          if Ascii.eqb c "_" then
            match t with
            | String c' t' =>
                match digit_val c' with
                | Some d => digits_from (10 * acc + d) (cnt + 1) t'
                | None => (acc, cnt, s)
                end
            | EmptyString => (acc, cnt, s)
            end
          else (acc, cnt, s)
      end
  | EmptyString => (acc, cnt, s)
  end.

Definition digitpart (acc : Z) (s : string) : option (Z * Z * string) :=
  match s with
  | String c t =>
      match digit_val c with
      | Some d => Some (digits_from (10 * acc + d) 1 t)
      | None => None
      end
  | EmptyString => None
  end.

Definition take_sign (s : string) : bool * string :=
  match s with
  | String "-" t => (true, t)
  | String "+" t => (false, t)
  | _ => (false, s)
  end.

(** [number]: the digits as an integer and the count of fraction digits. *)
Definition number (s : string) : option (Z * Z * string) :=
  match digitpart 0 s with
  | Some (m, _, String "." t) =>
      match digitpart m t with
      | Some (m', k, rest) => Some (m', k, rest)
      | None => Some (m, 0, t)
      end
  | Some (m, _, rest) => Some (m, 0, rest)
  | None =>
      match s with
      | String "." t =>
          match digitpart 0 t with
          | Some (m', k, rest) => Some (m', k, rest)
          | None => None
          end
      | _ => None
      end
  end.

Definition exponent (s : string) : option Z :=
  match s with
  | EmptyString => Some 0
  | String c t =>
      if Ascii.eqb c "e" || Ascii.eqb c "E" then
        let '(neg, t') := take_sign t in
        match digitpart 0 t' with
        | Some (x, _, EmptyString) => Some (if neg then - x else x)
        | _ => None
        end
      else None
  end.

Definition of_decimal (neg : bool) (m : Z) (e : Z) : float :=
  match m with
  | Zpos p =>
      let s := of_ratio (if 0 <=? e then Zpos p * 10 ^ e else Zpos p)
                        (if 0 <=? e then 1 else Z.to_pos (10 ^ (- e))) in
      if neg then SFopp s else s
  | _ => S754_zero neg
  end.

Definition parse (s : string) : result float :=
  let '(neg, body) := take_sign s in
  let word := Py.lower body in
  if String.eqb word "inf" || String.eqb word "infinity"
  then Ok (S754_infinity neg)
  else if String.eqb word "nan" then Ok S754_nan
  else
    match number body with
    | Some (m, k, rest) =>
        match exponent rest with
        | Some x => Ok (of_decimal neg m (x - k))
        | None => Raise (ValueError ("could not convert string to float: '" +:+ s +:+ "'"))
        end
    | None => Raise (ValueError ("could not convert string to float: '" +:+ s +:+ "'"))
    end.

(** The literal [0.01]. *)
Definition cent : float := Eval vm_compute in of_decimal false 1 (-2).

(** The literal [100]. *)
Definition hundred : float := Eval vm_compute in of_Z 100.

Definition zero : float := S754_zero false.

End Float64.

(** ** The reconciliation worker *)

(** What the worker emits: the three Qt signals and the debug log, in
    program order. *)
Inductive event : Type :=
| Status (msg : string)
| Progress (percent : Z)
| Log (msg : string)
| RecoComplete (df : Frame.t).

(** The spreadsheet writer of the run's environment. *)
Inductive excel_env : Type :=
| WriterOk
| WriterOpenFails (e : exn)
| WriterSaveFails (e : exn).

(** The environment of a run.  Times are counted in nanoseconds.
    [pd.to_datetime(..., errors='coerce', format='mixed', dayfirst=True)]
    parses each cell on its own ([parse_date]; [None] is [NaT]) unless it
    rejects the column as a whole ([date_fault]). *)
Record Env : Type := {
  today : Z;
  parse_date : cell -> option Z;
  date_fault : list cell -> option exn;
  excel : excel_env
}.

(** A reference slot: [(ref_df, match_col, return_cols, _)]. *)
Record RefConfig : Type := {
  ref_df : Frame.t;
  match_col : string;
  return_cols : list string
}.

Definition day : Z := 86400 * 1000000000.

(** Lines 388-395. *)
Definition bucket (days : option Z) : string :=
  match days with
  | None => "Unknown"
  | Some d =>
      if d <=? 15 then "0-15"
      else if d <=? 30 then "16-30"
      else if d <=? 60 then "31-60"
      else if d <=? 90 then "61-90"
      else if d <=? 120 then "91-120"
      else "121+"
  end.

Module RecoWorker.

Definition to_datetime (env : Env) (c : cell) : option Z :=
  match c with
  | NaN => None
  | _ => parse_date env c
  end.

(** [(today - temp_dates).dt.days] *)
Definition age_days (env : Env) (c : cell) : option Z :=
  option_map (fun t => (today env - t) / day) (to_datetime env c).

Definition is_none {A : Type} (o : option A) : bool :=
  match o with None => true | Some _ => false end.

Definition age_cell (is_float : bool) (a : option Z) : cell :=
  match a with
  | None => NaN
  | Some d => Num d is_float
  end.

(** Lines 381-400, the body of the [try]. *)
Definition age_stage (env : Env) (date_col : string) (df : Frame.t) : result Frame.t :=
  let? original := Frame.get_col date_col df in
  match date_fault env original with
  | Some e => Raise e
  | None =>
      let ages := map (age_days env) original in
      let is_float := existsb is_none ages in
      let df := Frame.set_col "Age (Days)" (map (age_cell is_float) ages) df in
      let df := Frame.set_col "Age Bucket" (map (fun a => Str (bucket a)) ages) df in
      let? popped := Frame.pop "Age Bucket" df in
      let? df := Frame.insert_col 0 "Age Bucket" (fst popped) (snd popped) in
      Ok (Frame.set_col date_col original df)
  end.

Definition clean_column (col : list cell) : list cell :=
  map (fun c => Str (clean_match_value (Frame.to_str c))) col.

Definition ref_label (idx : nat) : string := "Ref" +:+ Py.str_nat (S idx).

Definition ref_column (idx : nat) (col : string) : string :=
  ref_label idx +:+ "_" +:+ col.

(** [int((current_step / total_steps) * 100)] *)
Definition percent_of (current total : Z) : result Z :=
  Float64.to_int
    (Float64.mul (Float64.of_ratio current (Z.to_pos total)) Float64.hundred).

(** The state the slot loop works on. *)
Record state : Type := {
  df_result : Frame.t;
  match_sources_dict : gmap string (list string);
  current_step : Z;
  trace : list event
}.

Definition emit (e : event) (st : state) : state :=
  {| df_result := df_result st;
     match_sources_dict := match_sources_dict st;
     current_step := current_step st;
     trace := trace st ++ [e] |}.

Definition with_df (df : Frame.t) (st : state) : state :=
  {| df_result := df;
     match_sources_dict := match_sources_dict st;
     current_step := current_step st;
     trace := trace st |}.

(** [if key in d: d[key].append(label)] *)
Definition append_source (key label : string) (d : gmap string (list string))
  : gmap string (list string) :=
  match d !! key with
  | Some l => <[key := l ++ [label]]> d
  | None => d
  end.

(** Lines 445-452: the loop over the match mask.  The result is the
    exception that ended the loop early, if any, and the state reached. *)
Fixpoint mask_loop (label soa_col : string) (total : Z) (i : nat)
         (mask : list bool) (st : state) : option exn * state :=
  match mask with
  | [] => (None, st)
  | matched :: rest =>
      let looked :=
        if matched then
          let? col := Frame.get_col soa_col (df_result st) in
          let key := clean_match_value (Frame.to_str (nth i col NaN)) in
          Ok (append_source key label (match_sources_dict st))
        else Ok (match_sources_dict st) in
      match looked with
      | Raise e => (Some e, st)
      | Ok d =>
          let st1 := {| df_result := df_result st;
                        match_sources_dict := d;
                        current_step := current_step st + 1;
                        trace := trace st |} in
          match percent_of (current_step st1) total with
          | Raise e => (Some e, st1)
          | Ok p => mask_loop label soa_col total (S i) rest (emit (Progress p) st1)
          end
      end
  end.

(** Lines 440-454, after both key columns have been cleaned. *)
Definition join_slot (soa_col : string) (total : Z) (idx : nat)
           (ref : Frame.t) (m : string) (rets : list string) (st : state)
  : option exn * state :=
  match Frame.select (m :: rets) ref with
  | Raise e => (Some e, st)
  | Ok extract =>
      let extract := Frame.rename_all (m :: map (ref_column idx) rets) extract in
      match Frame.merge_left (df_result st) extract soa_col m with
      | Raise e => (Some e, st)
      | Ok merged =>
          let st := with_df merged st in
          match rets with
          | [] => (Some (IndexError "list index out of range"), st)
          | r0 :: _ =>
              match Frame.get_col (ref_column idx r0) merged with
              | Raise e => (Some e, st)
              | Ok col =>
                  match mask_loop (ref_label idx) soa_col total O
                                  (map Frame.notna col) st with
                  | (Some e, st) => (Some e, st)
                  | (None, st) =>
                      if Nat.ltb O idx then
                        match Frame.insert_col (length (df_result st))
                                ("Separator" +:+ Py.str_nat (S idx))
                                (repeat (Str "") (Frame.nrows (df_result st)))
                                (df_result st) with
                        | Raise e => (Some e, st)
                        | Ok df => (None, with_df df st)
                        end
                      else (None, st)
                  end
              end
          end
      end
  end.

(** Lines 433-454, the body of the [try] of one slot.  The reference
    frame is updated in place, so it is returned as well. *)
Definition slot_body (soa_col : string) (total : Z) (idx : nat)
           (cfg : RefConfig) (st : state) : option exn * state * Frame.t :=
  let ref := ref_df cfg in
  let m := match_col cfg in
  let rets := return_cols cfg in
  let st := emit (Status ("Matching " +:+ ref_label idx +:+ " | Match = " +:+ m
                          +:+ " | Returns = " +:+ Py.join ", " rets)) st in
  match Frame.get_col m ref with
  | Raise e => (Some e, st, ref)
  | Ok rcol =>
      let ref := Frame.set_col m (clean_column rcol) ref in
      match Frame.get_col soa_col (df_result st) with
      | Raise e => (Some e, st, ref)
      | Ok lcol =>
          let st := with_df (Frame.set_col soa_col (clean_column lcol) (df_result st)) st in
          (join_slot soa_col total idx ref m rets st, ref)
      end
  end.

Definition with_ref (ref : Frame.t) (cfg : RefConfig) : RefConfig :=
  {| ref_df := ref; match_col := match_col cfg; return_cols := return_cols cfg |}.

(** Lines 455-457, the handler of a slot. *)
Definition slot_failed (idx : nat) (e : exn) (st : state) : state :=
  emit (Status ("Error matching " +:+ ref_label idx +:+ ": " +:+ str_exn e))
    (emit (Log ("Match Error " +:+ ref_label idx +:+ ": " +:+ str_exn e)) st).

(** One iteration of the loop of line 428. *)
Definition slot_step (soa_col : string) (total : Z) (idx : nat)
           (config : option RefConfig) (st : state) : state * option RefConfig :=
  match config with
  | None => (st, None)
  | Some cfg =>
      match slot_body soa_col total idx cfg st with
      | (None, st', ref) => (st', Some (with_ref ref cfg))
      | (Some e, st', ref) => (slot_failed idx e st', Some (with_ref ref cfg))
      end
  end.

(** Lines 428-457: [for idx, config in enumerate(self.ref_configs)]. *)
Fixpoint run_slots (soa_col : string) (total : Z) (idx : nat)
         (configs : list (option RefConfig)) (st : state)
  : state * list (option RefConfig) :=
  match configs with
  | [] => (st, [])
  | config :: rest =>
      let '(st1, config') := slot_step soa_col total idx config st in
      let '(st2, rest') := run_slots soa_col total (S idx) rest st1 in
      (st2, config' :: rest')
  end.

(** Line 422. *)
Definition init_dict (keys : list string) : gmap string (list string) :=
  foldr (fun v d => <[clean_match_value v := []]> d) ∅ keys.

(** Lines 458-461. *)
Definition match_source (d : gmap string (list string)) (val : string) : cell :=
  let l := default [] (d !! clean_match_value val) in
  Str (match l with [] => "" | _ => Py.join ", " l end).

(** Lines 467-477: the clean-up of one date-like column. *)
Definition date_keywords : list string := ["date"; "dt"; "dated"].

Definition is_date_like (col : string) : bool :=
  existsb (fun kw => Py.contains kw (Py.lower col)) date_keywords.

Definition midnight : string := "00:00:00".

(** [re.sub(r'\s+00:00:00$', '', s)]: [$] also matches before a final
    newline. *)
Fixpoint strip_midnight_at (s : string) : option string :=
  match s with
  | EmptyString => None
  | String c t =>
      if Py.isspace c then
        let tail := Py.lstrip_by Py.isspace t in
        if String.eqb tail midnight then Some EmptyString
        else if String.eqb tail (midnight +:+ String "010" EmptyString)
             then Some (String "010" EmptyString)
        else
          match strip_midnight_at t with
          | Some r => Some (String c r)
          | None => None
          end
      else
        match strip_midnight_at t with
        | Some r => Some (String c r)
        | None => None
        end
  end.

Definition strip_midnight (s : string) : string :=
  match strip_midnight_at s with
  | Some r => r
  | None => s
  end.

Definition clean_date_cell (c : cell) : cell :=
  let s := strip_midnight (Frame.to_str c) in
  if String.eqb s "nan" then Str ""
  else if String.eqb s "NaT" then Str ""
  else Str s.

Fixpoint clean_dates (names : list string) (df : Frame.t) : Frame.t :=
  match names with
  | [] => df
  | col :: rest =>
      let df :=
        if is_date_like col then
          match Frame.get_col col df with
          | Ok vals => Frame.set_col col (map clean_date_cell vals) df
          | Raise _ => df
          end
        else df in
      clean_dates rest df
  end.

(** *** Amount comparison (lines 497-582) *)

Definition amount_keywords : list string :=
  ["amount"; "amt"; "value"; "total"; "sum"; "price"; "cost"].

Definition is_ref_amount (c : string) : bool :=
  existsb (fun kw => Py.contains kw (Py.lower c)) amount_keywords
  && Py.starts_with "Ref" c.

(** [float(str(v).replace(',', '').replace('$', '').strip())] *)
Definition parse_amount (v : cell) : result Float64.float :=
  Float64.parse
    (Py.strip (Py.remove_char "$" (Py.remove_char "," (Frame.to_str v)))).

(** The statement amount of a row: [soa_num], [None] when the cell is
    missing or does not parse. *)
Definition soa_number (soa_val : cell) : option Float64.float :=
  if Frame.notna soa_val then
    match parse_amount soa_val with
    | Ok x => Some x
    | Raise _ => None
    end
  else None.

(** What one reference column contributes for one row: the entry of the
    difference list, and whether the two cells are highlighted. *)
Definition compare_amount (soa_num : option Float64.float) (ref_col : string)
           (ref_val : cell) : option (string * bool) :=
  match soa_num with
  | Some a =>
      if Frame.notna ref_val then
        match parse_amount ref_val with
        | Ok b =>
            let diff := Float64.sub a b in
            let ref_name := Py.before_char "_" ref_col in
            if Float64.ltb Float64.cent (Float64.abs diff) then
              if Float64.ltb Float64.zero diff
              then Some (ref_name +:+ ": +" +:+ Float64.format_2f diff, true)
              else Some (ref_name +:+ ": " +:+ Float64.format_2f diff, true)
            else Some (ref_name +:+ ": 0.00", false)
        | Raise _ => None
        end
      else None
  | None => None
  end.

Fixpoint index_of (name : string) (l : list string) : nat :=
  match l with
  | [] => O
  | x :: rest => if String.eqb x name then O else S (index_of name rest)
  end.

Definition cell_at (df : Frame.t) (row : nat) (col : string) : cell :=
  match Frame.get_col col df with
  | Ok vals => nth row vals NaN
  | Raise _ => NaN
  end.

(** The inner loop over the reference amount columns of one row: the
    difference entries and the highlighted worksheet cells. *)
Fixpoint row_diffs (df : Frame.t) (all_cols : list string) (soa_amt_col : string)
         (row : nat) (soa_num : option Float64.float) (ref_cols : list string)
  : list string * list (nat * nat) :=
  match ref_cols with
  | [] => ([], [])
  | ref_col :: rest =>
      let '(entries, marks) := row_diffs df all_cols soa_amt_col row soa_num rest in
      match compare_amount soa_num ref_col (cell_at df row ref_col) with
      | Some (entry, true) =>
          (entry :: entries,
           (S row, index_of soa_amt_col all_cols)
             :: (S row, index_of ref_col all_cols) :: marks)
      | Some (entry, false) => (entry :: entries, marks)
      | None => (entries, marks)
      end
  end.

Definition amount_row (df : Frame.t) (all_cols : list string) (soa_amt_col : string)
           (ref_cols : list string) (row : nat) : string * list (nat * nat) :=
  let soa_num := soa_number (cell_at df row soa_amt_col) in
  let '(entries, marks) := row_diffs df all_cols soa_amt_col row soa_num ref_cols in
  (match entries with [] => "" | _ => Py.join ", " entries end, marks).

(** [repr] of a list of labels, for labels without quotes or escapes. *)
Definition repr_list (l : list string) : string :=
  "[" +:+ Py.join ", " (map (fun c => "'" +:+ c +:+ "'") l) +:+ "]".

(** The body of the [with pd.ExcelWriter(...)] block: the frame with its
    difference column, the highlighted cells, and the events. *)
Definition amount_stage (soa_amount_col : option string) (df : Frame.t)
  : Frame.t * list (nat * nat) * list event :=
  let all_cols := Frame.columns df in
  let ref_amount_cols := filter (fun c => is_ref_amount c) all_cols in
  let soa_amt_col := default "" soa_amount_col in
  if negb (Py.is_empty soa_amt_col) && Frame.mem soa_amt_col all_cols
     && negb (Nat.eqb (length ref_amount_cols) O)
  then
    let rows := map (amount_row df all_cols soa_amt_col ref_amount_cols)
                    (seq O (Frame.nrows df)) in
    let marks := concat (map snd rows) in
    (Frame.set_col "Amount Difference" (map (fun r => Str (fst r)) rows) df,
     marks,
     [Log ("Amount Highlighting: SOA column = " +:+ soa_amt_col
           +:+ ", Ref columns = " +:+ repr_list ref_amount_cols);
      Status ("Amount comparison: " +:+ Py.str_nat (length ref_amount_cols)
              +:+ " ref column(s) checked, "
              +:+ Py.str_nat (Nat.div (length marks) 2)
              +:+ " mismatches highlighted")])
  else if negb (Py.is_empty soa_amt_col) then
    (df, [],
     [Log ("Amount Highlighting: No matching Ref amount columns found. SOA col = "
           +:+ soa_amt_col);
      Status ("Amount comparison: No Ref amount columns detected for comparison with '"
              +:+ soa_amt_col +:+ "'")])
  else
    (df, [],
     [Log "Amount Highlighting SKIPPED: No SOA amount column selected";
      Status "Amount comparison: No amount column selected for comparison"]).

(** Lines 479-585: writing the workbook. *)
Definition excel_stage (env : Env) (soa_amount_col : option string) (df : Frame.t)
  : Frame.t * list (nat * nat) * list event :=
  let failed e := [Log ("Excel Write Error: " +:+ str_exn e);
                   Status ("Error saving Excel: " +:+ str_exn e)] in
  match excel env with
  | WriterOpenFails e => (df, [], failed e)
  | WriterOk => amount_stage soa_amount_col df
  | WriterSaveFails e =>
      let '(df', marks, evs) := amount_stage soa_amount_col df in
      (df', [], evs ++ failed e)
  end.

(** *** The run *)

Inductive outcome : Type :=
| Completed (df : Frame.t) (highlights : list (nat * nat))
| Aborted
| Crashed (e : exn).

Record run_result : Type := {
  result_outcome : outcome;
  result_events : list event;
  result_refs : list (option RefConfig)
}.

(** Lines 458-587, once the slot loop is over. *)
Definition finish (env : Env) (soa_match : string) (soa_amount_col : option string)
           (st : state) (refs : list (option RefConfig)) : run_result :=
  match Frame.get_col soa_match (df_result st) with
  | Raise e =>
      {| result_outcome := Crashed e; result_events := trace st; result_refs := refs |}
  | Ok keys =>
      let df := Frame.set_col "Match Source"
                  (map (match_source (match_sources_dict st)) (Frame.astype_str keys))
                  (df_result st) in
      let df := if Frame.has_col "Separator1" df then Frame.drop_col "Separator1" df else df in
      let df := clean_dates (Frame.columns df) df in
      let '(df, marks, evs) := excel_stage env soa_amount_col df in
      {| result_outcome := Completed df marks;
         result_events := trace st ++ [Status "Reconciliation Complete"; Progress 100]
                            ++ evs ++ [RecoComplete df];
         result_refs := refs |}
  end.

(** Line 425. *)
Definition total_steps (ref_configs : list (option RefConfig)) (df : Frame.t) : Z :=
  if Nat.ltb O (Frame.nrows df)
  then Z.of_nat (length ref_configs) * Z.of_nat (Frame.nrows df)
  else 1.

(** Lines 422-426: the state in which the slot loop starts. *)
Definition init_state (df : Frame.t) (keys : list cell) (tr : list event) : state :=
  {| df_result := df;
     match_sources_dict := init_dict (Frame.astype_str keys);
     current_step := 0;
     trace := tr ++ [Status "Starting reconciliation..."] |}.

(** Lines 421-587: everything after the ageing step. *)
Definition reconcile (env : Env) (soa_match : string) (soa_amount_col : option string)
           (ref_configs : list (option RefConfig)) (df : Frame.t) (tr : list event)
  : run_result :=
  match Frame.get_col soa_match df with
  | Raise e =>
      {| result_outcome := Crashed e; result_events := tr; result_refs := ref_configs |}
  | Ok keys =>
      let '(st, refs) := run_slots soa_match (total_steps ref_configs df) O ref_configs
                           (init_state df keys tr) in
      finish env soa_match soa_amount_col st refs
  end.

(** Lines 374-400: the statement frame after the ageing step, or the
    exception the step raised. *)
Definition prepare (env : Env) (soa_date_col : option string) (soa_df : Frame.t)
  : result Frame.t :=
  let date_col := default "" soa_date_col in
  if negb (Py.is_empty date_col) && Frame.has_col date_col soa_df
  then age_stage env date_col soa_df
  else Ok soa_df.

(** [RecoWorker.run]; [tr] holds what was emitted and logged before. *)
Definition run (env : Env) (soa_df : Frame.t) (soa_match : string)
           (soa_date_col : option string) (soa_amount_col : option string)
           (ref_configs : list (option RefConfig)) (tr : list event) : run_result :=
  match prepare env soa_date_col soa_df with
  | Ok df => reconcile env soa_match soa_amount_col ref_configs df tr
  | Raise e =>
      {| result_outcome := Aborted;
         result_events := tr ++ [Status ("[WARNING] Age Bucket Error: " +:+ str_exn e);
                                 Log ("Age Bucket Error: " +:+ str_exn e)];
         result_refs := ref_configs |}
  end.

End RecoWorker.

(** ** Dates for the examples: ISO [YYYY-MM-DD] strings *)
Module IsoDate.

(** Days from 1970-01-01 to the given civil date. *)
Definition days_from_civil (y m d : Z) : Z :=
  let y' := if m <=? 2 then y - 1 else y in
  let era := y' / 400 in
  let yoe := y' - era * 400 in
  let mp := (m + 9) mod 12 in
  let doy := (153 * mp + 2) / 5 + d - 1 in
  let doe := yoe * 365 + yoe / 4 - yoe / 100 + doy in
  era * 146097 + doe - 719468.

Definition days_in_month (y m : Z) : Z :=
  if m =? 2 then
    if ((y mod 4 =? 0) && negb (y mod 100 =? 0)) || (y mod 400 =? 0) then 29 else 28
  else if (m =? 4) || (m =? 6) || (m =? 9) || (m =? 11) then 30 else 31.

Definition num (a b : ascii) : option Z :=
  match Float64.digit_val a, Float64.digit_val b with
  | Some x, Some y => Some (10 * x + y)
  | _, _ => None
  end.

(** The midnight of an ISO date, in nanoseconds. *)
Definition parse (c : cell) : option Z :=
  match c with
  | Str (String y1 (String y2 (String y3 (String y4 (String "-"
      (String m1 (String m2 (String "-" (String d1 (String d2 EmptyString)))))))))) =>
      match num y1 y2, num y3 y4, num m1 m2, num d1 d2 with
      | Some yh, Some yl, Some m, Some d =>
          let y := 100 * yh + yl in
          if (1 <=? m) && (m <=? 12) && (1 <=? d) && (d <=? days_in_month y m)
          then Some (days_from_civil y m d * day) else None
      | _, _, _, _ => None
      end
  | _ => None
  end.

(** An environment whose clock reads [time_of_day] nanoseconds after the
    midnight of the given date. *)
Definition env_at (y m d : Z) (time_of_day : Z) : Env :=
  {| today := days_from_civil y m d * day + time_of_day;
     parse_date := parse;
     date_fault := fun _ => None;
     excel := WriterOk |}.

End IsoDate.

(** ** The steps of the normaliser *)

(** A string that does not begin with a character of the class [p]. *)
Definition head_free (p : ascii -> bool) (s : string) : bool :=
  match s with
  | EmptyString => true
  | String c _ => negb (p c)
  end.

(** Line 413-414: one leading quote is removed. *)
Definition unquote (s : string) : string :=
  if Py.starts_with_char Py.quote s then Py.tail s else s.

(** The test of line 417. *)
Definition digit_test (s : string) : bool :=
  Py.isdigit s || (negb (Py.is_empty s) && Py.isdigit (Py.lstrip0 s)).


(** ** Frames with rows *)

(** The frame has rows and a non-empty column [soa_col]. *)
Definition keyed (soa_col : string) (df : Frame.t) : Prop :=
  (0 < Frame.nrows df)%nat /\
  exists keys, Frame.get_col soa_col df = Ok keys /\ keys <> [].

(** All columns of the frame have [k] rows. *)
Definition all_len (k : nat) (df : Frame.t) : Prop :=
  Forall (fun p => length (snd p) = k) df.

(** The label [soa_col] is not the new name [RefN_r] that slot [idx] gives
    one of its return columns (line 440). *)
Definition slot_keeps (soa_col : string) (idx : nat) (config : option RefConfig) : bool :=
  match config with
  | Some cfg =>
      negb (Frame.mem soa_col (map (RecoWorker.ref_column idx) (return_cols cfg)))
  | None => true
  end.

(** No slot from [idx] on renames a return column to [soa_col]. *)
Fixpoint label_kept (soa_col : string) (idx : nat) (configs : list (option RefConfig))
  : bool :=
  match configs with
  | [] => true
  | config :: rest => slot_keeps soa_col idx config && label_kept soa_col (S idx) rest
  end.

(** ** Observations on a run *)

(** The percentages sent on [update_progress], in order. *)
Definition progress_of (evs : list event) : list Z :=
  flat_map (fun e => match e with Progress p => [p] | _ => [] end) evs.

(** The same state, reached after [tr] had already been emitted. *)
Definition prepend (tr : list event) (st : RecoWorker.state) : RecoWorker.state :=
  {| RecoWorker.df_result := RecoWorker.df_result st;
     RecoWorker.match_sources_dict := RecoWorker.match_sources_dict st;
     RecoWorker.current_step := RecoWorker.current_step st;
     RecoWorker.trace := tr ++ RecoWorker.trace st |}.

Definition prepend_events (tr : list event) (r : RecoWorker.run_result)
  : RecoWorker.run_result :=
  {| RecoWorker.result_outcome := RecoWorker.result_outcome r;
     RecoWorker.result_events := tr ++ RecoWorker.result_events r;
     RecoWorker.result_refs := RecoWorker.result_refs r |}.

(** The state without its trace. *)
Definition clear (st : RecoWorker.state) : RecoWorker.state :=
  {| RecoWorker.df_result := RecoWorker.df_result st;
     RecoWorker.match_sources_dict := RecoWorker.match_sources_dict st;
     RecoWorker.current_step := RecoWorker.current_step st;
     RecoWorker.trace := [] |}.

(** *** What a slot contributes to the source labels *)


(** The frame slot [idx] joins out of the running frame [df] (lines 437-443). *)
Definition joined_frame (soa_col : string) (idx : nat) (cfg : RefConfig) (df : Frame.t)
  : result Frame.t :=
  let? rcol := Frame.get_col (match_col cfg) (ref_df cfg) in
  let ref := Frame.set_col (match_col cfg) (RecoWorker.clean_column rcol) (ref_df cfg) in
  let? lcol := Frame.get_col soa_col df in
  let df := Frame.set_col soa_col (RecoWorker.clean_column lcol) df in
  let? extract := Frame.select (match_col cfg :: return_cols cfg) ref in
  Frame.merge_left df
    (Frame.rename_all (match_col cfg :: map (RecoWorker.ref_column idx) (return_cols cfg))
       extract)
    soa_col (match_col cfg).







(** ** Sample data *)
Module Sample.

Definition env : Env := IsoDate.env_at 2024 6 30 0.

(** Two statement rows with one key. *)
Definition twin_soa : Frame.t := [("Inv", [Str "7"; Str "7"])].

Definition seven_ref : RefConfig :=
  {| ref_df := [("Inv", [Str "7"]); ("Amt", [Str "9"])];
     match_col := "Inv"; return_cols := ["Amt"] |}.

(** The statement of the ordering property: key 123 is in the second and
    the fourth reference, key 9 in none. *)
Definition soa : Frame.t := [("Inv", [Str "123"; Str "9"])].

Definition ref_with (key amount : string) : RefConfig :=
  {| ref_df := [("Inv", [Str key; Str "555"]); ("Amt", [Str amount; Str "1.00"])];
     match_col := "Inv"; return_cols := ["Amt"] |}.

Definition four_refs : list (option RefConfig) :=
  [Some (ref_with "1" "10.00"); Some (ref_with "'0123" "20.00");
   Some (ref_with "5" "30.00"); Some (ref_with " 123 " "40.00")].

(** A slot whose match column is not in its frame. *)
Definition broken_ref : RefConfig :=
  {| ref_df := [("Key", [Str "123"]); ("Amt", [Str "1.00"])];
     match_col := "Inv"; return_cols := ["Amt"] |}.

End Sample.

(** ** Auxiliary definitions for the further properties *)

(** The dictionary [d'] has exactly the keys of [d], and the list of each
    key is the list [d] holds, followed by labels that satisfy [ok]. *)
Definition extends (ok : string -> Prop) (d d' : gmap string (list string)) : Prop :=
  forall key,
    match d !! key with
    | None => d' !! key = None
    | Some l => exists l', d' !! key = Some (l ++ l') /\ Forall ok l'
    end.


(** The tables sent on [reco_complete], in order. *)
Definition completions (evs : list event) : list Frame.t :=
  flat_map (fun e => match e with RecoComplete df => [df] | _ => [] end) evs.

(** A cell that holds text. *)
Definition is_text (c : cell) : bool :=
  match c with Str _ => true | _ => false end.


(** The characters of a slot prefix [RefN_]. *)
Definition prefix_char (c : ascii) : bool :=
  Py.isdigit_char c || Ascii.eqb c "R" || Ascii.eqb c "e" || Ascii.eqb c "f"
  || Ascii.eqb c "_".


(** A cell as the date clean-up leaves it: a text that is neither the
    string of a missing value nor that of a missing time. *)
Definition cleaned_date (c : cell) : Prop :=
  exists s, c = Str s /\ s <> "nan" /\ s <> "NaT".


(** A reference slot as the loop leaves it (line 436): the match column,
    when the frame has it, holds the normalised keys; nothing else changes. *)
Definition cleaned_ref (cfg : RefConfig) : RefConfig :=
  match Frame.get_col (match_col cfg) (ref_df cfg) with
  | Ok rcol =>
      RecoWorker.with_ref
        (Frame.set_col (match_col cfg) (RecoWorker.clean_column rcol) (ref_df cfg)) cfg
  | Raise _ => RecoWorker.with_ref (ref_df cfg) cfg
  end.


(** ** The application window ([Oi360App])

    The data holders of the window and the methods that read and write
    them.  Dialogs, widgets and the file system are left out: a method takes
    what the user chose as arguments. *)
Module Oi360App.

(** Lines 719-723. *)
Record t : Type := {
  soa_df : option Frame.t;
  soa_match : option string;
  soa_date_col : option string;
  soa_amount_col : option string;
  refs : list (option RefConfig)
}.

Definition init : t :=
  {| soa_df := None; soa_match := None; soa_date_col := None;
     soa_amount_col := None; refs := repeat None 4 |}.

Definition with_refs (l : list (option RefConfig)) (app : t) : t :=
  {| soa_df := soa_df app; soa_match := soa_match app;
     soa_date_col := soa_date_col app; soa_amount_col := soa_amount_col app;
     refs := l |}.

(** Lines 345-348 of [ColumnSelector.on_confirm]: the amount column handed to
    the callback for the text of the amount drop-down. *)
Definition amount_choice (text : string) : option string :=
  if String.eqb text "None - No Amount Comparison" then None else Some text.

(** Line 857 of [load_soa]. *)
Definition set_soa_df (df : Frame.t) (app : t) : t :=
  {| soa_df := Some df; soa_match := soa_match app;
     soa_date_col := soa_date_col app; soa_amount_col := soa_amount_col app;
     refs := refs app |}.

(** Lines 873-879. *)
Definition save_soa_config (match_col date_col : string) (amount_col : option string)
           (app : t) : t :=
  {| soa_df := soa_df app; soa_match := Some match_col;
     soa_date_col := Some date_col; soa_amount_col := amount_col;
     refs := refs app |}.

(** Lines 901-905: [self.refs[idx] = (df, match, returns, ...)]. *)
Definition save_ref_config (idx : nat) (df : Frame.t) (m : string)
           (returns : list string) (app : t) : result t :=
  if Nat.ltb idx (length (refs app))
  then Ok (with_refs (<[idx := Some {| ref_df := df; match_col := m;
                                       return_cols := returns |}]> (refs app)) app)
  else Raise (IndexError "list assignment index out of range").

(** Lines 852-871, [load_soa]: [picked] is what the file dialog and
    [pd.read_excel] gave ([None] when no file was chosen), [confirmed] the
    texts of the match, date and amount drop-downs when the column dialog was
    confirmed ([None] when it was closed).  The result is the window and the
    exception shown in the error box, if any. *)
Definition load_soa (picked : option (result Frame.t))
           (confirmed : option (string * string * string)) (app : t)
  : t * option exn :=
  match picked with
  | None => (app, None)
  | Some (Raise e) => (app, Some e)
  | Some (Ok df) =>
      let app := set_soa_df df app in
      (match confirmed with
       | Some (m, d, a) => save_soa_config m d (amount_choice a) app
       | None => app
       end, None)
  end.

(** Line 927: [df[match] = df[match].astype(str)], on the frame the slot
    holds. *)
Definition stringify (cfg : RefConfig) : result RefConfig :=
  let? col := Frame.get_col (match_col cfg) (ref_df cfg) in
  Ok (RecoWorker.with_ref
        (Frame.set_col (match_col cfg) (map (fun c => Str (Frame.to_str c)) col)
           (ref_df cfg))
        cfg).

(** Lines 921-928: the slots as the loop leaves them, and the exception that
    ended it, if any.  The frames are the ones the window holds, so the
    window sees the conversion. *)
Fixpoint build_configs (l : list (option RefConfig))
  : list (option RefConfig) * option exn :=
  match l with
  | [] => ([], None)
  | None :: rest =>
      let '(r, e) := build_configs rest in (None :: r, e)
  | Some cfg :: rest =>
      match stringify cfg with
      | Raise e => (Some cfg :: rest, Some e)
      | Ok cfg' => let '(r, e) := build_configs rest in (Some cfg' :: r, e)
      end
  end.

(** What [run_reco] does: the warning box, an exception that leaves the
    method, or a worker started on the given arguments. *)
Inductive reco_start : Type :=
| MissingInfo
| StartFailed (e : exn) (app : t)
| Started (app : t) (df : Frame.t) (soa_match : string)
          (soa_date_col soa_amount_col : option string)
          (ref_configs : list (option RefConfig)).

(** Lines 914-936.  The second [start()] finds the thread running and does
    nothing. *)
Definition run_reco (app : t) : reco_start :=
  match soa_df app, soa_match app with
  | Some df, Some m =>
      match build_configs (refs app) with
      | (l, Some e) => StartFailed e (with_refs l app)
      | (l, None) =>
          Started (with_refs l app) df m (soa_date_col app) (soa_amount_col app) l
      end
  | _, _ => MissingInfo
  end.

End Oi360App.


(** The same environment with another state of the workbook writer. *)
Definition with_writer (w : excel_env) (env : Env) : Env :=
  {| today := today env; parse_date := parse_date env; date_fault := date_fault env;
     excel := w |}.

(** A cell whose key the normaliser leaves fixed. *)
Definition stable_key (c : cell) : bool :=
  String.eqb (clean_match_value (clean_match_value (Frame.to_str c)))
             (clean_match_value (Frame.to_str c)).

(** A slot whose reference keys the normaliser leaves fixed once they are
    normalised. *)
Definition stable_ref (config : option RefConfig) : bool :=
  match config with
  | Some cfg =>
      match Frame.get_col (match_col cfg) (ref_df cfg) with
      | Ok rcol => forallb stable_key rcol
      | Raise _ => true
      end
  | None => true
  end.

(** A date parser that also reads one date with a time of day, and the
    environment of 2024-06-30 at a given time of the day with this parser. *)
Definition timed_parse (c : cell) : option Z :=
  if Frame.cell_eqb c (Str "2024-06-16 13:00")
  then Some (IsoDate.days_from_civil 2024 6 16 * day + 13 * 3600 * 1000000000)
  else IsoDate.parse c.

Definition timed_env (time_of_day : Z) : Env :=
  {| today := IsoDate.days_from_civil 2024 6 30 * day + time_of_day;
     parse_date := timed_parse;
     date_fault := fun _ => None;
     excel := WriterOk |}.

(** The label [soa_col] is none of the names the join of slot [idx] can give
    a column that comes from the reference: [RefN_r], [RefN_r_x] or
    [RefN_r_y] for a return column [r], or [m_y] for the match label [m]. *)
Definition slot_clear (soa_col : string) (idx : nat) (config : option RefConfig) : bool :=
  match config with
  | Some cfg =>
      let refs := map (RecoWorker.ref_column idx) (return_cols cfg) in
      negb (Frame.mem soa_col refs)
      && negb (Frame.mem soa_col (map (fun r => r +:+ "_x") refs))
      && negb (Frame.mem soa_col (map (fun r => r +:+ "_y") refs))
      && negb (String.eqb soa_col (match_col cfg +:+ "_y"))
  | None => true
  end.

Fixpoint label_clear (soa_col : string) (idx : nat) (configs : list (option RefConfig))
  : bool :=
  match configs with
  | [] => true
  | config :: rest => slot_clear soa_col idx config && label_clear soa_col (S idx) rest
  end.

(** The frame has exactly one column with the label [n]. *)
Definition once (n : string) (df : Frame.t) : bool :=
  Nat.eqb (count_occ string_dec (Frame.columns df) n) 1.

(** * Properties *)

(** ** Stripping *)
Section Stripping.

Variable p : ascii -> bool.

Lemma lstrip_by_head_free s : head_free p (Py.lstrip_by p s) = true.
Proof.
  induction s as [|c t IH]; simpl; [reflexivity|].
  destruct (p c) eqn:E; [exact IH|]. simpl. now rewrite E.
Qed.

Lemma lstrip_by_fixed s : head_free p s = true -> Py.lstrip_by p s = s.
Proof.
  destruct s as [|c t]; simpl; [reflexivity|].
  intros H. apply negb_true_iff in H. now rewrite H.
Qed.

Lemma lstrip_by_length s : (String.length (Py.lstrip_by p s) <= String.length s)%nat.
Proof.
  induction s as [|c t IH]; simpl; [lia|].
  destruct (p c); simpl; lia.
Qed.

Lemma lstrip_by_shrinks c t :
  p c = true -> (String.length (Py.lstrip_by p (String c t)) < String.length (String c t))%nat.
Proof.
  intros H. simpl. rewrite H. pose proof (lstrip_by_length t). lia.
Qed.

Lemma rstrip_by_length s : (String.length (Py.rstrip_by p s) <= String.length s)%nat.
Proof.
  induction s as [|c t IH]; simpl; [lia|].
  destruct (p c && Py.is_empty (Py.rstrip_by p t)); simpl; lia.
Qed.

Lemma rstrip_by_idem s : Py.rstrip_by p (Py.rstrip_by p s) = Py.rstrip_by p s.
Proof.
  induction s as [|c t IH]; simpl; [reflexivity|].
  destruct (p c && Py.is_empty (Py.rstrip_by p t)) eqn:E; simpl; [reflexivity|].
  rewrite IH, E. reflexivity.
Qed.

Lemma rstrip_fixed_tail c t :
  Py.rstrip_by p (String c t) = String c t -> Py.rstrip_by p t = t.
Proof.
  simpl. destruct (p c && Py.is_empty (Py.rstrip_by p t)); congruence.
Qed.

Lemma rstrip_fixed_suffix (q : ascii -> bool) s :
  Py.rstrip_by p s = s -> Py.rstrip_by p (Py.lstrip_by q s) = Py.lstrip_by q s.
Proof.
  induction s as [|c t IH]; intros H; [reflexivity|].
  simpl. destruct (q c); [|exact H].
  apply IH. eapply rstrip_fixed_tail. exact H.
Qed.

End Stripping.

Lemma all_chars_lstrip (p q : ascii -> bool) s :
  Py.all_chars p s = true -> Py.all_chars p (Py.lstrip_by q s) = true.
Proof.
  induction s as [|c t IH]; simpl; [reflexivity|].
  intros H. apply andb_true_iff in H as [Hc Ht].
  destruct (q c); [now apply IH|]. simpl. now rewrite Hc, Ht.
Qed.

Lemma zero_is_digit c : Py.is_zero_char c = true -> Py.isdigit_char c = true.
Proof.
  unfold Py.is_zero_char. intros H. apply Ascii.eqb_eq in H. now subst c.
Qed.

Lemma all_digits_lstrip0 s :
  Py.all_chars Py.isdigit_char (Py.lstrip0 s) = true ->
  Py.all_chars Py.isdigit_char s = true.
Proof.
  unfold Py.lstrip0. induction s as [|c t IH]; simpl; [reflexivity|].
  destruct (Py.is_zero_char c) eqn:E.
  - intros H. rewrite (zero_is_digit _ E). simpl. now apply IH.
  - simpl. tauto.
Qed.

Lemma digit_test_isdigit s : digit_test s = true -> Py.isdigit s = true.
Proof.
  unfold digit_test, Py.isdigit. intros H.
  apply orb_true_iff in H as [H|H]; [exact H|].
  apply andb_true_iff in H as [Hne H]. apply andb_true_iff in H as [_ H].
  rewrite Hne. simpl. now apply all_digits_lstrip0.
Qed.

Lemma clean_match_value_unfold x :
  clean_match_value x =
  let s := unquote (Py.strip x) in
  if digit_test s then Py.str_or (Py.lstrip0 s) "0" else s.
Proof. reflexivity. Qed.

Lemma strip_rstrip_fixed x : Py.rstrip_by Py.isspace (Py.strip x) = Py.strip x.
Proof. unfold Py.strip. apply rstrip_by_idem. Qed.

Lemma unquote_rstrip_fixed s :
  Py.rstrip_by Py.isspace s = s -> Py.rstrip_by Py.isspace (unquote s) = unquote s.
Proof.
  unfold unquote. destruct s as [|c t]; simpl Py.starts_with_char; [tauto|].
  destruct (Ascii.eqb c Py.quote); [|tauto].
  apply rstrip_fixed_tail.
Qed.

Lemma digits_result_shape s :
  Py.isdigit s = true ->
  let r := Py.str_or (Py.lstrip0 s) "0" in
  Py.isdigit r = true /\ Py.str_or (Py.lstrip0 r) "0" = r.
Proof.
  intros H. unfold Py.isdigit in H. apply andb_true_iff in H as [_ Hall].
  pose proof (all_chars_lstrip Py.isdigit_char Py.is_zero_char s Hall) as Ht.
  pose proof (lstrip_by_head_free Py.is_zero_char s) as Hh.
  fold (Py.lstrip0 s) in Ht, Hh.
  cbv zeta. unfold Py.str_or at 1 3.
  destruct (Py.lstrip0 s) as [|c t] eqn:E; simpl Py.is_empty; cbv iota.
  - split; reflexivity.
  - split.
    + unfold Py.isdigit. simpl Py.is_empty. exact Ht.
    + unfold Py.lstrip0. rewrite (lstrip_by_fixed _ _ Hh). reflexivity.
Qed.

(** Every normalised key is free of trailing white space. *)
Lemma clean_rstrip_fixed x :
  Py.rstrip_by Py.isspace (clean_match_value x) = clean_match_value x.
Proof.
  rewrite clean_match_value_unfold. cbv zeta.
  pose proof (unquote_rstrip_fixed _ (strip_rstrip_fixed x)) as Hs.
  destruct (digit_test (unquote (Py.strip x))) eqn:D; [|exact Hs].
  unfold Py.str_or. destruct (Py.is_empty (Py.lstrip0 _)) eqn:E; [reflexivity|].
  unfold Py.lstrip0. now apply rstrip_fixed_suffix.
Qed.

Lemma strip_fixed s :
  Py.starts_with_space s = false -> Py.rstrip_by Py.isspace s = s -> Py.strip s = s.
Proof.
  intros Hh Hr. unfold Py.strip. rewrite lstrip_by_fixed; [exact Hr|].
  destruct s; simpl in *; [reflexivity|]. now rewrite Hh.
Qed.

Lemma clean_fixed_when_clear x :
  Py.starts_with_char Py.quote (clean_match_value x) = false ->
  Py.starts_with_space (clean_match_value x) = false ->
  clean_match_value (clean_match_value x) = clean_match_value x.
Proof.
  intros Hq Hs.
  set (r := clean_match_value x) in *.
  rewrite (clean_match_value_unfold r). cbv zeta.
  rewrite (strip_fixed r Hs (clean_rstrip_fixed x)).
  unfold unquote at 1 2 3. rewrite Hq.
  subst r. rewrite clean_match_value_unfold in *. cbv zeta in *.
  destruct (digit_test (unquote (Py.strip x))) eqn:D.
  - apply digit_test_isdigit in D.
    destruct (digits_result_shape _ D) as [Hd Hfix].
    unfold digit_test. rewrite Hd. simpl. exact Hfix.
  - now rewrite D.
Qed.

Lemma strip_length s : (String.length (Py.strip s) <= String.length s)%nat.
Proof.
  unfold Py.strip.
  pose proof (rstrip_by_length Py.isspace (Py.lstrip_by Py.isspace s)).
  pose proof (lstrip_by_length Py.isspace s). lia.
Qed.

Lemma unquote_length s : (String.length (unquote s) <= String.length s)%nat.
Proof.
  unfold unquote. destruct s as [|c t]; simpl; [lia|].
  destruct (Ascii.eqb c Py.quote); simpl; lia.
Qed.

Lemma digits_result_length s :
  digit_test s = true ->
  (String.length (Py.str_or (Py.lstrip0 s) "0") <= String.length s)%nat.
Proof.
  intros D. apply digit_test_isdigit in D. unfold Py.isdigit in D.
  apply andb_true_iff in D as [Hne _].
  unfold Py.str_or. destruct (Py.is_empty (Py.lstrip0 s)).
  - destruct s; simpl in *; [discriminate|lia].
  - apply lstrip_by_length.
Qed.

Lemma clean_length_unquote x :
  (String.length (clean_match_value x) <= String.length (unquote (Py.strip x)))%nat.
Proof.
  rewrite clean_match_value_unfold. cbv zeta.
  destruct (digit_test (unquote (Py.strip x))) eqn:D; [|lia].
  now apply digits_result_length.
Qed.

Lemma clean_shrinks_marked s :
  Py.starts_with_char Py.quote s = true \/ Py.starts_with_space s = true ->
  (String.length (clean_match_value s) < String.length s)%nat.
Proof.
  intros H.
  pose proof (clean_length_unquote s) as L1.
  pose proof (unquote_length (Py.strip s)) as L2.
  pose proof (strip_length s) as L3.
  destruct s as [|c t]; [destruct H; discriminate|].
  destruct (Py.isspace c) eqn:Sp.
  - assert (String.length (Py.strip (String c t)) < String.length (String c t))%nat; [|lia].
    unfold Py.strip.
    pose proof (rstrip_by_length Py.isspace (Py.lstrip_by Py.isspace (String c t))).
    pose proof (lstrip_by_shrinks Py.isspace c t Sp). lia.
  - destruct H as [H|H]; [|simpl in H; congruence].
    simpl in H.
    assert (Hs : exists t', Py.strip (String c t) = String c t').
    { unfold Py.strip. simpl. rewrite Sp. simpl. rewrite Sp. simpl. eauto. }
    destruct Hs as [t' Hs].
    assert (String.length (unquote (Py.strip (String c t)))
            < String.length (Py.strip (String c t)))%nat; [|lia].
    rewrite Hs. unfold unquote. simpl. rewrite H. simpl. lia.
Qed.

(** ** Key normalisation *)

(** C1, as the code has it: a normalised key is a fixed point of the
    normaliser exactly when it begins neither with the quote marker nor with
    white space.  (The normaliser trims, then removes one leading quote, and
    does not trim again.) *)
Theorem clean_match_value_fixed_iff (x : string) :
  clean_match_value (clean_match_value x) = clean_match_value x <->
  Py.starts_with_char Py.quote (clean_match_value x) = false /\
  Py.starts_with_space (clean_match_value x) = false.
Proof.
  split.
  - intros Hfix.
    destruct (Py.starts_with_char Py.quote (clean_match_value x)) eqn:Hq.
    + pose proof (clean_shrinks_marked _ (or_introl Hq)) as L.
      rewrite Hfix in L. lia.
    + destruct (Py.starts_with_space (clean_match_value x)) eqn:Hs.
      * pose proof (clean_shrinks_marked _ (or_intror Hs)) as L.
        rewrite Hfix in L. lia.
      * split; reflexivity.
  - intros [Hq Hs]. now apply clean_fixed_when_clear.
Qed.

Lemma clean_match_value_fixed_iff_witness :
  clean_match_value (clean_match_value " '0308607218 ") = clean_match_value " '0308607218 ".
Proof.
  apply (proj2 (clean_match_value_fixed_iff " '0308607218 ")).
  split; reflexivity.
Defined.

(** C1 as stated fails: a doubled quote loses one quote per pass. *)
Lemma clean_match_value_not_idempotent :
  clean_match_value (clean_match_value "''7") <> clean_match_value "''7".
Proof. vm_compute. discriminate. Qed.


(** ** Age buckets *)

Lemma whole_days (k tod : Z) : 0 <= tod < day -> (k * day + tod) / day = k.
Proof.
  intros H. rewrite Z.div_add_l by (unfold day; lia).
  rewrite Z.div_small by exact H. lia.
Qed.

Lemma iso_age (y m d tod k t : Z) c :
  IsoDate.parse c = Some t ->
  c <> NaN ->
  IsoDate.days_from_civil y m d * day - t = k * day ->
  0 <= tod < day ->
  RecoWorker.age_days (IsoDate.env_at y m d tod) c = Some k.
Proof.
  intros Hp Hc Hk Ht. unfold RecoWorker.age_days, RecoWorker.to_datetime.
  destruct c; [congruence| |]; unfold IsoDate.env_at; cbn [parse_date today];
    rewrite Hp; cbn [option_map]; f_equal;
    rewrite <- (whole_days k tod Ht); f_equal; lia.
Qed.

Ltac iso_age_at k :=
  eapply (iso_age _ _ _ _ k);
  [vm_compute; reflexivity | discriminate | vm_compute; reflexivity | eassumption].

(** C3: the bucket of a missing age is "Unknown", the bounds 15, 30, 60, 90
    and 120 are inclusive upper bounds, and on 2024-06-30 (at any time of the
    day) the dates 2024-06-16, 2024-06-15 and 2024-06-01 are 14, 15 and 29
    days old, in the buckets "0-15", "0-15" and "16-30"; a cell that does not
    parse has a missing age and the bucket "Unknown". *)
Theorem bucket_policy :
  bucket None = "Unknown" /\
  (forall d, d <= 15 -> bucket (Some d) = "0-15") /\
  (forall d, 16 <= d <= 30 -> bucket (Some d) = "16-30") /\
  (forall d, 31 <= d <= 60 -> bucket (Some d) = "31-60") /\
  (forall d, 61 <= d <= 90 -> bucket (Some d) = "61-90") /\
  (forall d, 91 <= d <= 120 -> bucket (Some d) = "91-120") /\
  (forall d, 121 <= d -> bucket (Some d) = "121+") /\
  (forall tod, 0 <= tod < day ->
     let age := RecoWorker.age_days (IsoDate.env_at 2024 6 30 tod) in
     age (Str "2024-06-16") = Some 14 /\ bucket (age (Str "2024-06-16")) = "0-15" /\
     age (Str "2024-06-15") = Some 15 /\ bucket (age (Str "2024-06-15")) = "0-15" /\
     age (Str "2024-06-01") = Some 29 /\ bucket (age (Str "2024-06-01")) = "16-30" /\
     age (Str "n/a") = None /\ bucket (age (Str "n/a")) = "Unknown") /\
  (forall env c, RecoWorker.to_datetime env c = None ->
     RecoWorker.age_days env c = None /\ bucket (RecoWorker.age_days env c) = "Unknown") /\
  RecoWorker.prepare (IsoDate.env_at 2024 6 30 (12 * 3600 * 1000000000)) (Some "Date")
    [("Date", [Str "2024-06-16"; Str "2024-06-15"; Str "2024-06-01"; Str "n/a"])]
  = Ok [("Age Bucket", [Str "0-15"; Str "0-15"; Str "16-30"; Str "Unknown"]);
        ("Date", [Str "2024-06-16"; Str "2024-06-15"; Str "2024-06-01"; Str "n/a"]);
        ("Age (Days)", [Num 14 true; Num 15 true; Num 29 true; NaN])].
Proof.
  repeat split.
  - intros d H. unfold bucket. destruct (Z.leb_spec d 15); [reflexivity|lia].
  - intros d H. unfold bucket.
    destruct (Z.leb_spec d 15); [lia|]. destruct (Z.leb_spec d 30); [reflexivity|lia].
  - intros d H. unfold bucket.
    destruct (Z.leb_spec d 15); [lia|]. destruct (Z.leb_spec d 30); [lia|].
    destruct (Z.leb_spec d 60); [reflexivity|lia].
  - intros d H. unfold bucket.
    destruct (Z.leb_spec d 15); [lia|]. destruct (Z.leb_spec d 30); [lia|].
    destruct (Z.leb_spec d 60); [lia|]. destruct (Z.leb_spec d 90); [reflexivity|lia].
  - intros d H. unfold bucket.
    destruct (Z.leb_spec d 15); [lia|]. destruct (Z.leb_spec d 30); [lia|].
    destruct (Z.leb_spec d 60); [lia|]. destruct (Z.leb_spec d 90); [lia|].
    destruct (Z.leb_spec d 120); [reflexivity|lia].
  - intros d H. unfold bucket.
    destruct (Z.leb_spec d 15); [lia|]. destruct (Z.leb_spec d 30); [lia|].
    destruct (Z.leb_spec d 60); [lia|]. destruct (Z.leb_spec d 90); [lia|].
    destruct (Z.leb_spec d 120); [lia|reflexivity].
  - iso_age_at 14.
  - cbv zeta. rewrite (ltac:(iso_age_at 14) :
      RecoWorker.age_days (IsoDate.env_at 2024 6 30 tod) (Str "2024-06-16") = Some 14).
    reflexivity.
  - iso_age_at 15.
  - cbv zeta. rewrite (ltac:(iso_age_at 15) :
      RecoWorker.age_days (IsoDate.env_at 2024 6 30 tod) (Str "2024-06-15") = Some 15).
    reflexivity.
  - iso_age_at 29.
  - cbv zeta. rewrite (ltac:(iso_age_at 29) :
      RecoWorker.age_days (IsoDate.env_at 2024 6 30 tod) (Str "2024-06-01") = Some 29).
    reflexivity.
  - unfold RecoWorker.age_days. now rewrite H.
  - unfold RecoWorker.age_days. now rewrite H.
Qed.

Lemma bucket_policy_witness :
  bucket (Some 15) = "0-15" /\ bucket (Some 16) = "16-30" /\
  RecoWorker.age_days (IsoDate.env_at 2024 6 30 (23 * 3600 * 1000000000)) (Str "2024-06-15")
  = Some 15.
Proof.
  destruct bucket_policy as (_ & B15 & B30 & _ & _ & _ & _ & Hex & _).
  split; [apply B15; lia|]. split; [apply B30; lia|].
  apply (Hex (23 * 3600 * 1000000000)). unfold day. lia.
Defined.

(** ** The ageing step as a gate *)

Lemma date_fault_raises env date_col df col e :
  Frame.get_col date_col df = Ok col ->
  date_fault env col = Some e ->
  RecoWorker.age_stage env date_col df = Raise e.
Proof.
  intros Hc Hf. unfold RecoWorker.age_stage. rewrite Hc. simpl. now rewrite Hf.
Qed.

(** C5: when a date column is designated and present and the ageing step
    raises, the run is aborted: the warning is sent and logged, nothing else
    is emitted (no matching status, no progress, no result), and the
    reference frames are left as they were. *)
Theorem date_error_aborts env soa_df soa_match date_col amount_col cfgs tr e :
  Py.is_empty date_col = false ->
  Frame.has_col date_col soa_df = true ->
  RecoWorker.age_stage env date_col soa_df = Raise e ->
  let r := RecoWorker.run env soa_df soa_match (Some date_col) amount_col cfgs tr in
  RecoWorker.result_outcome r = RecoWorker.Aborted /\
  RecoWorker.result_events r =
    tr ++ [Status ("[WARNING] Age Bucket Error: " +:+ str_exn e);
           Log ("Age Bucket Error: " +:+ str_exn e)] /\
  RecoWorker.result_refs r = cfgs /\
  (forall out hl, RecoWorker.result_outcome r <> RecoWorker.Completed out hl).
Proof.
  intros Hne Hcol Hraise. cbv zeta.
  unfold RecoWorker.run, RecoWorker.prepare. simpl default.
  rewrite Hne, Hcol. simpl. rewrite Hraise. simpl.
  repeat split. intros out hl. discriminate.
Qed.

Lemma date_error_aborts_witness :
  let env := {| today := 0; parse_date := IsoDate.parse;
                date_fault := fun _ => Some (ValueError "bad column");
                excel := WriterOk |} in
  let cfg := {| ref_df := [("Inv", [Str "1"]); ("Amt", [Str "5"])];
                match_col := "Inv"; return_cols := ["Amt"] |} in
  RecoWorker.result_events
    (RecoWorker.run env [("Inv", [Str "1"]); ("Date", [Str "x"])] "Inv" (Some "Date") None
       [Some cfg] [])
  = [Status "[WARNING] Age Bucket Error: bad column"; Log "Age Bucket Error: bad column"].
Proof.
  cbv zeta.
  refine (proj1 (proj2 (date_error_aborts _ _ "Inv" "Date" None _ [] (ValueError "bad column")
                          _ _ _))); reflexivity.
Defined.

(** ** Progress *)

Lemma progress_of_app evs evs' :
  progress_of (evs ++ evs') = progress_of evs ++ progress_of evs'.
Proof. unfold progress_of. apply flat_map_app. Qed.

Lemma amount_stage_no_progress amount_col df :
  progress_of (snd (RecoWorker.amount_stage amount_col df)) = [].
Proof.
  unfold RecoWorker.amount_stage.
  destruct (_ && _ && _); [reflexivity|]. now destruct (negb _).
Qed.

Lemma excel_stage_no_progress env amount_col df :
  progress_of (snd (RecoWorker.excel_stage env amount_col df)) = [].
Proof.
  unfold RecoWorker.excel_stage.
  pose proof (amount_stage_no_progress amount_col df) as H.
  destruct (excel env); [exact H|reflexivity|].
  destruct (RecoWorker.amount_stage amount_col df) as [[df' marks] evs].
  cbn [snd] in *. rewrite progress_of_app, H. reflexivity.
Qed.

(** The part of C7 that holds: a run that completes sends 100 last. *)
Lemma completed_run_ends_at_100 env soa_df soa_match date_col amount_col configs tr out hl :
  RecoWorker.result_outcome
    (RecoWorker.run env soa_df soa_match date_col amount_col configs tr)
  = RecoWorker.Completed out hl ->
  exists before,
    progress_of (RecoWorker.result_events
                   (RecoWorker.run env soa_df soa_match date_col amount_col configs tr))
    = before ++ [100].
Proof.
  unfold RecoWorker.run.
  destruct (RecoWorker.prepare env date_col soa_df) as [df|e]; [|discriminate].
  unfold RecoWorker.reconcile.
  destruct (Frame.get_col soa_match df) as [keys|e]; [|discriminate].
  destruct (RecoWorker.run_slots soa_match _ O configs _) as [st refs].
  unfold RecoWorker.finish.
  destruct (Frame.get_col soa_match (RecoWorker.df_result st)) as [keysN|e]; [|discriminate].
  match goal with
  | |- context [RecoWorker.excel_stage env amount_col ?d] =>
      pose proof (excel_stage_no_progress env amount_col d) as H;
      destruct (RecoWorker.excel_stage env amount_col d) as [[df' marks] evs]
  end.
  intros _. cbn [RecoWorker.result_events snd] in *.
  exists (progress_of (RecoWorker.trace st)).
  rewrite !progress_of_app, H. reflexivity.
Qed.

(** C7 fails on fan-out: one statement row whose key occurs five times in
    the first of four reference slots. [total_steps] is 4, from the row count
    before the join, while the loop counts the five joined rows. *)
Theorem progress_overshoots_on_fan_out :
  let soa := [("Inv", [Str "1"])] in
  let ref := {| ref_df := [("Inv", repeat (Str "1") 5); ("Amt", repeat (Str "9") 5)];
                match_col := "Inv"; return_cols := ["Amt"] |} in
  progress_of
    (RecoWorker.result_events
       (RecoWorker.run (IsoDate.env_at 2024 6 30 0) soa "Inv" None None
          [Some ref; None; None; None] []))
  = [25; 50; 75; 100; 125; 100].
Proof. vm_compute. reflexivity. Qed.

(** ** Amount comparison *)











(** ** Frames *)

Lemma has_col_app n (df df' : Frame.t) :
  Frame.has_col n (df ++ df') = Frame.has_col n df || Frame.has_col n df'.
Proof.
  unfold Frame.has_col, Frame.mem, Frame.columns.
  now rewrite map_app, existsb_app.
Qed.

Lemma get_col_has_col n (df : Frame.t) col :
  Frame.get_col n df = Ok col -> Frame.has_col n df = true.
Proof.
  unfold Frame.has_col, Frame.mem, Frame.columns.
  induction df as [|[m c] rest IH]; simpl; [discriminate|].
  rewrite (String.eqb_sym n m).
  destruct (String.eqb m n); [reflexivity|]. exact IH.
Qed.

Lemma has_col_get_col n (df : Frame.t) :
  Frame.has_col n df = true -> exists col, Frame.get_col n df = Ok col.
Proof.
  unfold Frame.has_col, Frame.mem, Frame.columns.
  induction df as [|[m c] rest IH]; simpl; [discriminate|].
  rewrite (String.eqb_sym n m).
  destruct (String.eqb m n); [eauto|]. exact IH.
Qed.

Lemma no_col_get_col n (df : Frame.t) :
  Frame.has_col n df = false -> Frame.get_col n df = Raise (KeyError n).
Proof.
  unfold Frame.has_col, Frame.mem, Frame.columns.
  induction df as [|[m c] rest IH]; simpl; [reflexivity|].
  rewrite (String.eqb_sym n m).
  destruct (String.eqb m n); [discriminate|]. exact IH.
Qed.

Lemma get_col_app_l n (df df' : Frame.t) col :
  Frame.get_col n df = Ok col -> Frame.get_col n (df ++ df') = Ok col.
Proof.
  induction df as [|[m c] rest IH]; simpl; [discriminate|].
  destruct (String.eqb m n); [tauto|]. exact IH.
Qed.

Lemma get_col_app_r n (df df' : Frame.t) :
  Frame.has_col n df = false -> Frame.get_col n (df ++ df') = Frame.get_col n df'.
Proof.
  unfold Frame.has_col, Frame.mem, Frame.columns.
  induction df as [|[m c] rest IH]; simpl; [reflexivity|].
  rewrite (String.eqb_sym n m).
  destruct (String.eqb m n); [discriminate|]. exact IH.
Qed.

Lemma drop_col_app_r n (df df' : Frame.t) :
  Frame.has_col n df = false -> Frame.drop_col n (df ++ df') = df ++ Frame.drop_col n df'.
Proof.
  unfold Frame.has_col, Frame.mem, Frame.columns.
  induction df as [|[m c] rest IH]; simpl; [reflexivity|].
  rewrite (String.eqb_sym n m).
  destruct (String.eqb m n); [discriminate|]. intros H. now rewrite IH.
Qed.

Lemma replace_col_same n (df : Frame.t) col :
  Frame.get_col n df = Ok col -> Frame.replace_col n col df = df.
Proof.
  induction df as [|[m c] rest IH]; simpl; [discriminate|].
  destruct (String.eqb m n).
  - intros [= ->]. reflexivity.
  - intros H. now rewrite IH.
Qed.

Lemma set_col_same n (df : Frame.t) col :
  Frame.get_col n df = Ok col -> Frame.set_col n col df = df.
Proof.
  intros H. unfold Frame.set_col.
  rewrite (get_col_has_col _ _ _ H). now apply replace_col_same.
Qed.

Lemma set_col_fresh n v (df : Frame.t) :
  Frame.has_col n df = false -> Frame.set_col n v df = df ++ [(n, v)].
Proof. intros H. unfold Frame.set_col. now rewrite H. Qed.

Lemma get_col_replace_eq n (df : Frame.t) v :
  Frame.has_col n df = true -> Frame.get_col n (Frame.replace_col n v df) = Ok v.
Proof.
  unfold Frame.has_col, Frame.mem, Frame.columns.
  induction df as [|[m c] rest IH]; simpl; [discriminate|].
  rewrite (String.eqb_sym n m).
  destruct (String.eqb m n) eqn:E; simpl; rewrite E; [reflexivity|]. exact IH.
Qed.

Lemma get_col_replace_ne n n' (df : Frame.t) v :
  n <> n' -> Frame.get_col n (Frame.replace_col n' v df) = Frame.get_col n df.
Proof.
  intros Hne. induction df as [|[m c] rest IH]; simpl; [reflexivity|].
  destruct (String.eqb m n') eqn:E; simpl.
  - apply String.eqb_eq in E. subst m.
    destruct (String.eqb n' n) eqn:E'; [|reflexivity].
    apply String.eqb_eq in E'. congruence.
  - destruct (String.eqb m n); [reflexivity|]. exact IH.
Qed.

Lemma get_col_set_eq n (df : Frame.t) v :
  Frame.get_col n (Frame.set_col n v df) = Ok v.
Proof.
  unfold Frame.set_col. destruct (Frame.has_col n df) eqn:H.
  - now apply get_col_replace_eq.
  - rewrite get_col_app_r by exact H. simpl. now rewrite String.eqb_refl.
Qed.

Lemma get_col_set_ne n n' (df : Frame.t) v :
  n <> n' -> Frame.get_col n (Frame.set_col n' v df) = Frame.get_col n df.
Proof.
  intros Hne. unfold Frame.set_col. destruct (Frame.has_col n' df) eqn:H.
  - now apply get_col_replace_ne.
  - destruct (Frame.has_col n df) eqn:Hn.
    + destruct (has_col_get_col _ _ Hn) as [col Hc].
      rewrite Hc. now apply get_col_app_l.
    + rewrite get_col_app_r by exact Hn. simpl.
      destruct (String.eqb n' n) eqn:E.
      * apply String.eqb_eq in E. congruence.
      * now rewrite no_col_get_col.
Qed.

Lemma get_col_drop_ne n n' (df : Frame.t) :
  n <> n' -> Frame.get_col n (Frame.drop_col n' df) = Frame.get_col n df.
Proof.
  intros Hne. induction df as [|[m c] rest IH]; simpl; [reflexivity|].
  destruct (String.eqb m n') eqn:E; simpl.
  - apply String.eqb_eq in E. subst m.
    destruct (String.eqb n' n) eqn:E'; [|reflexivity].
    apply String.eqb_eq in E'. congruence.
  - destruct (String.eqb m n); [reflexivity|]. exact IH.
Qed.

(** ** The ageing step leaves the statement's columns alone *)

(** C8, as the code has it: on a statement without columns named
    "Age Bucket" or "Age (Days)", the ageing step puts the bucket column
    first, keeps every statement column (the date column among them) in place
    with its values, and adds the age column last.  (The date clean-up of the
    output, lines 467-477, is a later step and does rewrite date columns.) *)
Theorem ageing_preserves_frame env date_col (df : Frame.t) col :
  Frame.get_col date_col df = Ok col ->
  date_fault env col = None ->
  Frame.has_col "Age Bucket" df = false ->
  Frame.has_col "Age (Days)" df = false ->
  let ages := map (RecoWorker.age_days env) col in
  let aged :=
    ("Age Bucket", map (fun a => Str (bucket a)) ages)
      :: df ++ [("Age (Days)",
                 map (RecoWorker.age_cell (existsb RecoWorker.is_none ages)) ages)] in
  RecoWorker.age_stage env date_col df = Ok aged /\
  Frame.get_col date_col aged = Ok col /\
  (forall n, Frame.has_col n df = true -> Frame.get_col n aged = Frame.get_col n df).
Proof.
  intros Hcol Hfault Hb Hd. cbv zeta.
  assert (Hne : date_col <> "Age Bucket").
  { intros ->. apply get_col_has_col in Hcol. congruence. }
  assert (Hkeep : forall n v w, Frame.has_col n df = true ->
            Frame.get_col n (("Age Bucket", v) :: df ++ [("Age (Days)", w)])
            = Frame.get_col n df).
  { intros n v w Hn.
    change (Frame.get_col n (("Age Bucket", v) :: df ++ [("Age (Days)", w)]))
      with (if String.eqb "Age Bucket" n then Ok v
            else Frame.get_col n (df ++ [("Age (Days)", w)])).
    destruct (String.eqb_spec "Age Bucket" n) as [<-|_]; [congruence|].
    destruct (has_col_get_col _ _ Hn) as [c Hc]. rewrite Hc.
    now apply get_col_app_l. }
  split; [|split].
  - assert (Hb' : forall w, Frame.has_col "Age Bucket" (df ++ [("Age (Days)", w)]) = false).
    { intros w. rewrite has_col_app, Hb. reflexivity. }
    unfold RecoWorker.age_stage. rewrite Hcol. cbn [bind]. rewrite Hfault.
    rewrite (set_col_fresh "Age (Days)" _ df Hd).
    rewrite (set_col_fresh "Age Bucket" _ _ (Hb' _)).
    unfold Frame.pop.
    rewrite (get_col_app_r _ _ _ (Hb' _)).
    cbn [Frame.get_col]. rewrite String.eqb_refl. cbn [bind fst snd].
    rewrite (drop_col_app_r _ _ _ (Hb' _)).
    cbn [Frame.drop_col]. rewrite String.eqb_refl. rewrite app_nil_r.
    unfold Frame.insert_col. rewrite (Hb' _). cbn [firstn skipn app bind].
    f_equal. apply set_col_same.
    rewrite Hkeep by (eapply get_col_has_col; eassumption). exact Hcol.
  - rewrite Hkeep by (eapply get_col_has_col; eassumption). exact Hcol.
  - intros n Hn. now apply Hkeep.
Qed.

Lemma ageing_preserves_frame_witness :
  Frame.get_col "Date"
    (("Age Bucket", [Str "0-15"]) :: [("Inv", [Str "1"]); ("Date", [Str "2024-06-16 00:00:00"])]
       ++ [("Age (Days)", [Num 14 false])])
  = Ok [Str "2024-06-16 00:00:00"].
Proof.
  pose (env := {| today := 14 * day; parse_date := fun _ => Some 0;
                  date_fault := fun _ => None; excel := WriterOk |}).
  exact (proj1 (proj2 (ageing_preserves_frame env "Date"
                         [("Inv", [Str "1"]); ("Date", [Str "2024-06-16 00:00:00"])]
                         [Str "2024-06-16 00:00:00"]
                         eq_refl eq_refl eq_refl eq_refl))).
Defined.

(** C8 as stated fails on the output table: the date clean-up removes the
    midnight suffix from a date-named column. *)
Lemma date_column_rewritten_in_output :
  let soa := [("Inv", [Str "1"]); ("Date", [Str "2024-01-01 00:00:00"])] in
  exists out hl,
    RecoWorker.result_outcome
      (RecoWorker.run (IsoDate.env_at 2024 6 30 0) soa "Inv" (Some "Date") None
         [None; None; None; None] [])
    = RecoWorker.Completed out hl /\
    Frame.get_col "Date" out = Ok [Str "2024-01-01"] /\
    Frame.get_col "Date" out <> Frame.get_col "Date" soa.
Proof.
  cbv zeta. eexists. eexists. split; [vm_compute; reflexivity|].
  split; [reflexivity|]. vm_compute. discriminate.
Qed.


(** ** The run does not read what was emitted before *)
Section TraceIndependence.

Import RecoWorker.

Variable tr : list event.

Lemma emit_prepend e st : emit e (prepend tr st) = prepend tr (emit e st).
Proof. unfold emit, prepend. simpl. now rewrite app_assoc. Qed.

Lemma with_df_prepend df st : with_df df (prepend tr st) = prepend tr (with_df df st).
Proof. reflexivity. Qed.

Lemma mask_loop_prepend label soa_col total mask : forall i st,
  mask_loop label soa_col total i mask (prepend tr st) =
  (fst (mask_loop label soa_col total i mask st),
   prepend tr (snd (mask_loop label soa_col total i mask st))).
Proof.
  induction mask as [|matched rest IH]; intros i st; [reflexivity|].
  cbn [mask_loop]. cbn [prepend df_result match_sources_dict current_step trace].
  destruct (if matched then _ else _) as [d|e]; [|reflexivity].
  destruct (percent_of _ total) as [p|e]; [|reflexivity].
  rewrite <- IH. f_equal. unfold emit, prepend. simpl. now rewrite app_assoc.
Qed.

Lemma join_slot_prepend soa_col total idx ref m rets st :
  join_slot soa_col total idx ref m rets (prepend tr st) =
  (fst (join_slot soa_col total idx ref m rets st),
   prepend tr (snd (join_slot soa_col total idx ref m rets st))).
Proof.
  unfold join_slot. cbn [prepend df_result].
  destruct (Frame.select _ ref) as [extract|e]; [|reflexivity].
  destruct (Frame.merge_left _ _ soa_col m) as [merged|e]; [|reflexivity].
  destruct rets as [|r0 rets']; [reflexivity|].
  destruct (Frame.get_col _ merged) as [col|e]; [|reflexivity].
  rewrite with_df_prepend, mask_loop_prepend.
  destruct (mask_loop _ soa_col total O _ (with_df merged st)) as [[e|] st1];
    cbn [fst snd]; [reflexivity|].
  destruct (Nat.ltb O idx); [|reflexivity].
  cbn [prepend df_result].
  destruct (Frame.insert_col _ _ _ _) as [df|e]; reflexivity.
Qed.

Lemma slot_body_prepend soa_col total idx cfg st :
  slot_body soa_col total idx cfg (prepend tr st) =
  (fst (fst (slot_body soa_col total idx cfg st)),
   prepend tr (snd (fst (slot_body soa_col total idx cfg st))),
   snd (slot_body soa_col total idx cfg st)).
Proof.
  unfold slot_body. rewrite emit_prepend.
  destruct (Frame.get_col (match_col cfg) (ref_df cfg)) as [rcol|e]; [|reflexivity].
  cbn [prepend df_result emit].
  destruct (Frame.get_col soa_col (df_result st)) as [lcol|e]; [|reflexivity].
  match goal with
  | |- (join_slot _ _ _ _ _ _ ?s, _) = _ =>
      change s with (prepend tr (with_df (Frame.set_col soa_col (clean_column lcol)
                                            (df_result st))
                                   (emit (Status ("Matching " +:+ ref_label idx
                                      +:+ " | Match = " +:+ match_col cfg
                                      +:+ " | Returns = " +:+ Py.join ", " (return_cols cfg)))
                                      st)))
  end.
  rewrite join_slot_prepend. reflexivity.
Qed.

Lemma slot_failed_prepend idx e st :
  slot_failed idx e (prepend tr st) = prepend tr (slot_failed idx e st).
Proof. unfold slot_failed. now rewrite !emit_prepend. Qed.

Lemma slot_step_prepend soa_col total idx config st :
  slot_step soa_col total idx config (prepend tr st) =
  (prepend tr (fst (slot_step soa_col total idx config st)),
   snd (slot_step soa_col total idx config st)).
Proof.
  unfold slot_step. destruct config as [cfg|]; [|reflexivity].
  rewrite slot_body_prepend.
  destruct (slot_body soa_col total idx cfg st) as [[[e|] st1] ref]; cbn [fst snd];
    [|reflexivity].
  now rewrite slot_failed_prepend.
Qed.

Lemma run_slots_prepend soa_col total configs : forall idx st,
  run_slots soa_col total idx configs (prepend tr st) =
  (prepend tr (fst (run_slots soa_col total idx configs st)),
   snd (run_slots soa_col total idx configs st)).
Proof.
  induction configs as [|config rest IH]; intros idx st; [reflexivity|].
  cbn [run_slots]. rewrite slot_step_prepend.
  destruct (slot_step soa_col total idx config st) as [st1 config']. cbn [fst snd].
  rewrite IH.
  destruct (run_slots soa_col total (S idx) rest st1) as [st2 rest']. reflexivity.
Qed.

Lemma finish_prepend env soa_match amount_col st refs :
  finish env soa_match amount_col (prepend tr st) refs =
  prepend_events tr (finish env soa_match amount_col st refs).
Proof.
  unfold finish. cbn [prepend df_result match_sources_dict trace].
  destruct (Frame.get_col soa_match (df_result st)) as [keys|e]; [|reflexivity].
  destruct (excel_stage env amount_col _) as [[df marks] evs].
  unfold prepend_events. cbn. now rewrite <- !app_assoc.
Qed.

Lemma init_state_prepend df keys :
  init_state df keys tr = prepend tr (init_state df keys []).
Proof. reflexivity. Qed.

Lemma reconcile_prepend env soa_match amount_col configs df :
  reconcile env soa_match amount_col configs df tr =
  prepend_events tr (reconcile env soa_match amount_col configs df []).
Proof.
  unfold reconcile.
  destruct (Frame.get_col soa_match df) as [keys|e].
  - rewrite init_state_prepend, run_slots_prepend.
    destruct (run_slots soa_match _ O configs (init_state df keys [])) as [st refs].
    cbn [fst snd]. apply finish_prepend.
  - unfold prepend_events. cbn. now rewrite app_nil_r.
Qed.

Lemma run_prepend env soa_df soa_match date_col amount_col configs :
  run env soa_df soa_match date_col amount_col configs tr =
  prepend_events tr (run env soa_df soa_match date_col amount_col configs []).
Proof.
  unfold run. destruct (prepare env date_col soa_df) as [df|e].
  - apply reconcile_prepend.
  - reflexivity.
Qed.

End TraceIndependence.

(** ** A failing slot does not stop the run *)
Section SlotFailure.

Import RecoWorker.

Lemma prepend_clear st : prepend (trace st) (clear st) = st.
Proof. destruct st. unfold prepend, clear. simpl. now rewrite app_nil_r. Qed.

Lemma clear_prepend tr st : clear (prepend tr st) = clear st.
Proof. reflexivity. Qed.

Lemma run_slots_clear soa_col total idx configs st :
  run_slots soa_col total idx configs st =
  (prepend (trace st) (fst (run_slots soa_col total idx configs (clear st))),
   snd (run_slots soa_col total idx configs (clear st))).
Proof. rewrite <- run_slots_prepend. now rewrite prepend_clear. Qed.

Lemma run_slots_trace soa_col total idx configs st :
  exists evs, trace (fst (run_slots soa_col total idx configs st)) = trace st ++ evs.
Proof. rewrite run_slots_clear. cbn. eauto. Qed.

Lemma run_slots_same_data soa_col total idx configs st1 st2 :
  clear st1 = clear st2 ->
  clear (fst (run_slots soa_col total idx configs st1))
  = clear (fst (run_slots soa_col total idx configs st2)) /\
  snd (run_slots soa_col total idx configs st1)
  = snd (run_slots soa_col total idx configs st2).
Proof.
  intros H. rewrite (run_slots_clear _ _ _ _ st1), (run_slots_clear _ _ _ _ st2).
  cbn [fst snd]. rewrite !clear_prepend, H. split; reflexivity.
Qed.

Lemma finish_clear env soa_match amount_col st refs :
  finish env soa_match amount_col st refs =
  prepend_events (trace st) (finish env soa_match amount_col (clear st) refs).
Proof. rewrite <- finish_prepend. now rewrite prepend_clear. Qed.

Lemma finish_keeps_trace env soa_match amount_col st refs ev :
  In ev (trace st) -> In ev (result_events (finish env soa_match amount_col st refs)).
Proof.
  intros H. rewrite finish_clear. cbn. apply in_or_app. now left.
Qed.

Lemma finish_not_aborted env soa_match amount_col st refs :
  result_outcome (finish env soa_match amount_col st refs) <> Aborted.
Proof.
  unfold finish. destruct (Frame.get_col soa_match (df_result st)); [|discriminate].
  destruct (excel_stage env amount_col _) as [[df marks] evs]. discriminate.
Qed.

Lemma finish_outcome_refs env soa_match amount_col st refs refs' :
  result_outcome (finish env soa_match amount_col st refs)
  = result_outcome (finish env soa_match amount_col st refs').
Proof.
  unfold finish. destruct (Frame.get_col soa_match (df_result st)); [|reflexivity].
  now destruct (excel_stage env amount_col _) as [[df marks] evs].
Qed.

Lemma finish_completes env soa_match amount_col st refs :
  Frame.has_col soa_match (df_result st) = true ->
  exists out hl,
    result_outcome (finish env soa_match amount_col st refs) = Completed out hl /\
    In (RecoComplete out) (result_events (finish env soa_match amount_col st refs)).
Proof.
  intros H. destruct (has_col_get_col _ _ H) as [keys Hk].
  unfold finish. rewrite Hk.
  destruct (excel_stage env amount_col _) as [[df marks] evs].
  exists df, marks. split; [reflexivity|]. cbn [result_events].
  apply in_or_app. right. cbn [app]. right. right. apply in_or_app. right. now left.
Qed.

Lemma run_slots_app soa_col total pre : forall idx rest st,
  run_slots soa_col total idx (pre ++ rest) st =
  (fst (run_slots soa_col total (idx + length pre) rest
          (fst (run_slots soa_col total idx pre st))),
   snd (run_slots soa_col total idx pre st)
     ++ snd (run_slots soa_col total (idx + length pre) rest
               (fst (run_slots soa_col total idx pre st)))).
Proof.
  induction pre as [|config pre IH]; intros idx rest st.
  - cbn [app length run_slots fst snd]. rewrite Nat.add_0_r.
    now destruct (run_slots soa_col total idx rest st).
  - cbn [app length run_slots].
    destruct (slot_step soa_col total idx config st) as [st1 config'].
    rewrite IH. replace (idx + S (length pre))%nat with (S idx + length pre)%nat by lia.
    destruct (run_slots soa_col total (S idx) pre st1) as [st2 pre']. reflexivity.
Qed.

Lemma run_slots_cons_failed soa_col total idx cfg post st e st' ref' :
  slot_body soa_col total idx cfg st = (Some e, st', ref') ->
  run_slots soa_col total idx (Some cfg :: post) st =
  (fst (run_slots soa_col total (S idx) post (slot_failed idx e st')),
   Some (with_ref ref' cfg)
     :: snd (run_slots soa_col total (S idx) post (slot_failed idx e st'))).
Proof.
  intros H. cbn [run_slots]. unfold slot_step. rewrite H.
  now destruct (run_slots soa_col total (S idx) post (slot_failed idx e st')).
Qed.

Lemma run_slots_cons_absent soa_col total idx post st :
  run_slots soa_col total idx (None :: post) st =
  (fst (run_slots soa_col total (S idx) post st),
   None :: snd (run_slots soa_col total (S idx) post st)).
Proof.
  cbn [run_slots slot_step].
  now destruct (run_slots soa_col total (S idx) post st).
Qed.

Lemma total_steps_length configs configs' df :
  length configs = length configs' -> total_steps configs df = total_steps configs' df.
Proof. intros H. unfold total_steps. now rewrite H. Qed.

Lemma slot_failed_trace idx e st :
  In (Log ("Match Error " +:+ ref_label idx +:+ ": " +:+ str_exn e))
     (trace (slot_failed idx e st)) /\
  In (Status ("Error matching " +:+ ref_label idx +:+ ": " +:+ str_exn e))
     (trace (slot_failed idx e st)).
Proof.
  unfold slot_failed, emit. cbn [trace]. split.
  - apply in_or_app. left. apply in_or_app. right. now left.
  - apply in_or_app. right. now left.
Qed.

Lemma slot_body_missing_match soa_col total idx cfg st :
  Frame.has_col (match_col cfg) (ref_df cfg) = false ->
  exists e st', slot_body soa_col total idx cfg st = (Some e, st', ref_df cfg)
                /\ clear st' = clear st.
Proof.
  intros H. unfold slot_body. rewrite (no_col_get_col _ _ H).
  eexists. eexists. split; reflexivity.
Qed.

End SlotFailure.


(** ** Source labels are kept per key *)
Section SourceLabels.

Import RecoWorker.

Lemma append_source_lookup k label (d : gmap string (list string)) key :
  append_source k label d !! key =
  (fun l => if String.eqb k key then l ++ [label] else l) <$> (d !! key).
Proof.
  unfold append_source. destruct (String.eqb_spec k key) as [->|Hne].
  - destruct (d !! key) as [l|] eqn:E.
    + now rewrite lookup_insert_eq.
    + now rewrite E.
  - destruct (d !! k) as [l0|] eqn:E.
    + rewrite lookup_insert_ne by exact Hne. now destruct (d !! key).
    + now destruct (d !! key).
Qed.





Lemma init_dict_lookup keys key :
  init_dict keys !! key =
  if Frame.mem key (map clean_match_value keys) then Some [] else None.
Proof.
  unfold init_dict, Frame.mem. induction keys as [|k rest IH]; [reflexivity|].
  cbn [foldr map existsb]. rewrite lookup_insert.
  destruct (String.eqb_spec key (clean_match_value k)) as [->|Hne].
  - now rewrite decide_True.
  - rewrite decide_False by congruence. exact IH.
Qed.

Lemma match_source_join (d : gmap string (list string)) val :
  match_source d val = Str (Py.join ", " (default [] (d !! clean_match_value val))).
Proof.
  unfold match_source. now destruct (default [] (d !! clean_match_value val)).
Qed.

Lemma clean_dates_keeps n names : forall df,
  is_date_like n = false ->
  Frame.get_col n (clean_dates names df) = Frame.get_col n df.
Proof.
  intros df Hn. revert df.
  induction names as [|col rest IH]; intros df; [reflexivity|].
  cbn [clean_dates]. rewrite IH.
  destruct (is_date_like col) eqn:E; [|reflexivity].
  destruct (Frame.get_col col df); [|reflexivity].
  apply get_col_set_ne. intros ->. congruence.
Qed.

Lemma amount_stage_keeps n amount_col df :
  n <> "Amount Difference" ->
  Frame.get_col n (fst (fst (amount_stage amount_col df))) = Frame.get_col n df.
Proof.
  intros Hn. unfold amount_stage.
  destruct (_ && _ && _).
  - cbn [fst]. now apply get_col_set_ne.
  - now destruct (negb _).
Qed.

Lemma excel_stage_keeps n env amount_col df :
  n <> "Amount Difference" ->
  Frame.get_col n (fst (fst (excel_stage env amount_col df))) = Frame.get_col n df.
Proof.
  intros Hn. unfold excel_stage. destruct (excel env).
  - now apply amount_stage_keeps.
  - reflexivity.
  - pose proof (amount_stage_keeps n amount_col df Hn) as H.
    now destruct (amount_stage amount_col df) as [[df' marks] evs].
Qed.

Lemma finish_match_source env soa_match amount_col st refs keys :
  Frame.get_col soa_match (df_result st) = Ok keys ->
  exists out hl,
    result_outcome (finish env soa_match amount_col st refs) = Completed out hl /\
    Frame.get_col "Match Source" out =
    Ok (map (fun c => Str (Py.join ", "
               (default [] (match_sources_dict st !! clean_match_value (Frame.to_str c)))))
            keys).
Proof.
  intros Hk. unfold finish. rewrite Hk.
  match goal with
  | |- context [excel_stage env amount_col ?df] =>
      pose proof (excel_stage_keeps "Match Source" env amount_col df) as He;
      destruct (excel_stage env amount_col df) as [[out marks] evs]
  end.
  exists out, marks. split; [reflexivity|].
  cbn [fst] in He. rewrite He by discriminate.
  rewrite clean_dates_keeps by reflexivity.
  match goal with
  | |- Frame.get_col _ (if ?b then _ else _) = _ => destruct b
  end; rewrite ?get_col_drop_ne by discriminate; rewrite get_col_set_eq;
    f_equal; unfold Frame.astype_str; rewrite map_map; apply map_ext;
    intros c; apply match_source_join.
Qed.


End SourceLabels.










Lemma ordering_example :
  exists out hl,
    RecoWorker.result_outcome
      (RecoWorker.run Sample.env Sample.soa "Inv" None None Sample.four_refs [])
    = RecoWorker.Completed out hl /\
    Frame.get_col "Match Source" out = Ok [Str "Ref2, Ref4"; Str ""].
Proof.
  eexists. eexists. split; [vm_compute; reflexivity|]. vm_compute. reflexivity.
Qed.




(** ** The match column survives the joins *)
Section KeyColumn.

Import RecoWorker.

Lemma mem_In n l : Frame.mem n l = true <-> In n l.
Proof.
  unfold Frame.mem. rewrite existsb_exists. split.
  - intros (x & Hx & E). apply String.eqb_eq in E. now subst.
  - intros H. exists n. split; [exact H|apply String.eqb_refl].
Qed.

Lemma mem_false n l : Frame.mem n l = false <-> ~ In n l.
Proof.
  rewrite <- mem_In. destruct (Frame.mem n l); split; congruence.
Qed.

Lemma join_plan_from_length rkeys lkeys : forall i,
  (length lkeys <= length (Frame.join_plan_from i lkeys rkeys))%nat.
Proof.
  induction lkeys as [|k rest IH]; intros i; cbn [Frame.join_plan_from length]; [lia|].
  rewrite length_app. specialize (IH (S i)).
  destruct (Frame.matches_from O k rkeys); cbn [length map]; lia.
Qed.

Lemma all_len_combine {A} k (names : list string) (cols : list A) (f : A -> list cell) :
  (forall c, length (f c) = k) -> all_len k (combine names (map f cols)).
Proof.
  intros Hf. unfold all_len. revert cols.
  induction names as [|n names IH]; intros [|c cols]; cbn [combine map];
    try constructor.
  - apply Hf.
  - apply IH.
Qed.

Lemma all_len_app k (a b : Frame.t) : all_len k a -> all_len k b -> all_len k (a ++ b).
Proof. unfold all_len. intros. now apply Forall_app. Qed.

Lemma all_len_get_col k n (df : Frame.t) col :
  all_len k df -> Frame.get_col n df = Ok col -> length col = k.
Proof.
  unfold all_len. induction 1 as [|[m c] rest Hc _ IH]; cbn; [discriminate|].
  destruct (String.eqb m n); [intros [= <-]; exact Hc|exact IH].
Qed.

Lemma all_len_nrows k (df : Frame.t) :
  all_len k df -> df <> [] -> Frame.nrows df = k.
Proof.
  intros H Hne. destruct df as [|[m c] rest]; [congruence|].
  unfold all_len in H. apply Forall_cons_iff in H as [H _]. exact H.
Qed.

Lemma columns_combine {A} (names : list string) (cols : list A) :
  length names = length cols -> map fst (combine names cols) = names.
Proof.
  revert cols. induction names as [|n names IH]; intros [|c cols]; cbn;
    try discriminate; [reflexivity|].
  intros [= H]. now rewrite IH.
Qed.

Lemma select_columns names (df sel : Frame.t) :
  Frame.select names df = Ok sel -> Frame.columns sel = names.
Proof.
  revert sel. induction names as [|n names IH]; intros sel; cbn [Frame.select].
  - intros [= <-]. reflexivity.
  - destruct (Frame.get_col n df); cbn [bind]; [|discriminate].
    destruct (Frame.select names df) as [s0|]; cbn [bind]; [|discriminate].
    intros [= <-]. unfold Frame.columns in *. cbn [map fst]. now rewrite (IH s0 eq_refl).
Qed.

Lemma rename_all_columns names (df : Frame.t) :
  length names = length df -> Frame.columns (Frame.rename_all names df) = names.
Proof.
  intros H. unfold Frame.columns, Frame.rename_all.
  apply columns_combine. now rewrite length_map.
Qed.

Lemma ref_column_prefix idx col : Py.starts_with "Ref" (ref_column idx col) = true.
Proof. reflexivity. Qed.

Lemma not_among_ref_columns soa_col idx rets :
  Py.starts_with "Ref" soa_col = false ->
  Frame.mem soa_col (map (ref_column idx) rets) = false.
Proof.
  intros H. apply mem_false. intros Hin. apply in_map_iff in Hin as (r & E & _).
  subst soa_col. now rewrite ref_column_prefix in H.
Qed.

Lemma drop_col_head m (right : Frame.t) names :
  Frame.columns right = m :: names -> Frame.columns (Frame.drop_col m right) = names.
Proof.
  destruct right as [|[n c] rest]; cbn; [discriminate|].
  intros [= -> <-]. now rewrite String.eqb_refl.
Qed.

Lemma has_col_combine n names (cols : list (list cell)) :
  length names = length cols -> In n names -> Frame.has_col n (combine names cols) = true.
Proof.
  intros Hlen Hin. unfold Frame.has_col, Frame.columns.
  rewrite columns_combine by exact Hlen. now apply mem_In.
Qed.

(** A successful merge keeps the statement's match column and its rows. *)
Lemma merge_left_keyed soa_col m idx rets (left right merged : Frame.t) :
  Frame.mem soa_col (map (ref_column idx) rets) = false ->
  Frame.columns right = m :: map (ref_column idx) rets ->
  keyed soa_col left ->
  Frame.merge_left left right soa_col m = Ok merged ->
  keyed soa_col merged.
Proof.
  intros Hpre Hcols [Hrows (lkeys & Hk & Hne)] Hmerge.
  unfold Frame.merge_left in Hmerge. rewrite Hk in Hmerge. cbn [bind] in Hmerge.
  destruct (Frame.get_col m right) as [rkeys|]; cbn [bind] in Hmerge; [|discriminate].
  assert (Hz : Nat.eqb (Frame.nrows left) O = false) by (apply Nat.eqb_neq; lia).
  rewrite Hz, andb_false_r in Hmerge. cbn [negb] in Hmerge. rewrite andb_true_r in Hmerge.
  set (right' := if String.eqb soa_col m then Frame.drop_col m right else right) in *.
  set (plan := Frame.join_plan lkeys rkeys) in *.
  destruct (_ || _); [discriminate|]. injection Hmerge as <-.
  assert (Hplan : (0 < length plan)%nat).
  { subst plan. unfold Frame.join_plan.
    pose proof (join_plan_from_length rkeys lkeys O). destruct lkeys; [congruence|].
    cbn [length] in *. lia. }
  assert (Hfree : Frame.mem soa_col (Frame.columns right') = false).
  { subst right'. destruct (String.eqb_spec soa_col m) as [->|Hd].
    - rewrite (drop_col_head _ _ _ Hcols). exact Hpre.
    - rewrite Hcols. cbn [Frame.mem existsb].
      apply String.eqb_neq in Hd. rewrite Hd. exact Hpre. }
  assert (Hall : all_len (length plan)
                   (combine (map (Frame.suffix_overlap (Frame.columns right') "_x")
                               (Frame.columns left))
                            (map (Frame.take_left plan) (map snd left))
                    ++ combine (map (Frame.suffix_overlap (Frame.columns left) "_y")
                                  (Frame.columns right'))
                               (map (Frame.take_right plan) (map snd right')))).
  { apply all_len_app; apply all_len_combine; intros c;
      unfold Frame.take_left, Frame.take_right; apply length_map. }
  assert (Hhas : Frame.has_col soa_col
                   (combine (map (Frame.suffix_overlap (Frame.columns right') "_x")
                               (Frame.columns left))
                            (map (Frame.take_left plan) (map snd left))) = true).
  { apply has_col_combine.
    - unfold Frame.columns. now rewrite !length_map.
    - apply in_map_iff. exists soa_col. split.
      + unfold Frame.suffix_overlap. now rewrite Hfree.
      + apply mem_In. eapply get_col_has_col. exact Hk. }
  destruct (has_col_get_col _ _ Hhas) as [c Hc].
  split.
  - rewrite (all_len_nrows _ _ Hall); [exact Hplan|].
    intros E. apply app_eq_nil in E as [E _]. rewrite E in Hc. discriminate.
  - exists c. split.
    + now apply get_col_app_l.
    + pose proof (all_len_get_col _ _ _ _ Hall (get_col_app_l _ _ _ _ Hc)) as L.
      intros ->. cbn in L. lia.
Qed.

Lemma replace_col_nrows n v (df : Frame.t) col :
  Frame.get_col n df = Ok col -> length v = length col ->
  Frame.nrows (Frame.replace_col n v df) = Frame.nrows df.
Proof.
  destruct df as [|[m c] rest]; cbn; [discriminate|].
  destruct (String.eqb m n); [|reflexivity].
  intros [= ->]. cbn. tauto.
Qed.

Lemma clean_column_keyed soa_col (df : Frame.t) lcol :
  Frame.get_col soa_col df = Ok lcol ->
  keyed soa_col df ->
  keyed soa_col (Frame.set_col soa_col (clean_column lcol) df).
Proof.
  intros Hk [Hrows (keys & Hk' & Hne)]. rewrite Hk in Hk'. injection Hk' as <-.
  split.
  - unfold Frame.set_col. rewrite (get_col_has_col _ _ _ Hk).
    rewrite (replace_col_nrows _ _ _ _ Hk); [exact Hrows|].
    unfold clean_column. apply length_map.
  - exists (clean_column lcol). split; [apply get_col_set_eq|].
    destruct lcol; [congruence|discriminate].
Qed.

Lemma insert_last_keyed soa_col name v (df df' : Frame.t) :
  Frame.insert_col (length df) name v df = Ok df' ->
  keyed soa_col df -> keyed soa_col df'.
Proof.
  unfold Frame.insert_col. destruct (Frame.has_col name df); [discriminate|].
  intros [= <-]. rewrite firstn_all, skipn_all. cbn [app].
  intros [Hrows (keys & Hk & Hne)]. split.
  - destruct df as [|[m c] rest]; [cbn in Hrows; lia|exact Hrows].
  - exists keys. split; [now apply get_col_app_l|exact Hne].
Qed.

Lemma mask_loop_df label soa_col total mask : forall i st,
  df_result (snd (mask_loop label soa_col total i mask st)) = df_result st.
Proof.
  induction mask as [|matched rest IH]; intros i st; [reflexivity|].
  cbn [mask_loop].
  destruct (if matched then _ else _) as [d|e]; [|reflexivity].
  destruct (percent_of _ total) as [p|e]; [|reflexivity].
  now rewrite IH.
Qed.

Lemma join_slot_keyed soa_col total idx ref m rets st :
  Frame.mem soa_col (map (ref_column idx) rets) = false ->
  keyed soa_col (df_result st) ->
  keyed soa_col (df_result (snd (join_slot soa_col total idx ref m rets st))).
Proof.
  intros Hpre Hkeyed. unfold join_slot.
  destruct (Frame.select (m :: rets) ref) as [extract|e] eqn:Hs; [|exact Hkeyed].
  destruct (Frame.merge_left _ _ soa_col m) as [merged|e] eqn:Hm; [|exact Hkeyed].
  assert (Hmk : keyed soa_col merged).
  { eapply merge_left_keyed; [exact Hpre| |exact Hkeyed|exact Hm].
    apply rename_all_columns.
    pose proof (select_columns _ _ _ Hs) as Hc. unfold Frame.columns in Hc.
    apply (f_equal (@length string)) in Hc. rewrite length_map in Hc.
    cbn [length] in *. rewrite length_map. lia. }
  destruct rets as [|r0 rest]; [exact Hmk|].
  destruct (Frame.get_col (ref_column idx r0) merged) as [col|e]; [|exact Hmk].
  pose proof (mask_loop_df (ref_label idx) soa_col total (map Frame.notna col) O
                (with_df merged st)) as Hdf.
  destruct (mask_loop _ soa_col total O _ (with_df merged st)) as [[e|] st1];
    cbn [snd with_df df_result] in *; [now rewrite Hdf|].
  destruct (Nat.ltb O idx); [|cbn [snd]; now rewrite Hdf].
  destruct (Frame.insert_col _ _ _ _) as [df|e] eqn:Hi; cbn [snd with_df df_result].
  - eapply insert_last_keyed; [exact Hi|]. now rewrite Hdf.
  - now rewrite Hdf.
Qed.

Lemma slot_body_keyed soa_col total idx cfg st :
  Frame.mem soa_col (map (ref_column idx) (return_cols cfg)) = false ->
  keyed soa_col (df_result st) ->
  keyed soa_col (df_result (snd (fst (slot_body soa_col total idx cfg st)))).
Proof.
  intros Hpre Hkeyed. unfold slot_body.
  destruct (Frame.get_col (match_col cfg) (ref_df cfg)) as [rcol|e]; [|exact Hkeyed].
  cbn [emit df_result].
  destruct (Frame.get_col soa_col (df_result st)) as [lcol|e] eqn:Hk; [|exact Hkeyed].
  cbn [fst]. apply join_slot_keyed; [exact Hpre|].
  cbn [with_df df_result]. now apply clean_column_keyed.
Qed.

Lemma slot_step_keyed soa_col total idx config st :
  slot_keeps soa_col idx config = true ->
  keyed soa_col (df_result st) ->
  keyed soa_col (df_result (fst (slot_step soa_col total idx config st))).
Proof.
  intros Hpre Hkeyed. unfold slot_step. destruct config as [cfg|]; [|exact Hkeyed].
  cbn [slot_keeps] in Hpre. apply negb_true_iff in Hpre.
  pose proof (slot_body_keyed soa_col total idx cfg st Hpre Hkeyed) as H.
  destruct (slot_body soa_col total idx cfg st) as [[[e|] st1] ref]; exact H.
Qed.

Lemma run_slots_keyed soa_col total configs : forall idx st,
  label_kept soa_col idx configs = true ->
  keyed soa_col (df_result st) ->
  keyed soa_col (df_result (fst (run_slots soa_col total idx configs st))).
Proof.
  induction configs as [|config rest IH]; intros idx st Hpre Hkeyed; [exact Hkeyed|].
  cbn [run_slots]. cbn [label_kept] in Hpre. apply andb_true_iff in Hpre as [Hhere Hrest].
  pose proof (slot_step_keyed soa_col total idx config st Hhere Hkeyed) as H1.
  destruct (slot_step soa_col total idx config st) as [st1 config']. cbn [fst] in H1.
  pose proof (IH (S idx) st1 Hrest H1) as H2.
  now destruct (run_slots soa_col total (S idx) rest st1).
Qed.

Lemma label_kept_app soa_col pre : forall idx post,
  label_kept soa_col idx (pre ++ post)
  = label_kept soa_col idx pre && label_kept soa_col (idx + length pre) post.
Proof.
  induction pre as [|c pre IH]; intros idx post; cbn [app label_kept length].
  - now rewrite Nat.add_0_r.
  - rewrite IH, andb_assoc. do 2 f_equal. lia.
Qed.

(** A label that does not begin with [Ref] is never the new name of a
    return column. *)
Lemma label_kept_no_ref soa_col configs : forall idx,
  Py.starts_with "Ref" soa_col = false -> label_kept soa_col idx configs = true.
Proof.
  induction configs as [|[cfg|] rest IH]; intros idx H; cbn [label_kept slot_keeps].
  - reflexivity.
  - rewrite (not_among_ref_columns _ _ _ H). now apply IH.
  - now apply IH.
Qed.

Lemma keyed_has_col soa_col df : keyed soa_col df -> Frame.has_col soa_col df = true.
Proof. intros [_ (keys & Hk & _)]. eapply get_col_has_col. exact Hk. Qed.

End KeyColumn.

(** ** Further checks against the specification's examples *)

Example zero_stripping :
  clean_match_value "0308607218" = "308607218" /\
  clean_match_value "308607218" = "308607218" /\
  clean_match_value "'0308607218" = "308607218" /\
  clean_match_value "0000" = "0".
Proof. repeat split. Qed.

(** The run cleans the key column of a reference frame in place: the frames
    it leaves behind are not the frames it was given. *)
Example reference_keys_cleaned_in_place :
  RecoWorker.result_refs
    (RecoWorker.run Sample.env Sample.soa "Inv" None None
       [Some (Sample.ref_with "'0123" "20.00")] [])
  = [Some {| ref_df := [("Inv", [Str "123"; Str "555"]); ("Amt", [Str "20.00"; Str "1.00"])];
             match_col := "Inv"; return_cols := ["Amt"] |}].
Proof. vm_compute. reflexivity. Qed.

(** The end-to-end scenario of the specification. *)
Example end_to_end :
  let ref := {| ref_df := [("InvoiceNo", [Str "7"]); ("Amount", [Str "100.00"])];
                match_col := "InvoiceNo"; return_cols := ["Amount"] |} in
  RecoWorker.result_outcome
    (RecoWorker.run Sample.env
       [("InvoiceNo", [Str "007"]); ("Amount", [Str "100.00"]); ("Date", [Str "2024-01-01"])]
       "InvoiceNo" (Some "Date") (Some "Amount") [Some ref; None; None; None] [])
  = RecoWorker.Completed
      [("Age Bucket", [Str "121+"]);
       ("InvoiceNo", [Str "7"]);
       ("Amount", [Str "100.00"]);
       ("Date", [Str "2024-01-01"]);
       ("Age (Days)", [Num 181 false]);
       ("Ref1_Amount", [Str "100.00"]);
       ("Match Source", [Str "Ref1"]);
       ("Amount Difference", [Str "Ref1: 0.00"])]
      [].
Proof. vm_compute. reflexivity. Qed.

(** A run can end without a table: a statement whose match column carries
    the label of a renamed return column loses it in the merge (both sides
    get a suffix), the slot fails, and line 458 raises outside every
    handler. *)
Example renamed_match_column :
  let ref := {| ref_df := [("Inv", [Str "7"]); ("Amt", [Str "9"])];
                match_col := "Inv"; return_cols := ["Amt"] |} in
  RecoWorker.result_outcome
    (RecoWorker.run Sample.env [("Ref1_Amt", [Str "7"])] "Ref1_Amt" None None
       [Some ref; None; None; None] [])
  = RecoWorker.Crashed (KeyError "Ref1_Amt").
Proof. vm_compute. reflexivity. Qed.


(** * Further properties of the code *)

(** ** The normaliser on numeric keys *)

Lemma digit_not_space c : Py.isdigit_char c = true -> Py.isspace c = false.
Proof.
  destruct c as [[] [] [] [] [] [] [] []]; vm_compute; congruence.
Qed.

Lemma digit_not_quote c : Py.isdigit_char c = true -> Ascii.eqb c Py.quote = false.
Proof.
  destruct c as [[] [] [] [] [] [] [] []]; vm_compute; congruence.
Qed.

Lemma rstrip_by_clear p s :
  Py.all_chars (fun c => negb (p c)) s = true -> Py.rstrip_by p s = s.
Proof.
  induction s as [|c t IH]; cbn [Py.all_chars Py.rstrip_by]; [reflexivity|].
  intros H. apply andb_true_iff in H as [Hc Ht]. apply negb_true_iff in Hc.
  rewrite Hc, (IH Ht). reflexivity.
Qed.

Lemma all_chars_weaken (p q : ascii -> bool) s :
  (forall c, p c = true -> q c = true) ->
  Py.all_chars p s = true -> Py.all_chars q s = true.
Proof.
  intros Hpq. induction s as [|c t IH]; cbn [Py.all_chars]; [reflexivity|].
  intros H. apply andb_true_iff in H as [Hc Ht]. now rewrite (Hpq c Hc), IH.
Qed.

Lemma strip_digits s : Py.all_chars Py.isdigit_char s = true -> Py.strip s = s.
Proof.
  intros H. unfold Py.strip.
  rewrite lstrip_by_fixed.
  - apply rstrip_by_clear. eapply all_chars_weaken; [|exact H].
    intros c Hc. now rewrite (digit_not_space c Hc).
  - destruct s as [|c t]; [reflexivity|]. cbn in *.
    apply andb_true_iff in H as [Hc _]. now rewrite (digit_not_space c Hc).
Qed.

Lemma unquote_digits s : Py.all_chars Py.isdigit_char s = true -> unquote s = s.
Proof.
  intros H. unfold unquote. destruct s as [|c t]; [reflexivity|].
  cbn in *. apply andb_true_iff in H as [Hc _]. now rewrite (digit_not_quote c Hc).
Qed.

Lemma clean_digits s :
  Py.isdigit s = true -> clean_match_value s = Py.str_or (Py.lstrip0 s) "0".
Proof.
  intros H. pose proof H as Hall. unfold Py.isdigit in Hall.
  apply andb_true_iff in Hall as [_ Hall].
  rewrite clean_match_value_unfold. cbv zeta.
  rewrite (strip_digits s Hall), (unquote_digits s Hall).
  unfold digit_test. now rewrite H.
Qed.

Lemma strip_idem x : Py.strip (Py.strip x) = Py.strip x.
Proof.
  apply strip_fixed; [|apply strip_rstrip_fixed].
  unfold Py.strip.
  pose proof (lstrip_by_head_free Py.isspace x) as H.
  destruct (Py.lstrip_by Py.isspace x) as [|c t]; [reflexivity|].
  cbn in H. apply negb_true_iff in H. cbn. rewrite H. cbn. exact H.
Qed.

(** X1: zero padding, the spreadsheet's text marker and surrounding white
    space do not change the key of a numeric string; white space around any
    value is ignored. *)
Theorem numeric_key_ignores_padding :
  (forall x, clean_match_value (Py.strip x) = clean_match_value x) /\
  (forall s, Py.isdigit s = true ->
     clean_match_value (String "0" s) = clean_match_value s /\
     clean_match_value (String Py.quote s) = clean_match_value s /\
     clean_match_value (String Py.quote (String "0" s)) = clean_match_value s).
Proof.
  split.
  - intros x. rewrite !clean_match_value_unfold. cbv zeta. now rewrite strip_idem.
  - intros s H.
    assert (H0 : Py.isdigit (String "0" s) = true).
    { unfold Py.isdigit in *. cbn. apply andb_true_iff in H as [_ H]. exact H. }
    assert (Hq : forall t, Py.isdigit t = true ->
                           clean_match_value (String Py.quote t) = clean_match_value t).
    { intros t Ht. pose proof Ht as Hall. unfold Py.isdigit in Hall.
      apply andb_true_iff in Hall as [_ Hall].
      rewrite (clean_match_value_unfold (String Py.quote t)). cbv zeta.
      assert (Hs : Py.strip (String Py.quote t) = String Py.quote t).
      { apply strip_fixed; [reflexivity|].
        cbn [Py.rstrip_by].
        rewrite rstrip_by_clear.
        - change (Py.isspace Py.quote) with false. reflexivity.
        - eapply all_chars_weaken; [|exact Hall].
          intros c Hc. now rewrite (digit_not_space c Hc). }
      rewrite Hs. unfold unquote at 1 2 3. cbn [Py.starts_with_char Py.tail].
      rewrite Ascii.eqb_refl. unfold digit_test. rewrite Ht. cbn [orb].
      now rewrite (clean_digits t Ht). }
    assert (Hz : clean_match_value (String "0" s) = clean_match_value s).
    { rewrite (clean_digits _ H0), (clean_digits _ H). reflexivity. }
    split; [exact Hz|]. split; [now apply Hq|].
    rewrite (Hq _ H0). exact Hz.
Qed.

Lemma numeric_key_ignores_padding_witness :
  clean_match_value (String Py.quote (String "0" "308607218")) = clean_match_value "308607218".
Proof.
  apply (proj2 (proj2 (proj2 numeric_key_ignores_padding "308607218" eq_refl))).
Defined.

(** X2: the key of a numeric value is a digit string without leading zero,
    or the single digit 0. *)
Theorem numeric_key_canonical x :
  digit_test (unquote (Py.strip x)) = true ->
  Py.isdigit (clean_match_value x) = true /\
  (clean_match_value x = "0" \/ Py.starts_with_char "0" (clean_match_value x) = false).
Proof.
  intros D. rewrite clean_match_value_unfold. cbv zeta. rewrite D.
  apply digit_test_isdigit in D.
  destruct (digits_result_shape _ D) as [Hd _]. split; [exact Hd|].
  pose proof (lstrip_by_head_free Py.is_zero_char (unquote (Py.strip x))) as Hh.
  fold (Py.lstrip0 (unquote (Py.strip x))) in Hh.
  unfold Py.str_or. destruct (Py.lstrip0 (unquote (Py.strip x))) as [|c t].
  - left. reflexivity.
  - right. cbn in *. apply negb_true_iff in Hh. exact Hh.
Qed.

Lemma numeric_key_canonical_witness :
  Py.isdigit (clean_match_value " '000120 ") = true /\
  (clean_match_value " '000120 " = "0" \/
   Py.starts_with_char "0" (clean_match_value " '000120 ") = false).
Proof. apply (numeric_key_canonical " '000120 "). reflexivity. Defined.

(** ** Buckets and ages *)

(** X3: each bucket label stands for exactly one range of ages, and
    "Unknown" for the missing age only. *)
Theorem bucket_label_range (a : option Z) :
  (bucket a = "Unknown" <-> a = None) /\
  (bucket a = "0-15" <-> exists d, a = Some d /\ d <= 15) /\
  (bucket a = "16-30" <-> exists d, a = Some d /\ 16 <= d <= 30) /\
  (bucket a = "31-60" <-> exists d, a = Some d /\ 31 <= d <= 60) /\
  (bucket a = "61-90" <-> exists d, a = Some d /\ 61 <= d <= 90) /\
  (bucket a = "91-120" <-> exists d, a = Some d /\ 91 <= d <= 120) /\
  (bucket a = "121+" <-> exists d, a = Some d /\ 121 <= d).
Proof.
  destruct a as [d|]; cbn [bucket].
  - destruct (Z.leb_spec d 15) as [L1|L1]; [|destruct (Z.leb_spec d 30) as [L2|L2];
      [|destruct (Z.leb_spec d 60) as [L3|L3]; [|destruct (Z.leb_spec d 90) as [L4|L4];
      [|destruct (Z.leb_spec d 120) as [L5|L5]]]]];
    repeat split; intros E; try discriminate E;
      try (exists d; split; [reflexivity|lia]);
      try (destruct E as (d' & E1 & E2); injection E1 as <-; lia).
  - repeat split; intros E; try discriminate E; try reflexivity;
      destruct E as (d' & E1 & _); discriminate E1.
Qed.

(** X4: a document dated after the run's clock has a negative age and is
    filed in the first bucket, "0-15". *)
Theorem future_date_in_first_bucket env c t :
  RecoWorker.to_datetime env c = Some t ->
  today env < t ->
  exists d, RecoWorker.age_days env c = Some d /\ d < 0 /\ bucket (Some d) = "0-15".
Proof.
  intros Ht Hlt. unfold RecoWorker.age_days. rewrite Ht. cbn [option_map].
  eexists. split; [reflexivity|].
  assert (Hd : (today env - t) / day < 0).
  { apply Z.div_lt_upper_bound; [reflexivity|lia]. }
  split; [exact Hd|]. cbn [bucket].
  destruct (Z.leb_spec ((today env - t) / day) 15); [reflexivity|lia].
Qed.

Lemma future_date_in_first_bucket_witness :
  exists d, RecoWorker.age_days Sample.env (Str "2024-07-15") = Some d /\ d < 0 /\
            bucket (Some d) = "0-15".
Proof.
  apply (future_date_in_first_bucket Sample.env (Str "2024-07-15")
           (IsoDate.days_from_civil 2024 7 15 * day)).
  - vm_compute. reflexivity.
  - vm_compute. reflexivity.
Defined.

(** X5: for a cell that the date parser reads as the same instant under
    both clocks (an absolute date; not a word such as [now] or [today], which
    the parser resolves from the clock), running a whole number [k] of days
    later makes the age larger by exactly [k]; a cell without an age stays
    without one. *)
Theorem age_follows_clock env env' c k :
  today env' = today env + k * day ->
  RecoWorker.to_datetime env' c = RecoWorker.to_datetime env c ->
  RecoWorker.age_days env' c = option_map (fun d => d + k) (RecoWorker.age_days env c).
Proof.
  intros Hclock Hparse. unfold RecoWorker.age_days. rewrite Hparse, Hclock.
  destruct (RecoWorker.to_datetime env c) as [t|]; cbn [option_map]; [|reflexivity].
  f_equal. replace (today env + k * day - t) with (today env - t + k * day) by lia.
  apply Z.div_add. discriminate.
Qed.

Lemma age_follows_clock_witness :
  RecoWorker.age_days (IsoDate.env_at 2024 7 3 (9 * 3600 * 1000000000)) (Str "2024-06-16")
  = option_map (fun d => d + 3)
      (RecoWorker.age_days (IsoDate.env_at 2024 6 30 (9 * 3600 * 1000000000))
         (Str "2024-06-16")).
Proof.
  apply (age_follows_clock (IsoDate.env_at 2024 6 30 (9 * 3600 * 1000000000))
           (IsoDate.env_at 2024 7 3 (9 * 3600 * 1000000000)) (Str "2024-06-16") 3).
  - vm_compute. reflexivity.
  - reflexivity.
Defined.

(** ** The dictionary of source labels *)

Section Dictionary.

Import RecoWorker.

Lemma extends_refl ok d : extends ok d d.
Proof.
  intros key. destruct (d !! key) as [l|] eqn:E; [|reflexivity].
  exists []. split; [now rewrite app_nil_r|constructor].
Qed.

Lemma extends_trans (ok1 ok2 ok : string -> Prop) d1 d2 d3 :
  (forall x, ok1 x -> ok x) -> (forall x, ok2 x -> ok x) ->
  extends ok1 d1 d2 -> extends ok2 d2 d3 -> extends ok d1 d3.
Proof.
  intros W1 W2 H12 H23 key. specialize (H12 key). specialize (H23 key).
  destruct (d1 !! key) as [l|].
  - destruct H12 as (l1 & E1 & F1). rewrite E1 in H23.
    destruct H23 as (l2 & E2 & F2). exists (l1 ++ l2). split.
    + now rewrite app_assoc.
    + apply Forall_app. split; eapply Forall_impl; eauto.
  - now rewrite H12 in H23.
Qed.

Lemma append_source_extends k label d :
  extends (eq label) d (append_source k label d).
Proof.
  intros key. rewrite append_source_lookup.
  destruct (d !! key) as [l|]; [|reflexivity]. cbn.
  destruct (String.eqb k key).
  - exists [label]. split; [reflexivity|]. now constructor.
  - exists []. split; [now rewrite app_nil_r|constructor].
Qed.

Lemma mask_loop_extends label soa_col total mask : forall i st,
  extends (eq label) (match_sources_dict st)
          (match_sources_dict (snd (mask_loop label soa_col total i mask st))).
Proof.
  induction mask as [|matched rest IH]; intros i st; cbn [mask_loop].
  - apply extends_refl.
  - assert (Hd : forall d, extends (eq label) (match_sources_dict st) d ->
      extends (eq label) (match_sources_dict st)
        (match_sources_dict (snd
           (let st1 := {| df_result := df_result st; match_sources_dict := d;
                          current_step := current_step st + 1; trace := trace st |} in
            match percent_of (current_step st1) total with
            | Raise e => (Some e, st1)
            | Ok p => mask_loop label soa_col total (S i) rest (emit (Progress p) st1)
            end)))).
    { intros d Hd. cbv zeta. cbn [current_step].
      destruct (percent_of _ total) as [p|e]; [|exact Hd].
      match goal with
      | |- context [mask_loop _ _ _ _ _ ?s] =>
          exact (extends_trans (eq label) (eq label) _ _ _ _
                   (fun _ H => H) (fun _ H => H) Hd (IH (S i) s))
      end. }
    destruct matched.
    + destruct (Frame.get_col soa_col (df_result st)) as [col|e]; cbn [bind].
      * apply Hd. apply append_source_extends.
      * apply extends_refl.
    + apply Hd. apply extends_refl.
Qed.

Lemma join_slot_extends soa_col total idx ref m rets st :
  extends (eq (ref_label idx)) (match_sources_dict st)
          (match_sources_dict (snd (join_slot soa_col total idx ref m rets st))).
Proof.
  unfold join_slot.
  destruct (Frame.select _ ref) as [extract|e]; [|apply extends_refl].
  destruct (Frame.merge_left _ _ _ _) as [merged|e]; [|apply extends_refl].
  destruct rets as [|r0 rest]; [apply extends_refl|].
  destruct (Frame.get_col _ merged) as [col|e]; [|apply extends_refl].
  pose proof (mask_loop_extends (ref_label idx) soa_col total (map Frame.notna col) O
                (with_df merged st)) as H.
  destruct (mask_loop _ _ _ _ _ _) as [[e|] st']; cbn [snd] in H |- *; [exact H|].
  destruct (Nat.ltb O idx); [|exact H].
  destruct (Frame.insert_col _ _ _ _); exact H.
Qed.

Lemma slot_step_extends soa_col total idx config st :
  extends (eq (ref_label idx)) (match_sources_dict st)
          (match_sources_dict (fst (slot_step soa_col total idx config st))).
Proof.
  destruct config as [cfg|]; cbn [slot_step fst]; [|apply extends_refl].
  unfold slot_body.
  destruct (Frame.get_col (match_col cfg) (ref_df cfg)) as [rcol|e];
    [|apply extends_refl].
  cbn [df_result emit].
  destruct (Frame.get_col soa_col (df_result st)) as [lcol|e]; [|apply extends_refl].
  match goal with
  | |- context [join_slot ?a ?b ?c ?d ?e ?f ?g] =>
      pose proof (join_slot_extends a b c d e f g) as H;
      destruct (join_slot a b c d e f g) as [[e'|] st']
  end; exact H.
Qed.

(** X6: whatever happens in the slots, the loop never adds a key to the
    dictionary of source labels and never removes or reorders what a key
    already holds: it only appends labels of the slots it ran. *)
Theorem labels_only_appended soa_col total configs : forall idx st,
  extends (fun x => exists i, (idx <= i < idx + length configs)%nat /\ x = ref_label i)
          (match_sources_dict st)
          (match_sources_dict (fst (run_slots soa_col total idx configs st))).
Proof.
  induction configs as [|config rest IH]; intros idx st; cbn [run_slots].
  - apply extends_refl.
  - pose proof (slot_step_extends soa_col total idx config st) as H1.
    destruct (slot_step soa_col total idx config st) as [st1 config'].
    specialize (IH (S idx) st1).
    destruct (run_slots soa_col total (S idx) rest st1) as [st2 rest'].
    cbn [fst] in *.
    eapply extends_trans; [| |exact H1|exact IH].
    + intros x <-. exists idx. cbn [length]. split; [lia|reflexivity].
    + intros x (i & Hi & ->). exists i. cbn [length]. split; [lia|reflexivity].
Qed.

End Dictionary.

(** ** Progress reports of a slot *)

Section SlotProgress.

Import RecoWorker.

Lemma progress_of_map_Progress ps : progress_of (map Progress ps) = ps.
Proof. induction ps as [|p ps IH]; cbn; [reflexivity|now f_equal]. Qed.

Lemma mask_loop_steps label soa_col total mask : forall i st st',
  mask_loop label soa_col total i mask st = (None, st') ->
  current_step st' = current_step st + Z.of_nat (length mask) /\
  exists ps,
    trace st' = trace st ++ map Progress ps /\
    map Ok ps = map (fun k => percent_of (current_step st + Z.of_nat k) total)
                    (seq 1 (length mask)).
Proof.
  induction mask as [|matched rest IH]; intros i st st' H; cbn [mask_loop] in H.
  - injection H as <-. cbn [length seq map]. split; [lia|].
    exists []. split; [now rewrite app_nil_r|reflexivity].
  - assert (Hstep : forall d,
      (let st1 := {| df_result := df_result st; match_sources_dict := d;
                     current_step := current_step st + 1; trace := trace st |} in
       match percent_of (current_step st1) total with
       | Raise e => (Some e, st1)
       | Ok p => mask_loop label soa_col total (S i) rest (emit (Progress p) st1)
       end) = (None, st') ->
      current_step st' = current_step st + Z.of_nat (length (matched :: rest)) /\
      exists ps,
        trace st' = trace st ++ map Progress ps /\
        map Ok ps = map (fun k => percent_of (current_step st + Z.of_nat k) total)
                        (seq 1 (length (matched :: rest)))).
    { intros d. cbv zeta. cbn [current_step].
      destruct (percent_of (current_step st + 1) total) as [p|e] eqn:Ep; [|discriminate].
      intros Hrec. apply IH in Hrec. cbn [current_step trace emit] in Hrec.
      destruct Hrec as (Hc & ps & Ht & Hps). split.
      - rewrite Hc. cbn [length]. lia.
      - exists (p :: ps). split.
        + rewrite Ht, <- app_assoc. reflexivity.
        + cbn [length seq map]. f_equal.
          * change (Z.of_nat 1) with 1. now rewrite Ep.
          * rewrite Hps, <- (seq_shift (length rest) 1), map_map. apply map_ext.
            intros k. f_equal. lia. }
    destruct matched.
    + destruct (Frame.get_col soa_col (df_result st)) as [col|e]; cbn [bind] in H;
        [|discriminate]. exact (Hstep _ H).
    + exact (Hstep _ H).
Qed.

(** X7: a slot that runs to the end reports progress once for every row of
    the merged table (the rows of its first returned column), with the
    percentages of the following steps in order, and advances the step
    counter by that number of rows. *)
Theorem slot_reports_each_row soa_col total idx cfg st st' ref' :
  slot_body soa_col total idx cfg st = (None, st', ref') ->
  exists r0 col ps,
    head (return_cols cfg) = Some r0 /\
    Frame.get_col (ref_column idx r0) (df_result st') = Ok col /\
    current_step st' = current_step st + Z.of_nat (length col) /\
    progress_of (trace st') = progress_of (trace st) ++ ps /\
    map Ok ps = map (fun k => percent_of (current_step st + Z.of_nat k) total)
                    (seq 1 (length col)).
Proof.
  unfold slot_body.
  destruct (Frame.get_col (match_col cfg) (ref_df cfg)) as [rcol|e]; [|discriminate].
  cbn [df_result emit].
  destruct (Frame.get_col soa_col (df_result st)) as [lcol|e]; [|discriminate].
  unfold join_slot.
  destruct (Frame.select _ _) as [extract|e]; [|discriminate].
  destruct (Frame.merge_left _ _ _ _) as [merged|e]; [|discriminate].
  destruct (return_cols cfg) as [|r0 rest]; [discriminate|].
  destruct (Frame.get_col (ref_column idx r0) merged) as [col|e] eqn:Ecol; [|discriminate].
  destruct (mask_loop _ _ _ _ _ _) as [[e|] st1] eqn:Eloop; [discriminate|].
  match type of Eloop with
  | mask_loop _ _ _ _ _ ?s = _ =>
      pose proof (mask_loop_df (ref_label idx) soa_col total (map Frame.notna col) O s)
        as Hdf
  end.
  rewrite Eloop in Hdf. cbn [snd with_df df_result] in Hdf.
  apply mask_loop_steps in Eloop.
  cbn [current_step trace with_df emit] in Eloop.
  destruct Eloop as (Hc & ps & Ht & Hps). rewrite length_map in Hc, Hps.
  assert (Hprog : progress_of (trace st1) = progress_of (trace st) ++ ps).
  { rewrite Ht, !progress_of_app, progress_of_map_Progress. cbn. now rewrite app_nil_r. }
  destruct (Nat.ltb O idx).
  - destruct (Frame.insert_col _ _ _ _) as [df|e] eqn:Eins; [|discriminate].
    intros [= <- _]. cbn [with_df df_result current_step trace].
    exists r0, col, ps. split; [reflexivity|]. split; [|auto].
    unfold Frame.insert_col in Eins. destruct (Frame.has_col _ _); [discriminate|].
    injection Eins as <-. rewrite firstn_all, skipn_all. cbn [app].
    apply get_col_app_l. now rewrite Hdf.
  - intros [= <- _]. exists r0, col, ps. split; [reflexivity|].
    split; [now rewrite Hdf|auto].
Qed.

End SlotProgress.

Lemma slot_reports_each_row_witness :
  let st := RecoWorker.init_state Sample.twin_soa [Str "7"; Str "7"] [] in
  let r := RecoWorker.slot_body "Inv" 8 0 Sample.seven_ref st in
  exists r0 col ps,
    head (return_cols Sample.seven_ref) = Some r0 /\
    Frame.get_col (RecoWorker.ref_column 0 r0) (RecoWorker.df_result (snd (fst r))) = Ok col /\
    RecoWorker.current_step (snd (fst r))
    = RecoWorker.current_step st + Z.of_nat (length col) /\
    progress_of (RecoWorker.trace (snd (fst r)))
    = progress_of (RecoWorker.trace st) ++ ps /\
    map Ok ps = map (fun k => RecoWorker.percent_of
                                (RecoWorker.current_step st + Z.of_nat k) 8)
                    (seq 1 (length col)).
Proof.
  cbv zeta.
  apply (slot_reports_each_row "Inv" 8 0 Sample.seven_ref
           (RecoWorker.init_state Sample.twin_soa [Str "7"; Str "7"] [])
           (snd (fst (RecoWorker.slot_body "Inv" 8 0 Sample.seven_ref
                        (RecoWorker.init_state Sample.twin_soa [Str "7"; Str "7"] []))))
           (snd (RecoWorker.slot_body "Inv" 8 0 Sample.seven_ref
                   (RecoWorker.init_state Sample.twin_soa [Str "7"; Str "7"] [])))).
  vm_compute. reflexivity.
Defined.

(** ** What a run hands over *)

Section Output.

Import RecoWorker.

Lemma completions_app evs evs' :
  completions (evs ++ evs') = completions evs ++ completions evs'.
Proof. unfold completions. apply flat_map_app. Qed.

Lemma mask_loop_completions label soa_col total mask : forall i st,
  completions (trace (snd (mask_loop label soa_col total i mask st)))
  = completions (trace st).
Proof.
  induction mask as [|matched rest IH]; intros i st; cbn [mask_loop]; [reflexivity|].
  destruct (if matched then _ else _) as [d|e]; [|reflexivity].
  cbv zeta. cbn [current_step].
  destruct (percent_of _ total) as [p|e]; [|reflexivity].
  rewrite IH. cbn [emit trace]. rewrite completions_app. cbn. now rewrite app_nil_r.
Qed.

Lemma join_slot_completions soa_col total idx ref m rets st :
  completions (trace (snd (join_slot soa_col total idx ref m rets st)))
  = completions (trace st).
Proof.
  unfold join_slot.
  destruct (Frame.select _ ref) as [extract|e]; [|reflexivity].
  destruct (Frame.merge_left _ _ _ _) as [merged|e]; [|reflexivity].
  destruct rets as [|r0 rest]; [reflexivity|].
  destruct (Frame.get_col _ merged) as [col|e]; [|reflexivity].
  pose proof (mask_loop_completions (ref_label idx) soa_col total (map Frame.notna col) O
                (with_df merged st)) as H.
  destruct (mask_loop _ _ _ _ _ _) as [[e|] st']; cbn [snd] in H |- *; [exact H|].
  destruct (Nat.ltb O idx); [|exact H].
  destruct (Frame.insert_col _ _ _ _); exact H.
Qed.

Lemma slot_step_completions soa_col total idx config st :
  completions (trace (fst (slot_step soa_col total idx config st)))
  = completions (trace st).
Proof.
  destruct config as [cfg|]; cbn [slot_step fst]; [|reflexivity].
  assert (Hs : forall msg, completions (trace (emit (Status msg) st)) = completions (trace st)).
  { intros msg. cbn [emit trace]. rewrite completions_app. cbn. now rewrite app_nil_r. }
  unfold slot_body.
  destruct (Frame.get_col (match_col cfg) (ref_df cfg)) as [rcol|e].
  - cbn [df_result emit].
    destruct (Frame.get_col soa_col (df_result st)) as [lcol|e].
    + match goal with
      | |- context [join_slot ?a ?b ?c ?d ?e ?f ?g] =>
          pose proof (join_slot_completions a b c d e f g) as H;
          destruct (join_slot a b c d e f g) as [[e'|] st']
      end; cbn [snd fst] in H |- *.
      * unfold slot_failed. cbn [emit trace]. rewrite !completions_app. cbn.
        rewrite !app_nil_r, H. cbn [with_df trace]. apply Hs.
      * rewrite H. cbn [with_df trace]. apply Hs.
    + cbn [fst]. unfold slot_failed. cbn [emit trace]. rewrite !completions_app. cbn.
      now rewrite !app_nil_r.
  - cbn [fst]. unfold slot_failed. cbn [emit trace]. rewrite !completions_app. cbn.
    now rewrite !app_nil_r.
Qed.

Lemma run_slots_completions soa_col total configs : forall idx st,
  completions (trace (fst (run_slots soa_col total idx configs st)))
  = completions (trace st).
Proof.
  induction configs as [|config rest IH]; intros idx st; cbn [run_slots]; [reflexivity|].
  pose proof (slot_step_completions soa_col total idx config st) as H1.
  destruct (slot_step soa_col total idx config st) as [st1 config'].
  specialize (IH (S idx) st1).
  destruct (run_slots soa_col total (S idx) rest st1) as [st2 rest'].
  cbn [fst] in *. congruence.
Qed.

Lemma excel_stage_completions env amount_col df :
  completions (snd (excel_stage env amount_col df)) = [].
Proof.
  assert (Ha : completions (snd (amount_stage amount_col df)) = []).
  { unfold amount_stage. destruct (_ && _ && _); [reflexivity|]. now destruct (negb _). }
  unfold excel_stage. destruct (excel env) as [|e|e]; [exact Ha|reflexivity|].
  destruct (amount_stage amount_col df) as [[df' marks] evs]. cbn [snd] in *.
  rewrite completions_app, Ha. reflexivity.
Qed.

(** X8: the finished table is handed over exactly once, as the last thing
    the run emits, and only by a run that completes; it is handed over even
    when the workbook cannot be opened or saved. *)
Theorem result_handed_over_once env soa_df soa_match date_col amount_col configs tr :
  let r := run env soa_df soa_match date_col amount_col configs tr in
  completions (result_events r)
  = completions tr ++ match result_outcome r with
                      | Completed out _ => [out]
                      | _ => []
                      end /\
  (forall out hl, result_outcome r = Completed out hl ->
     exists evs, result_events r = evs ++ [RecoComplete out]).
Proof.
  cbv zeta. unfold run.
  destruct (prepare env date_col soa_df) as [df|e].
  2:{ cbn [result_events result_outcome]. split; [|discriminate].
      rewrite completions_app. reflexivity. }
  unfold reconcile.
  destruct (Frame.get_col soa_match df) as [keys|e].
  2:{ cbn [result_events result_outcome]. split; [|discriminate].
      now rewrite app_nil_r. }
  pose proof (run_slots_completions soa_match (total_steps configs df) configs O
                (init_state df keys tr)) as Hc.
  destruct (run_slots _ _ _ _ _) as [st refs]. cbn [fst] in Hc.
  cbn [init_state trace] in Hc. rewrite completions_app in Hc. cbn in Hc.
  rewrite app_nil_r in Hc.
  unfold finish.
  destruct (Frame.get_col soa_match (df_result st)) as [keysN|e].
  2:{ cbn [result_events result_outcome]. split; [|discriminate].
      now rewrite app_nil_r. }
  cbv zeta.
  match goal with
  | |- context [excel_stage env amount_col ?d] =>
      pose proof (excel_stage_completions env amount_col d) as He;
      destruct (excel_stage env amount_col d) as [[out marks] evs]
  end.
  cbn [snd] in He. cbn [result_events result_outcome]. split.
  - rewrite !completions_app, He, Hc. reflexivity.
  - intros out' hl [= <- <-].
    exists (trace st ++ [Status "Reconciliation Complete"; Progress 100] ++ evs).
    now rewrite <- !app_assoc.
Qed.

End Output.

Section OutputColumns.

Import RecoWorker.

Lemma clean_dates_length n names : forall df c,
  Frame.get_col n df = Ok c ->
  exists c', Frame.get_col n (clean_dates names df) = Ok c' /\ length c' = length c.
Proof.
  induction names as [|col rest IH]; intros df c Hc; cbn [clean_dates].
  - now exists c.
  - destruct (is_date_like col); [|now apply IH].
    destruct (Frame.get_col col df) as [vals|e] eqn:Ev; [|now apply IH].
    destruct (String.eqb_spec n col) as [->|Hne].
    + rewrite Hc in Ev. injection Ev as <-.
      destruct (IH (Frame.set_col col (map clean_date_cell c) df)
                   (map clean_date_cell c) (get_col_set_eq _ _ _)) as (c' & H1 & H2).
      exists c'. split; [exact H1|]. now rewrite H2, length_map.
    + apply IH. now rewrite get_col_set_ne.
Qed.

Lemma finish_key_column env soa_match amount_col st refs keys :
  Frame.get_col soa_match (df_result st) = Ok keys ->
  soa_match <> "Match Source" -> soa_match <> "Separator1" ->
  soa_match <> "Amount Difference" ->
  exists out hl keys',
    result_outcome (finish env soa_match amount_col st refs) = Completed out hl /\
    Frame.get_col soa_match out = Ok keys' /\ length keys' = length keys.
Proof.
  intros Hk N1 N2 N3. unfold finish. rewrite Hk. cbv zeta.
  set (df1 := Frame.set_col "Match Source" _ (df_result st)).
  set (df2 := if Frame.has_col "Separator1" df1 then Frame.drop_col "Separator1" df1
              else df1).
  assert (H2 : Frame.get_col soa_match df2 = Ok keys).
  { subst df2. destruct (Frame.has_col "Separator1" df1).
    - rewrite get_col_drop_ne by exact N2. subst df1. now rewrite get_col_set_ne.
    - subst df1. now rewrite get_col_set_ne. }
  destruct (clean_dates_length soa_match (Frame.columns df2) df2 keys H2) as (k' & H3 & H4).
  pose proof (excel_stage_keeps soa_match env amount_col
                (clean_dates (Frame.columns df2) df2) N3) as H5.
  destruct (excel_stage env amount_col _) as [[out marks] evs]. cbn [fst] in H5.
  cbn [result_outcome]. exists out, marks, k'. split; [reflexivity|].
  split; [congruence|exact H4].
Qed.

(** X9: in the table of a completed run the column "Match Source" holds a
    text in every row (the empty text where nothing matched, never a missing
    value), one for each row of the match column. *)
Theorem match_source_in_every_row
  env soa_df soa_match date_col amount_col configs tr out hl :
  result_outcome (run env soa_df soa_match date_col amount_col configs tr)
  = Completed out hl ->
  soa_match <> "Match Source" -> soa_match <> "Separator1" ->
  soa_match <> "Amount Difference" ->
  exists keys col,
    Frame.get_col soa_match out = Ok keys /\
    Frame.get_col "Match Source" out = Ok col /\
    length col = length keys /\ forallb is_text col = true.
Proof.
  unfold run. destruct (prepare env date_col soa_df) as [df|e]; [|discriminate].
  unfold reconcile. destruct (Frame.get_col soa_match df) as [keys0|e]; [|discriminate].
  destruct (run_slots _ _ _ _ _) as [st refs].
  intros Hout N1 N2 N3.
  destruct (Frame.get_col soa_match (df_result st)) as [keysN|e] eqn:Ek.
  2:{ unfold finish in Hout. rewrite Ek in Hout. discriminate. }
  destruct (finish_key_column env soa_match amount_col st refs keysN Ek N1 N2 N3)
    as (o1 & h1 & k' & E1 & G1 & L1).
  destruct (finish_match_source env soa_match amount_col st refs keysN Ek)
    as (o2 & h2 & E2 & G2).
  rewrite Hout in E1, E2. injection E1 as <- <-. injection E2 as <- _.
  exists k'. eexists. split; [exact G1|]. split; [exact G2|].
  split; [now rewrite length_map, L1|].
  clear. induction keysN as [|c l IH]; [reflexivity|exact IH].
Qed.

Lemma match_source_in_every_row_witness :
  exists keys col,
    Frame.get_col "Inv" (fst (fst (excel_stage Sample.env None
         [("Inv", [Str "123"; Str "9"]); ("Match Source", [Str ""; Str ""])]))) = Ok keys /\
    Frame.get_col "Match Source" (fst (fst (excel_stage Sample.env None
         [("Inv", [Str "123"; Str "9"]); ("Match Source", [Str ""; Str ""])]))) = Ok col /\
    length col = length keys /\ forallb is_text col = true.
Proof.
  apply (match_source_in_every_row Sample.env Sample.soa "Inv" None None
           [None; None; None; None] [] _ []).
  - vm_compute. reflexivity.
  - discriminate.
  - discriminate.
  - discriminate.
Defined.

Lemma run_slots_absent soa_col total n : forall idx st,
  run_slots soa_col total idx (repeat None n) st = (st, repeat None n).
Proof.
  induction n as [|n IH]; intros idx st; cbn [repeat run_slots slot_step]; [reflexivity|].
  now rewrite IH.
Qed.

(** X10: with no reference loaded in any slot, a run on a statement that has
    its match column completes, reports no progress but the final 100, and
    gives every row the empty "Match Source". *)
Theorem run_without_references env soa_df soa_match date_col amount_col n tr df keys :
  prepare env date_col soa_df = Ok df ->
  Frame.get_col soa_match df = Ok keys ->
  let r := run env soa_df soa_match date_col amount_col (repeat None n) tr in
  exists out hl,
    result_outcome r = Completed out hl /\
    progress_of (result_events r) = progress_of tr ++ [100] /\
    Frame.get_col "Match Source" out = Ok (map (fun _ => Str "") keys) /\
    result_refs r = repeat None n.
Proof.
  intros Hp Hk. cbv zeta. unfold run. rewrite Hp. unfold reconcile. rewrite Hk.
  rewrite run_slots_absent.
  destruct (finish_match_source env soa_match amount_col (init_state df keys tr)
              (repeat None n) keys Hk) as (out & hl & E & G).
  exists out, hl. split; [exact E|].
  split; [|split].
  - unfold finish in *. cbn [init_state df_result trace] in *. rewrite Hk in *.
    cbv zeta in *.
    match goal with
    | |- context [excel_stage env amount_col ?d] =>
        pose proof (excel_stage_no_progress env amount_col d) as He;
        destruct (excel_stage env amount_col d) as [[o m] evs]
    end.
    cbn [snd result_events] in *. rewrite !progress_of_app, He. cbn.
    now rewrite !app_nil_r.
  - rewrite G. f_equal. apply map_ext. intros c.
    cbn [init_state match_sources_dict]. rewrite init_dict_lookup.
    now destruct (Frame.mem _ _).
  - unfold finish. cbn [init_state df_result]. rewrite Hk. cbv zeta.
    now destruct (excel_stage env amount_col _) as [[o m] evs].
Qed.

Lemma run_without_references_witness :
  exists out hl,
    result_outcome (run Sample.env Sample.soa "Inv" None None (repeat None 4) [])
    = Completed out hl /\
    progress_of (result_events (run Sample.env Sample.soa "Inv" None None (repeat None 4) []))
    = progress_of [] ++ [100] /\
    Frame.get_col "Match Source" out = Ok (map (fun _ => Str "") [Str "123"; Str "9"]) /\
    result_refs (run Sample.env Sample.soa "Inv" None None (repeat None 4) [])
    = repeat None 4.
Proof.
  apply (run_without_references Sample.env Sample.soa "Inv" None None 4 []
           Sample.soa [Str "123"; Str "9"]).
  - reflexivity.
  - reflexivity.
Defined.

Lemma age_stage_other_col env date_col (df df' : Frame.t) n :
  age_stage env date_col df = Ok df' ->
  n <> "Age (Days)" -> n <> "Age Bucket" ->
  Frame.get_col n df' = Frame.get_col n df.
Proof.
  unfold age_stage. intros H N1 N2.
  destruct (Frame.get_col date_col df) as [original|e] eqn:Eo; [|discriminate].
  cbn [bind] in H. destruct (date_fault env original); [discriminate|].
  cbv zeta in H. unfold Frame.pop in H. rewrite get_col_set_eq in H.
  cbn [bind fst snd] in H.
  unfold Frame.insert_col in H. destruct (Frame.has_col "Age Bucket" _); [discriminate|].
  cbn [firstn skipn app bind] in H. injection H as <-.
  destruct (String.eqb_spec n date_col) as [->|Hne].
  - now rewrite get_col_set_eq.
  - rewrite get_col_set_ne by exact Hne. cbn [Frame.get_col].
    destruct (String.eqb_spec "Age Bucket" n) as [E|_]; [congruence|].
    rewrite skipn_O.
    rewrite get_col_drop_ne by exact N2.
    rewrite get_col_set_ne by exact N2.
    now rewrite get_col_set_ne by exact N1.
Qed.

(** X11: when the statement has no column with the match label (and the
    label is not one of the two age columns the run adds), the run never
    starts a slot: it emits nothing after the ageing step, sends no table and
    leaves the references as they were; it ends with the [KeyError] of the
    label, unless the ageing step had already stopped it. *)
Theorem missing_match_column env soa_df soa_match date_col amount_col configs tr :
  Frame.has_col soa_match soa_df = false ->
  soa_match <> "Age (Days)" -> soa_match <> "Age Bucket" ->
  let r := run env soa_df soa_match date_col amount_col configs tr in
  result_refs r = configs /\
  progress_of (result_events r) = progress_of tr /\
  completions (result_events r) = completions tr /\
  match prepare env date_col soa_df with
  | Ok _ => result_outcome r = Crashed (KeyError soa_match) /\ result_events r = tr
  | Raise _ => result_outcome r = Aborted
  end.
Proof.
  intros Hno N1 N2. cbv zeta. unfold run.
  destruct (prepare env date_col soa_df) as [df|e] eqn:Ep.
  - assert (Hk : Frame.get_col soa_match df = Raise (KeyError soa_match)).
    { unfold prepare in Ep.
      destruct (negb _ && _).
      - rewrite (age_stage_other_col _ _ _ _ _ Ep N1 N2). now apply no_col_get_col.
      - injection Ep as <-. now apply no_col_get_col. }
    unfold reconcile. rewrite Hk. cbn [result_refs result_events result_outcome].
    repeat split.
  - cbn [result_refs result_events result_outcome].
    rewrite progress_of_app, completions_app. cbn. rewrite !app_nil_r. repeat split.
Qed.

Lemma missing_match_column_witness :
  let r := run Sample.env Sample.soa "Invoice" None None Sample.four_refs [] in
  result_refs r = Sample.four_refs /\
  progress_of (result_events r) = progress_of [] /\
  completions (result_events r) = completions [] /\
  match prepare Sample.env None Sample.soa with
  | Ok _ => result_outcome r = Crashed (KeyError "Invoice") /\ result_events r = []
  | Raise _ => result_outcome r = Aborted
  end.
Proof.
  apply (missing_match_column Sample.env Sample.soa "Invoice" None None Sample.four_refs []).
  - reflexivity.
  - discriminate.
  - discriminate.
Defined.

End OutputColumns.

(** ** The amount comparison *)

Section Amounts.

Import RecoWorker.

Lemma sub_self_small a :
  Float64.ltb Float64.cent (Float64.abs (Float64.sub a a)) = false.
Proof.
  destruct a as [s|s| |s m e].
  - destruct s; reflexivity.
  - destruct s; reflexivity.
  - reflexivity.
  - unfold Float64.sub, SFsub. cbv zeta. rewrite Z.sub_diag. reflexivity.
Qed.

(** X12: a reference amount whose text parses to the same number as the
    statement amount of the row (the same text, for one) is never
    highlighted; its entry in "Amount Difference" reads [RefN: 0.00].  This
    includes the texts [inf] and [nan], whose difference is not a number. *)
Theorem same_amount_not_flagged soa_val ref_val ref_col a :
  Frame.notna soa_val = true -> Frame.notna ref_val = true ->
  parse_amount soa_val = Ok a -> parse_amount ref_val = Ok a ->
  compare_amount (soa_number soa_val) ref_col ref_val
  = Some (Py.before_char "_" ref_col +:+ ": 0.00", false).
Proof.
  intros Hs Hr Ps Pr. unfold soa_number, compare_amount.
  rewrite Hs, Ps, Hr, Pr. cbv zeta. now rewrite sub_self_small.
Qed.

Lemma same_amount_not_flagged_witness :
  compare_amount (soa_number (Str "$1,234.50")) "Ref2_Amount" (Str " 1234.5 ")
  = Some (Py.before_char "_" "Ref2_Amount" +:+ ": 0.00", false).
Proof.
  apply (same_amount_not_flagged (Str "$1,234.50") (Str " 1234.5 ") "Ref2_Amount"
           (S754_finite false 5429388417957888 (-42))).
  - reflexivity.
  - reflexivity.
  - vm_compute. reflexivity.
  - vm_compute. reflexivity.
Defined.

Lemma index_of_lt name l : In name l -> (index_of name l < length l)%nat.
Proof.
  induction l as [|x rest IH]; cbn [index_of length In]; [tauto|].
  intros H. destruct (String.eqb_spec x name) as [E|N]; [lia|].
  destruct H as [H|H]; [contradiction|]. specialize (IH H). lia.
Qed.

Lemma row_diffs_marks df all_cols soa_amt_col row soa_num ref_cols :
  In soa_amt_col all_cols ->
  Forall (fun c => In c all_cols) ref_cols ->
  Forall (fun rc => fst rc = S row /\ (snd rc < length all_cols)%nat)
         (snd (row_diffs df all_cols soa_amt_col row soa_num ref_cols)) /\
  Nat.even (length (snd (row_diffs df all_cols soa_amt_col row soa_num ref_cols))) = true.
Proof.
  intros Hs. induction ref_cols as [|c rest IH]; intros Hr; cbn [row_diffs].
  - split; [constructor|reflexivity].
  - apply Forall_cons_iff in Hr as [Hc Hrest]. specialize (IH Hrest).
    destruct (row_diffs df all_cols soa_amt_col row soa_num rest) as [entries marks].
    cbn [snd] in IH. destruct IH as [IH1 IH2].
    destruct (compare_amount soa_num c (cell_at df row c)) as [[entry [|]]|];
      cbn [snd]; [|now split|now split].
    split.
    + constructor; [|constructor; [|exact IH1]]; cbn [fst snd];
        (split; [reflexivity|now apply index_of_lt]).
    + cbn [length]. exact IH2.
Qed.

Lemma even_length_concat {A} (ls : list (list A)) :
  Forall (fun l => Nat.even (length l) = true) ls ->
  Nat.even (length (concat ls)) = true.
Proof.
  induction 1 as [|l ls Hl _ IH]; [reflexivity|].
  cbn [concat]. rewrite length_app, Nat.even_add, Hl, IH. reflexivity.
Qed.

(** X13: every cell the amount comparison highlights lies in a data row of
    the sheet and in a column the table had before the comparison; cells are
    highlighted in pairs (the statement cell and the reference cell), and
    the column "Amount Difference", when the comparison adds it, has one text
    for every row. *)
Theorem highlights_inside_table amount_col df :
  let r := amount_stage amount_col df in
  Forall (fun rc => (1 <= fst rc <= Frame.nrows df)%nat /\
                    (snd rc < length (Frame.columns df))%nat) (snd (fst r)) /\
  Nat.even (length (snd (fst r))) = true /\
  (fst (fst r) = df \/
   exists col, Frame.get_col "Amount Difference" (fst (fst r)) = Ok col /\
               length col = Frame.nrows df /\ forallb is_text col = true).
Proof.
  cbv zeta. unfold amount_stage. cbv zeta.
  set (all := Frame.columns df).
  set (refs := filter (fun c => is_ref_amount c) all).
  set (soa := default "" amount_col).
  destruct (negb (Py.is_empty soa) && Frame.mem soa all && negb (Nat.eqb (length refs) O))
    eqn:Hc.
  2:{ destruct (negb (Py.is_empty soa)); cbn [fst snd];
        (split; [constructor|split; [reflexivity|now left]]). }
  apply andb_true_iff in Hc as [Hc _]. apply andb_true_iff in Hc as [_ Hmem].
  apply mem_In in Hmem.
  assert (Hrefs : Forall (fun c => In c all) refs).
  { apply List.Forall_forall. intros c Hin. subst refs.
    apply list_elem_of_In in Hin. apply list_elem_of_filter in Hin as [_ Hin].
    now apply list_elem_of_In. }
  assert (Hrow : forall row,
            Forall (fun rc => fst rc = S row /\ (snd rc < length all)%nat)
                   (snd (amount_row df all soa refs row)) /\
            Nat.even (length (snd (amount_row df all soa refs row))) = true).
  { intros row. unfold amount_row. cbv zeta.
    pose proof (row_diffs_marks df all soa row (soa_number (cell_at df row soa)) refs
                  Hmem Hrefs) as H.
    destruct (row_diffs _ _ _ _ _ _) as [entries marks]. exact H. }
  cbn [fst snd]. split; [|split].
  - apply List.Forall_forall. intros rc Hin. apply in_concat in Hin as (l & Hl & Hrc).
    apply in_map_iff in Hl as (pr & <- & Hpr).
    apply in_map_iff in Hpr as (row & <- & Hrow').
    apply in_seq in Hrow'. destruct (Hrow row) as [Hf _].
    rewrite List.Forall_forall in Hf. destruct (Hf rc Hrc) as [E L].
    split; [rewrite E; lia|exact L].
  - apply even_length_concat. apply List.Forall_forall. intros l Hl.
    apply in_map_iff in Hl as (pr & <- & Hpr).
    apply in_map_iff in Hpr as (row & <- & _). apply Hrow.
  - right. eexists. split; [apply get_col_set_eq|]. split.
    + now rewrite !length_map, length_seq.
    + rewrite map_map. clear. induction (seq 0 (Frame.nrows df)); [reflexivity|assumption].
Qed.

Lemma contains_after_prefix k0 krest pre s :
  Py.all_chars (fun c => negb (Ascii.eqb k0 (Py.lower_char c))) pre = true ->
  Py.contains (String k0 krest) (Py.lower (pre +:+ s))
  = Py.contains (String k0 krest) (Py.lower s).
Proof.
  induction pre as [|c pre IH]; intros H; [reflexivity|].
  cbn [Py.all_chars] in H. apply andb_true_iff in H as [Hc Hp].
  apply negb_true_iff in Hc.
  change (Py.lower (String c pre +:+ s))
    with (String (Py.lower_char c) (Py.lower (pre +:+ s))).
  cbn [Py.contains Py.starts_with]. rewrite Hc. cbn [andb orb]. now apply IH.
Qed.

Lemma prefix_char_skips k0 c :
  In k0 ["a"; "v"; "t"; "s"; "p"; "c"; "d"]%char ->
  prefix_char c = true -> negb (Ascii.eqb k0 (Py.lower_char c)) = true.
Proof.
  intros Hk. cbn [In] in Hk.
  destruct Hk as [<-|[<-|[<-|[<-|[<-|[<-|[<-|[]]]]]]]];
    destruct c as [[] [] [] [] [] [] [] []]; vm_compute; congruence.
Qed.

Lemma uint_digits_prefix u : Py.all_chars prefix_char (NilEmpty.string_of_uint u) = true.
Proof. induction u; simpl; auto. Qed.

Lemma ref_label_prefix idx : Py.all_chars prefix_char (ref_label idx) = true.
Proof.
  unfold ref_label, Py.str_nat, NilZero.string_of_uint. simpl.
  destruct (Nat.to_uint (S idx)); try reflexivity; apply uint_digits_prefix.
Qed.

Lemma contains_in_ref_column k0 krest idx name :
  In k0 ["a"; "v"; "t"; "s"; "p"; "c"; "d"]%char ->
  Py.contains (String k0 krest) (Py.lower (ref_column idx name))
  = Py.contains (String k0 krest) (Py.lower name).
Proof.
  intros Hk. unfold ref_column.
  rewrite contains_after_prefix.
  - apply (contains_after_prefix k0 krest "_" name).
    cbn [Py.all_chars]. rewrite (prefix_char_skips k0 "_" Hk eq_refl). reflexivity.
  - eapply all_chars_weaken; [|apply ref_label_prefix].
    intros c Hc. now apply prefix_char_skips.
Qed.

(** X14: whether a returned reference column is compared as an amount, and
    whether it is cleaned as a date, depends on the name the column had in
    the reference file only: the prefix [RefN_] the run puts in front never
    supplies a keyword. *)
Theorem renamed_column_detected_by_name idx name :
  is_ref_amount (ref_column idx name)
  = existsb (fun kw => Py.contains kw (Py.lower name)) amount_keywords /\
  is_date_like (ref_column idx name) = is_date_like name.
Proof.
  unfold is_ref_amount, is_date_like, amount_keywords, date_keywords.
  rewrite ref_column_prefix, andb_true_r. cbn [existsb].
  rewrite !contains_in_ref_column by (cbn; tauto). split; reflexivity.
Qed.

End Amounts.

(** ** The date clean-up of the output *)

Section DateCleanUp.

Import RecoWorker.

Lemma lstrip_app_nonblank t sfx :
  t <> EmptyString -> Py.rstrip_by Py.isspace t = t ->
  exists u, u <> EmptyString /\ Py.lstrip_by Py.isspace (t +:+ sfx) = u +:+ sfx.
Proof.
  induction t as [|d t IH]; intros Hne Hfix; [congruence|].
  change (String d t +:+ sfx) with (String d (t +:+ sfx)). cbn [Py.lstrip_by].
  destruct (Py.isspace d) eqn:Hd.
  - assert (Ht : t <> EmptyString).
    { intros ->. cbn in Hfix. rewrite Hd in Hfix. discriminate. }
    apply IH; [exact Ht|]. eapply rstrip_fixed_tail. exact Hfix.
  - exists (String d t). split; [discriminate|reflexivity].
Qed.

Lemma string_length_app u v :
  String.length (u +:+ v) = (String.length u + String.length v)%nat.
Proof. induction u as [|c u IH]; [reflexivity|]. cbn. now rewrite <- IH. Qed.

Lemma longer_than_midnight u :
  u <> EmptyString ->
  String.eqb (u +:+ " 00:00:00") midnight = false /\
  String.eqb (u +:+ " 00:00:00") (midnight +:+ String "010" EmptyString) = false.
Proof.
  intros Hu.
  assert (L : (10 <= String.length (u +:+ " 00:00:00"))%nat).
  { rewrite string_length_app. destruct u; [congruence|]. cbn. lia. }
  split; apply String.eqb_neq; intros E; rewrite E in L; vm_compute in L; lia.
Qed.

Lemma strip_midnight_at_suffix s :
  Py.rstrip_by Py.isspace s = s ->
  strip_midnight_at (s +:+ " 00:00:00") = Some s.
Proof.
  induction s as [|c t IH]; intros Hfix; [reflexivity|].
  pose proof (rstrip_fixed_tail Py.isspace c t Hfix) as Ht.
  change (String c t +:+ " 00:00:00") with (String c (t +:+ " 00:00:00")).
  cbn [strip_midnight_at]. rewrite (IH Ht).
  destruct (Py.isspace c) eqn:Hc; [|reflexivity].
  assert (Hne : t <> EmptyString).
  { intros ->. cbn in Hfix. rewrite Hc in Hfix. discriminate. }
  destruct (lstrip_app_nonblank t " 00:00:00" Hne Ht) as (u & Hu & ->).
  destruct (longer_than_midnight u Hu) as [-> ->]. reflexivity.
Qed.

(** X15: the date clean-up undoes the midnight a date-time conversion
    appends: from a text without trailing white space followed by
    [ 00:00:00] it gives back the text, for every text; so a cell that reads
    [<date> 00:00:00] is written as [<date>]. *)
Theorem midnight_suffix_removed s :
  Py.rstrip_by Py.isspace s = s ->
  strip_midnight (s +:+ " 00:00:00") = s /\
  (s <> "nan" -> s <> "NaT" -> clean_date_cell (Str (s +:+ " 00:00:00")) = Str s).
Proof.
  intros Hfix.
  assert (E : strip_midnight (s +:+ " 00:00:00") = s).
  { unfold strip_midnight. now rewrite strip_midnight_at_suffix. }
  split; [exact E|]. intros N1 N2. unfold clean_date_cell. cbn [Frame.to_str].
  cbv zeta. rewrite E.
  destruct (String.eqb_spec s "nan"); [contradiction|].
  destruct (String.eqb_spec s "NaT"); [contradiction|]. reflexivity.
Qed.

Lemma midnight_suffix_removed_witness :
  strip_midnight ("2024-06-16" +:+ " 00:00:00") = "2024-06-16" /\
  ("2024-06-16" <> "nan" -> "2024-06-16" <> "NaT" ->
   clean_date_cell (Str ("2024-06-16" +:+ " 00:00:00")) = Str "2024-06-16").
Proof. apply (midnight_suffix_removed "2024-06-16"). reflexivity. Defined.

Lemma clean_date_cell_cleaned c : cleaned_date (clean_date_cell c).
Proof.
  unfold clean_date_cell, cleaned_date. cbv zeta.
  destruct (String.eqb_spec (strip_midnight (Frame.to_str c)) "nan") as [|N1].
  - exists EmptyString. repeat split; discriminate.
  - destruct (String.eqb_spec (strip_midnight (Frame.to_str c)) "NaT") as [|N2].
    + exists EmptyString. repeat split; discriminate.
    + eexists. repeat split; assumption.
Qed.

Lemma replace_col_columns n v (df : Frame.t) :
  Frame.columns (Frame.replace_col n v df) = Frame.columns df.
Proof.
  induction df as [|[m col] rest IH]; [reflexivity|].
  cbn [Frame.replace_col]. destruct (String.eqb m n); [reflexivity|].
  unfold Frame.columns in *. cbn [map fst]. now rewrite IH.
Qed.

Lemma clean_dates_columns names : forall df,
  Frame.columns (clean_dates names df) = Frame.columns df.
Proof.
  induction names as [|c rest IH]; intros df; cbn [clean_dates]; [reflexivity|].
  rewrite IH. destruct (is_date_like c); [|reflexivity].
  destruct (Frame.get_col c df) as [vals|e] eqn:E; [|reflexivity].
  unfold Frame.set_col. rewrite (get_col_has_col _ _ _ E). apply replace_col_columns.
Qed.

Lemma clean_dates_stays_cleaned n names : forall df col,
  Frame.get_col n df = Ok col -> Forall cleaned_date col ->
  exists col', Frame.get_col n (clean_dates names df) = Ok col' /\
               length col' = length col /\ Forall cleaned_date col'.
Proof.
  induction names as [|c rest IH]; intros df col Hc Hg; cbn [clean_dates].
  - now exists col.
  - destruct (is_date_like c); [|now apply IH].
    destruct (Frame.get_col c df) as [vals|e] eqn:Ev; [|now apply IH].
    destruct (String.eqb_spec n c) as [->|Hne].
    + rewrite Hc in Ev. injection Ev as <-.
      destruct (IH (Frame.set_col c (map clean_date_cell col) df)
                   (map clean_date_cell col) (get_col_set_eq _ _ _)) as (c' & H1 & H2 & H3).
      * apply List.Forall_forall. intros x Hx. apply in_map_iff in Hx as (y & <- & _).
        apply clean_date_cell_cleaned.
      * exists c'. split; [exact H1|]. split; [now rewrite H2, length_map|exact H3].
    + apply IH; [|exact Hg]. now rewrite get_col_set_ne.
Qed.

(** X16: the date clean-up keeps the labels of the table and their order,
    leaves every column whose label is not date-like as it is, and turns
    every date-like column it visits into texts, one per row, none of them
    the text of a missing value ([nan]) or of a missing time ([NaT]). *)
Theorem date_columns_become_text names df :
  Frame.columns (clean_dates names df) = Frame.columns df /\
  (forall n, is_date_like n = false ->
     Frame.get_col n (clean_dates names df) = Frame.get_col n df) /\
  (forall n col, In n names -> is_date_like n = true -> Frame.get_col n df = Ok col ->
     exists col', Frame.get_col n (clean_dates names df) = Ok col' /\
                  length col' = length col /\ Forall cleaned_date col').
Proof.
  split; [apply clean_dates_columns|]. split; [intros n Hn; now apply clean_dates_keeps|].
  revert df. induction names as [|c rest IH]; intros df n col Hin Hd Hc; [destruct Hin|].
  cbn [clean_dates].
  destruct (String.eqb_spec c n) as [->|Hne].
  - rewrite Hd, Hc.
    destruct (clean_dates_stays_cleaned n rest
                (Frame.set_col n (map clean_date_cell col) df)
                (map clean_date_cell col) (get_col_set_eq _ _ _)) as (c' & H1 & H2 & H3).
    + apply List.Forall_forall. intros x Hx. apply in_map_iff in Hx as (y & <- & _).
      apply clean_date_cell_cleaned.
    + exists c'. split; [exact H1|]. split; [now rewrite H2, length_map|exact H3].
  - destruct Hin as [E|Hin]; [congruence|].
    apply IH; [exact Hin|exact Hd|].
    destruct (is_date_like c); [|exact Hc].
    destruct (Frame.get_col c df) as [vals|e]; [|exact Hc].
    rewrite get_col_set_ne by congruence. exact Hc.
Qed.

End DateCleanUp.

(** ** The reference frames and the running table *)

Section SlotTable.

Import RecoWorker.

Lemma slot_step_ref soa_col total idx config st :
  snd (slot_step soa_col total idx config st) = option_map cleaned_ref config.
Proof.
  destruct config as [cfg|]; cbn [slot_step option_map snd]; [|reflexivity].
  unfold cleaned_ref.
  assert (E : snd (slot_body soa_col total idx cfg st)
              = match Frame.get_col (match_col cfg) (ref_df cfg) with
                | Ok rcol => Frame.set_col (match_col cfg) (clean_column rcol) (ref_df cfg)
                | Raise _ => ref_df cfg
                end).
  { unfold slot_body. destruct (Frame.get_col (match_col cfg) (ref_df cfg)); [|reflexivity].
    cbn [df_result emit]. now destruct (Frame.get_col soa_col (df_result st)). }
  destruct (slot_body soa_col total idx cfg st) as [[[e|] st'] ref]; cbn [snd] in *;
    subst ref; now destruct (Frame.get_col (match_col cfg) (ref_df cfg)).
Qed.

Lemma run_slots_refs soa_col total configs : forall idx st,
  snd (run_slots soa_col total idx configs st) = map (option_map cleaned_ref) configs.
Proof.
  induction configs as [|config rest IH]; intros idx st; cbn [run_slots map]; [reflexivity|].
  pose proof (slot_step_ref soa_col total idx config st) as H1.
  destruct (slot_step soa_col total idx config st) as [st1 config'].
  specialize (IH (S idx) st1).
  destruct (run_slots soa_col total (S idx) rest st1) as [st2 rest'].
  cbn [snd] in *. now subst.
Qed.

(** X17: a run changes the reference frames it was given in one way only:
    once the slot loop is reached, the match column of every loaded reference
    is overwritten with its normalised keys, whether the slot then succeeds
    or fails; empty slots, the other columns and the slot settings stay as
    they were.  A run that stops before the loop leaves them untouched. *)
Theorem references_cleaned_in_place env soa_df soa_match date_col amount_col configs tr :
  let r := run env soa_df soa_match date_col amount_col configs tr in
  (forall out hl, result_outcome r = Completed out hl ->
     result_refs r = map (option_map cleaned_ref) configs) /\
  (result_outcome r = Aborted -> result_refs r = configs) /\
  (result_refs r = configs \/ result_refs r = map (option_map cleaned_ref) configs).
Proof.
  cbv zeta. unfold run.
  destruct (prepare env date_col soa_df) as [df|e].
  2:{ cbn [result_refs result_outcome]. split; [discriminate|]. split; [reflexivity|now left]. }
  unfold reconcile. destruct (Frame.get_col soa_match df) as [keys|e].
  2:{ cbn [result_refs result_outcome]. split; [discriminate|].
      split; [discriminate|now left]. }
  pose proof (run_slots_refs soa_match (total_steps configs df) configs O
                (init_state df keys tr)) as Hr.
  destruct (run_slots _ _ _ _ _) as [st refs]. cbn [snd] in Hr. subst refs.
  assert (E : result_refs (finish env soa_match amount_col st
                             (map (option_map cleaned_ref) configs))
              = map (option_map cleaned_ref) configs).
  { unfold finish. destruct (Frame.get_col soa_match (df_result st)); [|reflexivity].
    cbv zeta. now destruct (excel_stage env amount_col _) as [[o m] evs]. }
  split; [intros; exact E|]. split; [|right; exact E].
  intros Hab. exfalso. revert Hab. apply finish_not_aborted.
Qed.

(** X18: a slot whose body runs to its end replaces the running table by the
    left join of the table (keys normalised) with the reference's match and
    return columns (renamed [RefN_...]); every slot but the first then
    appends one column [SeparatorN] of empty texts as the last column. *)
Theorem successful_slot_table soa_col total idx cfg st st' ref' :
  slot_body soa_col total idx cfg st = (None, st', ref') ->
  exists merged,
    joined_frame soa_col idx cfg (df_result st) = Ok merged /\
    df_result st' =
      if Nat.ltb O idx
      then merged ++ [("Separator" +:+ Py.str_nat (S idx),
                       repeat (Str "") (Frame.nrows merged))]
      else merged.
Proof.
  unfold slot_body, joined_frame.
  destruct (Frame.get_col (match_col cfg) (ref_df cfg)) as [rcol|e]; [|discriminate].
  cbn [df_result emit bind].
  destruct (Frame.get_col soa_col (df_result st)) as [lcol|e]; [|discriminate].
  cbn [bind]. unfold join_slot.
  destruct (Frame.select _ _) as [extract|e]; [|discriminate]. cbn [bind].
  cbn [with_df df_result].
  destruct (Frame.merge_left _ _ _ _) as [merged|e]; [|discriminate].
  destruct (return_cols cfg) as [|r0 rest]; [discriminate|].
  destruct (Frame.get_col (ref_column idx r0) merged) as [col|e]; [|discriminate].
  destruct (mask_loop _ _ _ _ _ _) as [[e|] st1] eqn:Eloop; [discriminate|].
  match type of Eloop with
  | mask_loop _ _ _ _ _ ?s = _ =>
      pose proof (mask_loop_df (ref_label idx) soa_col total (map Frame.notna col) O s)
        as Hdf
  end.
  rewrite Eloop in Hdf. cbn [snd with_df df_result] in Hdf.
  exists merged. split; [reflexivity|].
  destruct (Nat.ltb O idx).
  - rewrite Hdf in H. unfold Frame.insert_col in H.
    destruct (Frame.has_col _ merged); [discriminate|].
    injection H as <- _. cbn [with_df df_result].
    now rewrite firstn_all, skipn_all.
  - injection H as <- _. exact Hdf.
Qed.

Lemma successful_slot_table_witness :
  let st := init_state Sample.twin_soa [Str "7"; Str "7"] [] in
  exists merged,
    joined_frame "Inv" 1 Sample.seven_ref (df_result st) = Ok merged /\
    df_result (snd (fst (slot_body "Inv" 8 1 Sample.seven_ref st))) =
      if Nat.ltb O 1
      then merged ++ [("Separator" +:+ Py.str_nat 2, repeat (Str "") (Frame.nrows merged))]
      else merged.
Proof.
  cbv zeta.
  apply (successful_slot_table "Inv" 8 1 Sample.seven_ref
           (init_state Sample.twin_soa [Str "7"; Str "7"] []) _
           (snd (slot_body "Inv" 8 1 Sample.seven_ref
                   (init_state Sample.twin_soa [Str "7"; Str "7"] [])))).
  vm_compute. reflexivity.
Defined.

Lemma cell_eqb_eq a b : Frame.cell_eqb a b = true -> a = b.
Proof.
  destruct a as [|x|x fx], b as [|y|y fy]; cbn; try discriminate; [reflexivity| |].
  - intros H. apply String.eqb_eq in H. now subst.
  - intros H. apply andb_true_iff in H as [H1 H2].
    apply Z.eqb_eq in H1. apply eqb_prop in H2. now subst.
Qed.

Lemma matches_from_absent k rkeys : forall i,
  ~ In k rkeys -> Frame.matches_from i k rkeys = [].
Proof.
  induction rkeys as [|r rest IH]; intros i Hn; cbn [Frame.matches_from]; [reflexivity|].
  destruct (Frame.cell_eqb k r) eqn:E.
  - apply cell_eqb_eq in E. subst. exfalso. apply Hn. now left.
  - apply IH. intros Hin. apply Hn. now right.
Qed.

Lemma matches_from_unique k rkeys : forall i,
  List.NoDup rkeys -> (length (Frame.matches_from i k rkeys) <= 1)%nat.
Proof.
  induction rkeys as [|r rest IH]; intros i Hnd; cbn [Frame.matches_from]; [cbn; lia|].
  inversion Hnd as [|? ? Hnot Hrest]; subst.
  destruct (Frame.cell_eqb k r) eqn:E.
  - apply cell_eqb_eq in E. subst. rewrite matches_from_absent by exact Hnot. cbn. lia.
  - now apply IH.
Qed.

Lemma join_plan_from_unique rkeys lkeys : forall i,
  List.NoDup rkeys -> length (Frame.join_plan_from i lkeys rkeys) = length lkeys.
Proof.
  induction lkeys as [|k rest IH]; intros i Hnd; cbn [Frame.join_plan_from]; [reflexivity|].
  rewrite length_app, (IH (S i) Hnd). cbn [length].
  pose proof (matches_from_unique k rkeys O Hnd) as L.
  destruct (Frame.matches_from O k rkeys) as [|j [|j' ms]]; cbn in *; lia.
Qed.

Lemma merged_all_len plan lnames (lcols : list (list cell)) rnames rcols :
  all_len (length plan)
    (combine lnames (map (Frame.take_left plan) lcols)
     ++ combine rnames (map (Frame.take_right plan) rcols)).
Proof.
  apply all_len_app; apply all_len_combine; intros c;
    unfold Frame.take_left, Frame.take_right; apply length_map.
Qed.

(** X19: the join of a slot never loses a row of the running table, and all
    columns of the joined table have the same number of rows; when no two
    rows of the reference have the same normalised key, that number is the
    number of rows the table had. *)
Theorem join_keeps_rows soa_col idx cfg df merged lcol rcol :
  joined_frame soa_col idx cfg df = Ok merged ->
  Frame.get_col soa_col df = Ok lcol ->
  Frame.get_col (match_col cfg) (ref_df cfg) = Ok rcol ->
  (exists k, (length lcol <= k)%nat /\ all_len k merged) /\
  (List.NoDup (clean_column rcol) -> all_len (length lcol) merged).
Proof.
  unfold joined_frame. intros H Hl Hr. rewrite Hr, Hl in H. cbn [bind] in H.
  cbn [Frame.select] in H. rewrite get_col_set_eq in H. cbn [bind] in H.
  destruct (Frame.select (return_cols cfg) _) as [sel|e]; cbn [bind] in H; [|discriminate].
  unfold Frame.merge_left in H. rewrite get_col_set_eq in H. cbn [bind] in H.
  unfold Frame.rename_all in H at 1. cbn [map snd combine Frame.get_col] in H.
  rewrite String.eqb_refl in H. cbn [bind] in H.
  set (plan := Frame.join_plan (clean_column lcol) (clean_column rcol)) in *.
  destruct (_ || _); [discriminate|]. injection H as <-.
  assert (Hlen : length (clean_column lcol) = length lcol)
    by (unfold clean_column; apply length_map).
  split.
  - exists (length plan). split; [|apply merged_all_len].
    rewrite <- Hlen. apply join_plan_from_length.
  - intros Hnd.
    assert (E : length plan = length lcol).
    { subst plan. unfold Frame.join_plan. now rewrite join_plan_from_unique. }
    rewrite <- E. apply merged_all_len.
Qed.

Lemma join_keeps_rows_witness :
  (exists k, (length [Str "7"; Str "7"] <= k)%nat /\
             all_len k [("Inv", [Str "7"; Str "7"]); ("Ref1_Amt", [Str "9"; Str "9"])]) /\
  (List.NoDup (clean_column [Str "7"]) ->
   all_len (length [Str "7"; Str "7"])
     [("Inv", [Str "7"; Str "7"]); ("Ref1_Amt", [Str "9"; Str "9"])]).
Proof.
  apply (join_keeps_rows "Inv" 0 Sample.seven_ref Sample.twin_soa
           [("Inv", [Str "7"; Str "7"]); ("Ref1_Amt", [Str "9"; Str "9"])]
           [Str "7"; Str "7"] [Str "7"]).
  - vm_compute. reflexivity.
  - reflexivity.
  - reflexivity.
Defined.

End SlotTable.

(** ** Starting a run from the window *)

Section Window.

Import RecoWorker.

Lemma clean_column_stringified col :
  clean_column (map (fun c => Str (Frame.to_str c)) col) = clean_column col.
Proof. unfold clean_column. rewrite map_map. reflexivity. Qed.

Lemma replace_col_twice n v w (df : Frame.t) :
  Frame.replace_col n v (Frame.replace_col n w df) = Frame.replace_col n v df.
Proof.
  induction df as [|[m col] rest IH]; [reflexivity|]. cbn [Frame.replace_col].
  destruct (String.eqb m n) eqn:E; cbn [Frame.replace_col]; rewrite E; [reflexivity|].
  now rewrite IH.
Qed.

Lemma set_col_twice n v w (df : Frame.t) :
  Frame.has_col n df = true ->
  Frame.set_col n v (Frame.set_col n w df) = Frame.set_col n v df.
Proof.
  intros H. unfold Frame.set_col. rewrite H.
  assert (H' : Frame.has_col n (Frame.replace_col n w df) = true).
  { unfold Frame.has_col. now rewrite replace_col_columns. }
  rewrite H'. apply replace_col_twice.
Qed.

Lemma slot_step_stringified soa_col total idx cfg cfg' st :
  Oi360App.stringify cfg = Ok cfg' ->
  slot_step soa_col total idx (Some cfg') st = slot_step soa_col total idx (Some cfg) st.
Proof.
  unfold Oi360App.stringify.
  destruct (Frame.get_col (match_col cfg) (ref_df cfg)) as [col|e] eqn:Ec; [|discriminate].
  cbn [bind]. intros [= <-].
  cbn [slot_step]. unfold slot_body. cbn [with_ref ref_df match_col return_cols].
  rewrite get_col_set_eq, Ec, clean_column_stringified.
  rewrite (set_col_twice _ _ _ _ (get_col_has_col _ _ _ Ec)).
  reflexivity.
Qed.

Lemma run_slots_stringified soa_col total refs : forall l idx st,
  Oi360App.build_configs refs = (l, None) ->
  run_slots soa_col total idx l st = run_slots soa_col total idx refs st.
Proof.
  induction refs as [|[cfg|] rest IH]; intros l idx st H; cbn [Oi360App.build_configs] in H.
  - now injection H as <-.
  - destruct (Oi360App.stringify cfg) as [cfg'|e] eqn:Es; [|discriminate].
    destruct (Oi360App.build_configs rest) as [r e'] eqn:Er.
    injection H as <- ->. cbn [run_slots].
    rewrite (slot_step_stringified _ _ _ _ _ _ Es).
    destruct (slot_step soa_col total idx (Some cfg) st) as [st1 c1].
    now rewrite (IH r (S idx) st1 eq_refl).
  - destruct (Oi360App.build_configs rest) as [r e'] eqn:Er.
    injection H as <- ->. cbn [run_slots slot_step].
    now rewrite (IH r (S idx) st eq_refl).
Qed.

Lemma build_configs_length refs : forall l e,
  Oi360App.build_configs refs = (l, e) -> length l = length refs.
Proof.
  induction refs as [|[cfg|] rest IH]; intros l e H; cbn [Oi360App.build_configs] in H.
  - now injection H as <- _.
  - destruct (Oi360App.stringify cfg) as [cfg'|e0].
    + destruct (Oi360App.build_configs rest) as [r e'] eqn:Er.
      injection H as <- _. cbn [length]. f_equal. eapply IH. reflexivity.
    + now injection H as <- _.
  - destruct (Oi360App.build_configs rest) as [r e'] eqn:Er.
    injection H as <- _. cbn [length]. f_equal. eapply IH. reflexivity.
Qed.

(** X20: the conversion of the reference match columns to text that
    [run_reco] performs before it starts the worker changes nothing the
    worker does: the run on the converted slots has the outcome and the
    events of the run on the slots as the window held them, and once the
    slot loop is reached it leaves the same reference frames. *)
Theorem caller_conversion_is_absorbed env app app' df m date_col amount_col cfgs tr :
  Oi360App.run_reco app = Oi360App.Started app' df m date_col amount_col cfgs ->
  let r := run env df m date_col amount_col cfgs tr in
  let r0 := run env df m date_col amount_col (Oi360App.refs app) tr in
  result_outcome r = result_outcome r0 /\
  result_events r = result_events r0 /\
  (forall out hl, result_outcome r = Completed out hl -> result_refs r = result_refs r0).
Proof.
  unfold Oi360App.run_reco.
  destruct (Oi360App.soa_df app) as [d|]; [|discriminate].
  destruct (Oi360App.soa_match app) as [k|]; [|discriminate].
  destruct (Oi360App.build_configs (Oi360App.refs app)) as [l [e|]] eqn:Eb; [discriminate|].
  intros [= _ <- <- <- <- <-]. cbv zeta.
  unfold run. destruct (prepare env (Oi360App.soa_date_col app) d) as [df0|e].
  2:{ cbn [result_outcome result_events]. repeat split. discriminate. }
  unfold reconcile. destruct (Frame.get_col k df0) as [keys|e].
  2:{ cbn [result_outcome result_events]. repeat split. discriminate. }
  rewrite (total_steps_length l (Oi360App.refs app) df0 (build_configs_length _ _ _ Eb)).
  rewrite (run_slots_stringified _ _ _ _ _ _ Eb).
  repeat split.
Qed.

Lemma caller_conversion_is_absorbed_witness :
  let app := {| Oi360App.soa_df := Some Sample.soa; Oi360App.soa_match := Some "Inv";
                Oi360App.soa_date_col := Some ""; Oi360App.soa_amount_col := None;
                Oi360App.refs := Sample.four_refs |} in
  let r := run Sample.env Sample.soa "Inv" (Some "") None Sample.four_refs [] in
  let r0 := run Sample.env Sample.soa "Inv" (Some "") None (Oi360App.refs app) [] in
  result_outcome r = result_outcome r0 /\
  result_events r = result_events r0 /\
  (forall out hl, result_outcome r = Completed out hl -> result_refs r = result_refs r0).
Proof.
  cbv zeta.
  apply (caller_conversion_is_absorbed Sample.env
           {| Oi360App.soa_df := Some Sample.soa; Oi360App.soa_match := Some "Inv";
              Oi360App.soa_date_col := Some ""; Oi360App.soa_amount_col := None;
              Oi360App.refs := Sample.four_refs |}
           (Oi360App.with_refs Sample.four_refs
              {| Oi360App.soa_df := Some Sample.soa; Oi360App.soa_match := Some "Inv";
                 Oi360App.soa_date_col := Some ""; Oi360App.soa_amount_col := None;
                 Oi360App.refs := Sample.four_refs |})
           Sample.soa "Inv" (Some "") None Sample.four_refs []).
  vm_compute. reflexivity.
Defined.

Lemma build_configs_ok refs :
  snd (Oi360App.build_configs refs) = None <->
  Forall (fun r => match r with
                   | Some cfg => Frame.has_col (match_col cfg) (ref_df cfg) = true
                   | None => True
                   end) refs.
Proof.
  induction refs as [|[cfg|] rest IH]; cbn [Oi360App.build_configs].
  - split; [constructor|reflexivity].
  - unfold Oi360App.stringify.
    destruct (Frame.get_col (match_col cfg) (ref_df cfg)) as [col|e] eqn:Ec; cbn [bind].
    + destruct (Oi360App.build_configs rest) as [r e']. cbn [snd] in *.
      rewrite IH. split.
      * intros H. constructor; [eapply get_col_has_col; exact Ec|exact H].
      * intros H. now inversion H.
    + cbn [snd]. split; [discriminate|]. intros H. inversion H as [|? ? Hh _]; subst.
      destruct (has_col_get_col _ _ Hh) as [c Hc]. congruence.
  - destruct (Oi360App.build_configs rest) as [r e']. cbn [snd] in *.
    rewrite IH. split.
    + intros H. now constructor.
    + intros H. now inversion H.
Qed.

(** X21: [run_reco] starts a worker exactly when a statement is loaded, its
    match column is chosen and every loaded reference frame has its match
    column; without statement or match column it only warns, and a reference
    without its match column makes it raise before any worker exists.  The
    worker gets the statement and the settings the window holds. *)
Theorem run_reco_starts_iff app :
  (Oi360App.run_reco app = Oi360App.MissingInfo <->
   Oi360App.soa_df app = None \/ Oi360App.soa_match app = None) /\
  ((exists app' df m d a cfgs, Oi360App.run_reco app = Oi360App.Started app' df m d a cfgs)
   <->
   Oi360App.soa_df app <> None /\ Oi360App.soa_match app <> None /\
   Forall (fun r => match r with
                    | Some cfg => Frame.has_col (match_col cfg) (ref_df cfg) = true
                    | None => True
                    end) (Oi360App.refs app)) /\
  (forall app' df m d a cfgs,
     Oi360App.run_reco app = Oi360App.Started app' df m d a cfgs ->
     Oi360App.soa_df app = Some df /\ Oi360App.soa_match app = Some m /\
     d = Oi360App.soa_date_col app /\ a = Oi360App.soa_amount_col app /\
     length cfgs = length (Oi360App.refs app) /\ Oi360App.refs app' = cfgs).
Proof.
  unfold Oi360App.run_reco.
  pose proof (build_configs_ok (Oi360App.refs app)) as Hok.
  pose proof (build_configs_length (Oi360App.refs app)) as Hlen.
  destruct (Oi360App.soa_df app) as [df|].
  2:{ split; [split; [now left|reflexivity]|]. split.
      - split; [intros (? & ? & ? & ? & ? & ? & H); discriminate H|].
        intros (H & _). congruence.
      - intros; discriminate. }
  destruct (Oi360App.soa_match app) as [m|].
  2:{ split; [split; [now right|reflexivity]|]. split.
      - split; [intros (? & ? & ? & ? & ? & ? & H); discriminate H|].
        intros (_ & H & _). congruence.
      - intros; discriminate. }
  destruct (Oi360App.build_configs (Oi360App.refs app)) as [l [e|]]; cbn [snd] in Hok.
  - split; [split; [discriminate|intros [H|H]; discriminate H]|]. split.
    + split; [intros (? & ? & ? & ? & ? & ? & H); discriminate H|].
      intros (_ & _ & H). apply Hok in H. discriminate.
    + intros; discriminate.
  - split; [split; [discriminate|intros [H|H]; discriminate H]|]. split.
    + split.
      * intros _. split; [discriminate|]. split; [discriminate|]. now apply Hok.
      * intros _. now repeat eexists.
    + intros app' df' m' d a cfgs [= <- <- <- <- <- <-].
      repeat split. eapply Hlen. reflexivity.
Qed.

End Window.

(** X22: saving a reference for slot [idx] stores it in that slot and leaves
    the other slots, their number and the statement settings as they were;
    it fails exactly when the window has no slot [idx]. *)
Theorem slot_holds_saved_reference idx df m rets app :
  match Oi360App.save_ref_config idx df m rets app with
  | Ok app' =>
      (idx < length (Oi360App.refs app))%nat /\
      Oi360App.refs app' !! idx
      = Some (Some {| ref_df := df; match_col := m; return_cols := rets |}) /\
      (forall j, j <> idx -> Oi360App.refs app' !! j = Oi360App.refs app !! j) /\
      length (Oi360App.refs app') = length (Oi360App.refs app) /\
      Oi360App.soa_df app' = Oi360App.soa_df app /\
      Oi360App.soa_match app' = Oi360App.soa_match app /\
      Oi360App.soa_date_col app' = Oi360App.soa_date_col app /\
      Oi360App.soa_amount_col app' = Oi360App.soa_amount_col app
  | Raise _ => (length (Oi360App.refs app) <= idx)%nat
  end.
Proof.
  unfold Oi360App.save_ref_config.
  destruct (Nat.ltb_spec idx (length (Oi360App.refs app))) as [L|L]; [|exact L].
  cbn [Oi360App.with_refs Oi360App.refs Oi360App.soa_df Oi360App.soa_match
       Oi360App.soa_date_col Oi360App.soa_amount_col].
  split; [exact L|]. split; [now apply list_lookup_insert_eq|].
  split; [intros j Hj; now apply list_lookup_insert_ne|].
  split; [apply length_insert|]. repeat split.
Qed.

(** ** Repeated normalisation *)

Lemma clean_never_longer x :
  (String.length (clean_match_value x) <= String.length x)%nat.
Proof.
  pose proof (clean_length_unquote x). pose proof (unquote_length (Py.strip x)).
  pose proof (strip_length x). lia.
Qed.

Lemma clean_settles_within k : forall x,
  (String.length (clean_match_value x) <= k)%nat ->
  exists n, (n <= k)%nat /\
    clean_match_value (Nat.iter (S n) clean_match_value x)
    = Nat.iter (S n) clean_match_value x.
Proof.
  induction k as [|k IH]; intros x L.
  - exists O. split; [lia|]. cbn [Nat.iter nat_rect].
    destruct (clean_match_value x) eqn:E; [reflexivity|cbn in L; lia].
  - destruct (Py.starts_with_char Py.quote (clean_match_value x)) eqn:Hq.
    + pose proof (clean_shrinks_marked _ (or_introl Hq)) as Hlt.
      destruct (IH (clean_match_value x)) as (n & Hn & E); [lia|].
      exists (S n). split; [lia|].
      rewrite !Nat.iter_succ_r in E. rewrite !Nat.iter_succ_r. exact E.
    + destruct (Py.starts_with_space (clean_match_value x)) eqn:Hs.
      * pose proof (clean_shrinks_marked _ (or_intror Hs)) as Hlt.
        destruct (IH (clean_match_value x)) as (n & Hn & E); [lia|].
        exists (S n). split; [lia|].
        rewrite !Nat.iter_succ_r in E. rewrite !Nat.iter_succ_r. exact E.
      * exists O. split; [lia|]. cbn [Nat.iter nat_rect].
        now apply clean_fixed_when_clear.
Qed.

(** X23: a key is never longer than the value it was computed from, and
    although one pass of the normaliser need not give a stable key,
    repeating it does: after at most as many further passes as the value has
    characters the key no longer changes. *)
Theorem normaliser_settles x :
  (String.length (clean_match_value x) <= String.length x)%nat /\
  exists n, (n <= String.length x)%nat /\
    clean_match_value (Nat.iter (S n) clean_match_value x)
    = Nat.iter (S n) clean_match_value x.
Proof.
  split; [apply clean_never_longer|].
  apply clean_settles_within. apply clean_never_longer.
Qed.

(** ** The values a slot returns *)

Section ReturnedValues.

Import RecoWorker.

Lemma cell_eqb_refl a : Frame.cell_eqb a a = true.
Proof.
  destruct a as [|s|z f]; cbn; [reflexivity|apply String.eqb_refl|].
  rewrite Z.eqb_refl. now destruct f.
Qed.

Lemma matches_head_some k rkeys : forall i j',
  head (Frame.matches_from i k rkeys) = Some j' ->
  exists j, j' = (i + j)%nat /\ (j < length rkeys)%nat /\ nth j rkeys NaN = k.
Proof.
  induction rkeys as [|r rest IH]; intros i j' H; cbn [Frame.matches_from] in H;
    [discriminate|].
  destruct (Frame.cell_eqb k r) eqn:E.
  - cbn in H. injection H as <-. apply cell_eqb_eq in E. subst.
    exists O. cbn. split; [lia|]. split; [lia|reflexivity].
  - destruct (IH _ _ H) as (j & -> & L & N). exists (S j). cbn [length nth].
    split; [lia|]. split; [lia|exact N].
Qed.

Lemma matches_head_none k rkeys : forall i,
  head (Frame.matches_from i k rkeys) = None -> ~ In k rkeys.
Proof.
  induction rkeys as [|r rest IH]; intros i H; cbn [Frame.matches_from] in H; [tauto|].
  destruct (Frame.cell_eqb k r) eqn:E; [discriminate|].
  intros [->|Hin]; [now rewrite cell_eqb_refl in E|]. exact (IH _ H Hin).
Qed.

Lemma take_right_unique rkeys vals : List.NoDup rkeys -> forall lkeys i,
  Frame.take_right (Frame.join_plan_from i lkeys rkeys) vals
  = map (fun k => match head (Frame.matches_from O k rkeys) with
                  | Some j => nth j vals NaN
                  | None => NaN
                  end) lkeys.
Proof.
  intros Hnd. induction lkeys as [|k rest IH]; intros i; [reflexivity|].
  cbn [Frame.join_plan_from map]. unfold Frame.take_right in *. rewrite map_app, IH.
  pose proof (matches_from_unique k rkeys O Hnd) as L.
  destruct (Frame.matches_from O k rkeys) as [|j [|j' ms]]; cbn in *; [reflexivity..|lia].
Qed.

Lemma has_dup_NoDup l : Frame.has_dup l = false -> List.NoDup l.
Proof.
  induction l as [|x rest IH]; cbn [Frame.has_dup]; [constructor|].
  intros H. apply orb_false_iff in H as [H1 H2].
  constructor; [now apply mem_false|now apply IH].
Qed.

Lemma get_col_in_nodup n c (fr : Frame.t) :
  List.NoDup (Frame.columns fr) -> In (n, c) fr -> Frame.get_col n fr = Ok c.
Proof.
  induction fr as [|[n0 c0] rest IH]; intros Hnd Hin; [destruct Hin|].
  unfold Frame.columns in Hnd. cbn [map fst] in Hnd.
  inversion Hnd as [|? ? Hnot Hrest]; subst. cbn [Frame.get_col].
  destruct Hin as [[= -> ->]|Hin]; [now rewrite String.eqb_refl|].
  destruct (String.eqb_spec n0 n) as [->|_].
  - exfalso. apply Hnot. apply in_map_iff. now exists (n, c).
  - now apply IH.
Qed.

Lemma select_in (g : string -> string) r vals rets (fr : Frame.t) : forall sel,
  Frame.select rets fr = Ok sel -> In r rets -> Frame.get_col r fr = Ok vals ->
  In (g r, vals) (combine (map g rets) (map snd sel)).
Proof.
  induction rets as [|a rest IH]; intros sel Hs Hin Hv; [destruct Hin|].
  cbn [Frame.select] in Hs.
  destruct (Frame.get_col a fr) as [col|e] eqn:Ea; cbn [bind] in Hs; [|discriminate].
  destruct (Frame.select rest fr) as [s|e]; cbn [bind] in Hs; [|discriminate].
  injection Hs as <-. cbn [map snd combine].
  destruct Hin as [->|Hin].
  - left. congruence.
  - right. now apply IH.
Qed.

Lemma drop_col_columns_incl n x (fr : Frame.t) :
  In x (Frame.columns (Frame.drop_col n fr)) -> In x (Frame.columns fr).
Proof.
  induction fr as [|[m c] rest IH]; [tauto|]. cbn [Frame.drop_col].
  unfold Frame.columns in *. cbn [map fst]. destruct (String.eqb m n).
  - intros H. now right.
  - cbn [map fst]. intros [H|H]; [now left|right; now apply IH].
Qed.

Lemma renamed_in (s : string -> string) (t : list cell -> list cell) n c (fr : Frame.t) :
  In (n, c) fr -> In (s n, t c) (combine (map s (Frame.columns fr)) (map t (map snd fr))).
Proof.
  induction fr as [|[m d] rest IH]; [tauto|].
  unfold Frame.columns in *. cbn [map fst snd combine].
  intros [[= -> ->]|H]; [now left|right; now apply IH].
Qed.

Lemma no_ref_suffix other n :
  Py.starts_with "Ref" n = false ->
  Py.starts_with "Ref" (Frame.suffix_overlap other "_x" n) = false.
Proof.
  unfold Frame.suffix_overlap. destruct (Frame.mem n other); [|auto].
  destruct n as [|a [|b [|c n]]]; intros H;
    cbv [String.append Py.starts_with] in H |- *.
  - reflexivity.
  - destruct (Ascii.eqb "R" a); reflexivity.
  - destruct (Ascii.eqb "R" a), (Ascii.eqb "e" b); reflexivity.
  - exact H.
Qed.

Lemma merge_left_right_column (left R : Frame.t) lk rk merged lkeys rkeys n c :
  Frame.merge_left left ((rk, rkeys) :: R) lk rk = Ok merged ->
  Frame.get_col lk left = Ok lkeys ->
  (forall x, In x (Frame.columns left) -> Py.starts_with "Ref" x = false) ->
  Py.starts_with "Ref" n = true ->
  In (n, c) R ->
  Frame.get_col n merged = Ok (Frame.take_right (Frame.join_plan lkeys rkeys) c).
Proof.
  intros H Hl Hleft Hn Hin. unfold Frame.merge_left in H. rewrite Hl in H.
  cbn [Frame.get_col bind] in H. rewrite String.eqb_refl in H. cbn [bind] in H.
  cbn [Frame.drop_col] in H. rewrite String.eqb_refl in H.
  set (plan := Frame.join_plan lkeys rkeys) in *.
  set (left' := if String.eqb lk rk && Nat.eqb (Frame.nrows left) O
                then Frame.drop_col lk left else left) in *.
  set (right' := if String.eqb lk rk && negb (Nat.eqb (Frame.nrows left) O)
                 then R else (rk, rkeys) :: R) in *.
  assert (Hl' : forall x, In x (Frame.columns left') -> Py.starts_with "Ref" x = false).
  { intros x Hx. apply Hleft. subst left'. revert Hx.
    destruct (String.eqb lk rk && Nat.eqb (Frame.nrows left) O); intros Hx;
      [now apply drop_col_columns_incl in Hx|exact Hx]. }
  assert (Hr' : In (n, c) right').
  { subst right'. destruct (String.eqb lk rk && negb (Nat.eqb (Frame.nrows left) O));
      [exact Hin|now right]. }
  destruct (Frame.has_dup _ || Frame.has_dup _) eqn:Hd; [discriminate|].
  injection H as <-. apply orb_false_iff in Hd as [_ Hd].
  assert (Hfree : Frame.mem n (Frame.columns left') = false).
  { apply mem_false. intros Hx. apply Hl' in Hx. congruence. }
  rewrite get_col_app_r.
  - apply get_col_in_nodup.
    + unfold Frame.columns at 1. rewrite columns_combine.
      * now apply has_dup_NoDup.
      * unfold Frame.columns. now rewrite !length_map.
    + pose proof (renamed_in (Frame.suffix_overlap (Frame.columns left') "_y")
                    (Frame.take_right plan) n c right' Hr') as Hi.
      unfold Frame.suffix_overlap at 1 in Hi. rewrite Hfree in Hi. exact Hi.
  - unfold Frame.has_col, Frame.columns at 1. rewrite columns_combine.
    + apply mem_false. intros Hx. apply in_map_iff in Hx as (x & E & Hx).
      apply Hl' in Hx. apply (no_ref_suffix (Frame.columns right')) in Hx.
      rewrite E in Hx. congruence.
    + unfold Frame.columns. now rewrite !length_map.
Qed.

Lemma set_col_columns n v (fr : Frame.t) :
  Frame.has_col n fr = true -> Frame.columns (Frame.set_col n v fr) = Frame.columns fr.
Proof. intros H. unfold Frame.set_col. rewrite H. apply replace_col_columns. Qed.

Lemma nth_clean_column j col :
  (j < length col)%nat ->
  nth j (clean_column col) NaN = Str (clean_match_value (Frame.to_str (nth j col NaN))).
Proof.
  intros L. unfold clean_column.
  rewrite (nth_indep _ NaN (Str (clean_match_value (Frame.to_str NaN)))).
  - apply (map_nth (fun c => Str (clean_match_value (Frame.to_str c)))).
  - now rewrite length_map.
Qed.

(** X24: in the first successful join of a statement none of whose labels
    starts with [Ref], against a reference whose normalised keys are all
    different, every returned column [RefN_r] has one value per statement
    row: the value of [r] in the reference row whose normalised key equals
    the row's normalised key, and the missing value where no reference row
    has that key. *)
Theorem returned_values_come_from_matching_row
  soa_col idx cfg df merged lcol rcol r vals :
  joined_frame soa_col idx cfg df = Ok merged ->
  Frame.get_col soa_col df = Ok lcol ->
  Frame.get_col (match_col cfg) (ref_df cfg) = Ok rcol ->
  List.NoDup (clean_column rcol) ->
  (forall x, In x (Frame.columns df) -> Py.starts_with "Ref" x = false) ->
  In r (return_cols cfg) -> r <> match_col cfg ->
  Frame.get_col r (ref_df cfg) = Ok vals ->
  let key c := clean_match_value (Frame.to_str c) in
  exists col,
    Frame.get_col (ref_column idx r) merged = Ok col /\
    length col = length lcol /\
    forall i, (i < length lcol)%nat ->
      (forall j, (j < length rcol)%nat ->
         key (nth j rcol NaN) = key (nth i lcol NaN) ->
         nth i col NaN = nth j vals NaN) /\
      ((forall j, (j < length rcol)%nat ->
          key (nth j rcol NaN) <> key (nth i lcol NaN)) ->
       nth i col NaN = NaN).
Proof.
  intros H Hl Hr Hnd Hleft Hin Hne Hv. cbv zeta.
  unfold joined_frame in H. rewrite Hr, Hl in H. cbn [bind] in H.
  cbn [Frame.select] in H. rewrite get_col_set_eq in H. cbn [bind] in H.
  destruct (Frame.select (return_cols cfg) _) as [sel|e] eqn:Es; cbn [bind] in H;
    [|discriminate].
  unfold Frame.rename_all in H. cbn [map snd combine] in H.
  assert (Hv' : Frame.get_col r (Frame.set_col (match_col cfg) (clean_column rcol)
                                   (ref_df cfg)) = Ok vals).
  { now rewrite get_col_set_ne. }
  pose proof (select_in (ref_column idx) r vals _ _ sel Es Hin Hv') as HinR.
  eapply merge_left_right_column in H;
    [|apply get_col_set_eq| |apply ref_column_prefix|exact HinR].
  2:{ intros x Hx. apply Hleft.
      rewrite set_col_columns in Hx; [exact Hx|]. eapply get_col_has_col. exact Hl. }
  unfold Frame.join_plan in H. rewrite (take_right_unique _ _ Hnd) in H.
  eexists. split; [exact H|]. split.
  - unfold clean_column. now rewrite !length_map.
  - intros i Li.
    assert (Ei : forall d,
              nth i (map (fun k => match head (Frame.matches_from O k (clean_column rcol)) with
                                   | Some j => nth j vals NaN
                                   | None => NaN
                                   end) (clean_column lcol)) d
              = match head (Frame.matches_from O (Str (clean_match_value (Frame.to_str (nth i lcol NaN))))
                              (clean_column rcol)) with
                | Some j => nth j vals NaN
                | None => NaN
                end).
    { intros d. rewrite <- (nth_clean_column i lcol Li).
      rewrite (nth_indep _ d
                 (match head (Frame.matches_from O NaN (clean_column rcol)) with
                  | Some j => nth j vals NaN
                  | None => NaN
                  end)).
      - apply (map_nth (fun k => match head (Frame.matches_from O k (clean_column rcol)) with
                                 | Some j => nth j vals NaN
                                 | None => NaN
                                 end)).
      - unfold clean_column. now rewrite !length_map. }
    rewrite Ei.
    destruct (head (Frame.matches_from O (Str (clean_match_value (Frame.to_str (nth i lcol NaN)))) (clean_column rcol)))
      as [j'|] eqn:Eh.
    + apply matches_head_some in Eh as (j0 & -> & Lj0 & Nj0). cbn [Nat.add].
      assert (Lj0' : (j0 < length rcol)%nat)
        by (unfold clean_column in Lj0; now rewrite length_map in Lj0).
      rewrite (nth_clean_column j0 rcol Lj0') in Nj0. injection Nj0 as Nj0.
      split.
      * intros j Lj Ej. f_equal.
        apply (proj1 (List.NoDup_nth (clean_column rcol) NaN) Hnd);
          [exact Lj0|unfold clean_column; now rewrite length_map|].
        rewrite !nth_clean_column by assumption. f_equal. congruence.
      * intros Hno. exfalso. exact (Hno j0 Lj0' Nj0).
    + apply matches_head_none in Eh. split; [|reflexivity].
      intros j Lj Ej. exfalso. apply Eh.
      rewrite <- Ej. rewrite <- (nth_clean_column j rcol Lj).
      apply nth_In. unfold clean_column. now rewrite length_map.
Qed.

End ReturnedValues.

Lemma returned_values_come_from_matching_row_witness :
  let lcol := [Str "123"; Str "9"] in
  let rcol := [Str "'0123"; Str "555"] in
  let key c := clean_match_value (Frame.to_str c) in
  exists col,
    Frame.get_col (RecoWorker.ref_column 0 "Amt")
      [("Inv", [Str "123"; Str "9"]); ("Ref1_Amt", [Str "20.00"; NaN])] = Ok col /\
    length col = length lcol /\
    forall i, (i < length lcol)%nat ->
      (forall j, (j < length rcol)%nat ->
         key (nth j rcol NaN) = key (nth i lcol NaN) ->
         nth i col NaN = nth j [Str "20.00"; Str "1.00"] NaN) /\
      ((forall j, (j < length rcol)%nat ->
          key (nth j rcol NaN) <> key (nth i lcol NaN)) ->
       nth i col NaN = NaN).
Proof.
  apply (returned_values_come_from_matching_row "Inv" 0 (Sample.ref_with "'0123" "20.00")
           Sample.soa [("Inv", [Str "123"; Str "9"]); ("Ref1_Amt", [Str "20.00"; NaN])]
           [Str "123"; Str "9"] [Str "'0123"; Str "555"] "Amt"
           [Str "20.00"; Str "1.00"]).
  - vm_compute. reflexivity.
  - reflexivity.
  - reflexivity.
  - vm_compute. constructor.
    + intros [H|[]]. discriminate H.
    + constructor; [intros []|constructor].
  - intros x [<-|[]]. reflexivity.
  - now left.
  - discriminate.
  - reflexivity.
Defined.

(** ** Failures around the slot loop *)

Section Failures.

Import RecoWorker.

(** X25: a reference saved without return columns can never be matched:
    its slot always ends in an exception (the [IndexError] of line 444 when
    the join itself works), reports no progress and adds no source label. *)
Theorem slot_without_returns_fails soa_col total idx cfg st :
  return_cols cfg = [] ->
  exists e st' ref',
    slot_body soa_col total idx cfg st = (Some e, st', ref') /\
    match_sources_dict st' = match_sources_dict st /\
    current_step st' = current_step st /\
    progress_of (trace st') = progress_of (trace st) /\
    (forall merged, joined_frame soa_col idx cfg (df_result st) = Ok merged ->
       e = IndexError "list index out of range" /\ df_result st' = merged).
Proof.
  intros Hr. unfold slot_body, joined_frame. rewrite Hr.
  assert (Hp : forall msg, progress_of (trace st ++ [Status msg]) = progress_of (trace st)).
  { intros msg. rewrite progress_of_app. cbn. now rewrite app_nil_r. }
  destruct (Frame.get_col (match_col cfg) (ref_df cfg)) as [rcol|e]; cbn [bind].
  2:{ do 3 eexists. split; [reflexivity|]. cbn [emit match_sources_dict current_step trace].
      repeat split; [apply Hp|discriminate|discriminate]. }
  cbn [emit df_result].
  destruct (Frame.get_col soa_col (df_result st)) as [lcol|e]; cbn [bind].
  2:{ do 3 eexists. split; [reflexivity|]. cbn [match_sources_dict current_step trace].
      repeat split; [apply Hp|discriminate|discriminate]. }
  unfold join_slot. cbn [with_df df_result].
  destruct (Frame.select _ _) as [extract|e]; cbn [bind].
  2:{ do 3 eexists. split; [reflexivity|]. cbn [match_sources_dict current_step trace].
      repeat split; [apply Hp|discriminate|discriminate]. }
  cbn [map].
  destruct (Frame.merge_left _ _ _ _) as [merged|e].
  2:{ do 3 eexists. split; [reflexivity|]. cbn [match_sources_dict current_step trace].
      repeat split; [apply Hp|discriminate|discriminate]. }
  do 3 eexists. split; [reflexivity|].
  cbn [with_df match_sources_dict current_step trace df_result].
  repeat split; [apply Hp|congruence].
Qed.

Lemma slot_without_returns_fails_witness :
  let cfg := {| ref_df := [("Inv", [Str "7"]); ("Amt", [Str "9"])];
                match_col := "Inv"; return_cols := [] |} in
  let st := init_state Sample.twin_soa [Str "7"; Str "7"] [] in
  exists e st' ref',
    slot_body "Inv" 8 0 cfg st = (Some e, st', ref') /\
    match_sources_dict st' = match_sources_dict st /\
    current_step st' = current_step st /\
    progress_of (trace st') = progress_of (trace st) /\
    (forall merged, joined_frame "Inv" 0 cfg (df_result st) = Ok merged ->
       e = IndexError "list index out of range" /\ df_result st' = merged).
Proof.
  cbv zeta.
  apply (slot_without_returns_fails "Inv" 8 0
           {| ref_df := [("Inv", [Str "7"]); ("Amt", [Str "9"])];
              match_col := "Inv"; return_cols := [] |}
           (init_state Sample.twin_soa [Str "7"; Str "7"] [])).
  reflexivity.
Defined.

(** X26: the state of the workbook writer decides nothing but the amount
    comparison: with any other writer state the run ends the same way,
    leaves the same reference frames and hands over a table that agrees in
    every column except "Amount Difference"; when the writer fails, no cell
    is highlighted. *)
Theorem writer_decides_amount_column_only
  env w soa_df soa_match date_col amount_col configs tr :
  let r := run env soa_df soa_match date_col amount_col configs tr in
  let r' := run (with_writer w env) soa_df soa_match date_col amount_col configs tr in
  result_refs r' = result_refs r /\
  match result_outcome r, result_outcome r' with
  | Completed out hl, Completed out' hl' =>
      (forall n, n <> "Amount Difference" -> Frame.get_col n out' = Frame.get_col n out) /\
      (w <> WriterOk -> hl' = [])
  | Aborted, Aborted => True
  | Crashed e, Crashed e' => e = e'
  | _, _ => False
  end.
Proof.
  cbv zeta. unfold run.
  change (prepare (with_writer w env) date_col soa_df) with (prepare env date_col soa_df).
  destruct (prepare env date_col soa_df) as [df|e]; [|now split].
  unfold reconcile. destruct (Frame.get_col soa_match df) as [keys|e]; [|now split].
  destruct (run_slots _ _ _ _ _) as [st refs].
  unfold finish. destruct (Frame.get_col soa_match (df_result st)) as [keysN|e]; [|now split].
  cbv zeta.
  match goal with
  | |- context [excel_stage env amount_col ?d] =>
      pose proof (fun n => excel_stage_keeps n env amount_col d) as K;
      pose proof (fun n => excel_stage_keeps n (with_writer w env) amount_col d) as K';
      assert (Hhl : w <> WriterOk ->
                    snd (fst (excel_stage (with_writer w env) amount_col d)) = []);
      [|destruct (excel_stage env amount_col d) as [[out hl] evs];
        destruct (excel_stage (with_writer w env) amount_col d) as [[out' hl'] evs']]
  end.
  - intros Hw. unfold excel_stage. cbn [excel with_writer].
    destruct w as [|e|e]; [congruence|reflexivity|].
    now destruct (amount_stage amount_col _) as [[o m] ev].
  - cbn [fst snd result_refs result_outcome] in *. split; [reflexivity|].
    split; [|exact Hhl]. intros n Hn. now rewrite K, K'.
Qed.

End Failures.

(** ** Loading a statement *)

Lemma prepare_keeps_missing env date_col soa_df soa_match df :
  Frame.has_col soa_match soa_df = false ->
  soa_match <> "Age (Days)" -> soa_match <> "Age Bucket" ->
  RecoWorker.prepare env date_col soa_df = Ok df ->
  Frame.get_col soa_match df = Raise (KeyError soa_match).
Proof.
  intros Hno N1 N2 Ep. unfold RecoWorker.prepare in Ep.
  destruct (negb _ && _).
  - rewrite (age_stage_other_col _ _ _ _ _ Ep N1 N2). now apply no_col_get_col.
  - injection Ep as <-. now apply no_col_get_col.
Qed.

(** X27: loading a statement file replaces the frame the window holds at
    once, but the match, date and amount selection only when the column
    dialog is confirmed.  So after a new statement is loaded and the dialog
    closed, [run_reco] starts the worker on the new frame with the selection
    made for the old one; if the new frame has no column with the old match
    label, that run cannot complete.  A file that cannot be read leaves the
    window as it was. *)
Theorem unconfirmed_statement_keeps_old_selection app df m :
  Oi360App.soa_match app = Some m ->
  Forall (fun r => match r with
                   | Some cfg => Frame.has_col (match_col cfg) (ref_df cfg) = true
                   | None => True
                   end) (Oi360App.refs app) ->
  (forall e, Oi360App.load_soa (Some (Raise e)) None app = (app, Some e)) /\
  exists app' cfgs,
    Oi360App.run_reco (fst (Oi360App.load_soa (Some (Ok df)) None app))
    = Oi360App.Started app' df m (Oi360App.soa_date_col app)
        (Oi360App.soa_amount_col app) cfgs /\
    (Frame.has_col m df = false -> m <> "Age (Days)" -> m <> "Age Bucket" ->
     forall env tr out hl,
       RecoWorker.result_outcome
         (RecoWorker.run env df m (Oi360App.soa_date_col app)
            (Oi360App.soa_amount_col app) cfgs tr)
       <> RecoWorker.Completed out hl).
Proof.
  intros Hm Hrefs. split; [reflexivity|].
  cbn [Oi360App.load_soa fst]. unfold Oi360App.run_reco.
  cbn [Oi360App.set_soa_df Oi360App.soa_df Oi360App.soa_match Oi360App.refs
       Oi360App.soa_date_col Oi360App.soa_amount_col].
  rewrite Hm. apply build_configs_ok in Hrefs.
  destruct (Oi360App.build_configs (Oi360App.refs app)) as [l [e|]]; [discriminate|].
  do 2 eexists. split; [reflexivity|].
  intros Hno N1 N2 env tr out hl. unfold RecoWorker.run.
  destruct (RecoWorker.prepare env (Oi360App.soa_date_col app) df) as [df0|e] eqn:Ep;
    [|discriminate].
  unfold RecoWorker.reconcile.
  rewrite (prepare_keeps_missing _ _ _ _ _ Hno N1 N2 Ep). discriminate.
Qed.

Lemma unconfirmed_statement_keeps_old_selection_witness :
  let app := Oi360App.save_soa_config "Inv" "" None
               (Oi360App.set_soa_df Sample.soa Oi360App.init) in
  (forall e, Oi360App.load_soa (Some (Raise e)) None app = (app, Some e)) /\
  exists app' cfgs,
    Oi360App.run_reco (fst (Oi360App.load_soa (Some (Ok [("Invoice", [Str "1"])])) None app))
    = Oi360App.Started app' [("Invoice", [Str "1"])] "Inv" (Oi360App.soa_date_col app)
        (Oi360App.soa_amount_col app) cfgs /\
    (Frame.has_col "Inv" [("Invoice", [Str "1"])] = false ->
     "Inv" <> "Age (Days)" -> "Inv" <> "Age Bucket" ->
     forall env tr out hl,
       RecoWorker.result_outcome
         (RecoWorker.run env [("Invoice", [Str "1"])] "Inv" (Oi360App.soa_date_col app)
            (Oi360App.soa_amount_col app) cfgs tr)
       <> RecoWorker.Completed out hl).
Proof.
  cbv zeta.
  apply (unconfirmed_statement_keeps_old_selection
           (Oi360App.save_soa_config "Inv" "" None
              (Oi360App.set_soa_df Sample.soa Oi360App.init))
           [("Invoice", [Str "1"])] "Inv").
  - reflexivity.
  - repeat constructor.
Defined.

(** ** Running the pipeline again *)

Section Rerun.

Import RecoWorker.

Lemma age_days_same_day env1 env2 c :
  today env1 / day = today env2 / day ->
  to_datetime env1 c = to_datetime env2 c ->
  (forall t, to_datetime env1 c = Some t -> t mod day = 0) ->
  age_days env1 c = age_days env2 c.
Proof.
  intros Hday Hparse Hmid. unfold age_days. rewrite <- Hparse.
  destruct (to_datetime env1 c) as [t|]; cbn [option_map]; [|reflexivity].
  specialize (Hmid t eq_refl). f_equal.
  assert (E : forall a, (a - t) / day = a / day - t / day).
  { intros a. rewrite (Z.div_mod t day) at 1 by discriminate. rewrite Hmid.
    replace (a - (day * (t / day) + 0)) with (a + (- (t / day)) * day) by lia.
    rewrite Z.div_add by discriminate. lia. }
  now rewrite !E, Hday.
Qed.

Lemma prepare_same_day env1 env2 date_col (soa_df : Frame.t) :
  today env1 / day = today env2 / day ->
  (forall col, Frame.get_col (default "" date_col) soa_df = Ok col ->
     date_fault env1 col = date_fault env2 col /\
     forall c, In c col ->
       to_datetime env1 c = to_datetime env2 c /\
       forall t, to_datetime env1 c = Some t -> t mod day = 0) ->
  prepare env1 date_col soa_df = prepare env2 date_col soa_df.
Proof.
  intros Hday Hcol. unfold prepare. destruct (negb _ && _); [|reflexivity].
  unfold age_stage.
  destruct (Frame.get_col (default "" date_col) soa_df) as [original|e]; [|reflexivity].
  destruct (Hcol original eq_refl) as [Hfault Hcells]. cbn [bind]. rewrite Hfault.
  assert (E : map (age_days env1) original = map (age_days env2) original).
  { apply map_ext_in. intros c Hin. destruct (Hcells c Hin) as [Hp Hm].
    now apply age_days_same_day. }
  now rewrite E.
Qed.

Lemma finish_same_writer env1 env2 soa_match amount_col st refs :
  excel env1 = excel env2 ->
  finish env1 soa_match amount_col st refs = finish env2 soa_match amount_col st refs.
Proof. intros H. unfold finish, excel_stage. now rewrite H. Qed.

Lemma run_same_day env1 env2 soa_df soa_match date_col amount_col configs tr :
  today env1 / day = today env2 / day ->
  excel env1 = excel env2 ->
  (forall col, Frame.get_col (default "" date_col) soa_df = Ok col ->
     date_fault env1 col = date_fault env2 col /\
     forall c, In c col ->
       to_datetime env1 c = to_datetime env2 c /\
       forall t, to_datetime env1 c = Some t -> t mod day = 0) ->
  run env1 soa_df soa_match date_col amount_col configs tr
  = run env2 soa_df soa_match date_col amount_col configs tr.
Proof.
  intros Hday Hw Hcol. unfold run. rewrite (prepare_same_day env1 env2 _ _ Hday Hcol).
  destruct (prepare env2 date_col soa_df) as [df|e]; [|reflexivity].
  unfold reconcile. destruct (Frame.get_col soa_match df); [|reflexivity].
  destruct (run_slots _ _ _ _ _) as [st refs]. now apply finish_same_writer.
Qed.

Lemma clean_column_stable rcol :
  forallb stable_key rcol = true -> clean_column (clean_column rcol) = clean_column rcol.
Proof.
  intros H. unfold clean_column. rewrite map_map. apply map_ext_in. intros c Hin.
  cbn [Frame.to_str]. f_equal.
  apply (proj1 (forallb_forall _ _) H) in Hin. unfold stable_key in Hin.
  now apply String.eqb_eq in Hin.
Qed.

Lemma slot_step_cleaned soa_col total idx cfg st :
  stable_ref (Some cfg) = true ->
  slot_step soa_col total idx (Some (cleaned_ref cfg)) st
  = slot_step soa_col total idx (Some cfg) st.
Proof.
  cbn [stable_ref]. unfold cleaned_ref.
  destruct (Frame.get_col (match_col cfg) (ref_df cfg)) as [rcol|e] eqn:Ec; intros Hs.
  - cbn [slot_step]. unfold slot_body. cbn [with_ref ref_df match_col return_cols].
    rewrite get_col_set_eq, Ec, (clean_column_stable _ Hs).
    rewrite (set_col_twice _ _ _ _ (get_col_has_col _ _ _ Ec)). reflexivity.
  - cbn [slot_step]. unfold slot_body. cbn [with_ref ref_df match_col return_cols].
    rewrite Ec. reflexivity.
Qed.

Lemma run_slots_cleaned soa_col total configs : forall idx st,
  forallb stable_ref configs = true ->
  run_slots soa_col total idx (map (option_map cleaned_ref) configs) st
  = run_slots soa_col total idx configs st.
Proof.
  induction configs as [|[cfg|] rest IH]; intros idx st H; cbn [forallb] in H;
    [reflexivity| |].
  - apply andb_true_iff in H as [Hc Hrest]. cbn [map option_map run_slots].
    rewrite (slot_step_cleaned _ _ _ _ _ Hc).
    destruct (slot_step soa_col total idx (Some cfg) st) as [st1 c1].
    now rewrite (IH _ _ Hrest).
  - cbn [map option_map run_slots slot_step]. now rewrite (IH _ _ H).
Qed.

Lemma finish_refs env soa_match amount_col st refs :
  result_refs (finish env soa_match amount_col st refs) = refs.
Proof.
  unfold finish. destruct (Frame.get_col soa_match (df_result st)); [|reflexivity].
  cbv zeta. now destruct (excel_stage env amount_col _) as [[o m] evs].
Qed.

Lemma run_on_left_frames env soa_df soa_match date_col amount_col configs tr :
  forallb stable_ref configs = true ->
  run env soa_df soa_match date_col amount_col
      (result_refs (run env soa_df soa_match date_col amount_col configs tr)) tr
  = run env soa_df soa_match date_col amount_col configs tr.
Proof.
  intros Hs. unfold run.
  destruct (prepare env date_col soa_df) as [df|e]; [|reflexivity].
  unfold reconcile. destruct (Frame.get_col soa_match df) as [keys|e]; [|reflexivity].
  pose proof (run_slots_refs soa_match (total_steps configs df) configs O
                (init_state df keys tr)) as Hr.
  destruct (run_slots soa_match (total_steps configs df) O configs (init_state df keys tr))
    as [st refs] eqn:Erun.
  cbn [snd] in Hr. rewrite finish_refs. subst refs.
  rewrite (total_steps_length (map (option_map cleaned_ref) configs) configs df)
    by apply length_map.
  rewrite (run_slots_cleaned _ _ _ _ _ Hs), Erun. reflexivity.
Qed.

(** C9, as the code has it: a run is reproduced by a run at another time of
    the same day when the two clocks read the same date, the workbook writer
    behaves the same, and every cell of the date column is read the same by
    the date parser and as a date without a time of day: the outcome (merged
    table and highlights), the reference frames left behind and the events
    emitted are the same, whatever had been emitted before.  A run on the
    reference frames the first run left behind (it rewrites their match
    columns in place) reproduces it as well when the normaliser leaves the
    normalised reference keys fixed. *)
Theorem rerun_gives_same_table
  env1 env2 soa_df soa_match date_col amount_col configs tr1 tr2 :
  today env1 / day = today env2 / day ->
  excel env1 = excel env2 ->
  (forall col, Frame.get_col (default "" date_col) soa_df = Ok col ->
     date_fault env1 col = date_fault env2 col /\
     forall c, In c col ->
       to_datetime env1 c = to_datetime env2 c /\
       forall t, to_datetime env1 c = Some t -> t mod day = 0) ->
  let r1 := run env1 soa_df soa_match date_col amount_col configs tr1 in
  let r2 := run env2 soa_df soa_match date_col amount_col configs tr2 in
  (result_outcome r1 = result_outcome r2 /\
   result_refs r1 = result_refs r2 /\
   exists evs, result_events r1 = tr1 ++ evs /\ result_events r2 = tr2 ++ evs) /\
  (forallb stable_ref configs = true ->
   let r3 := run env2 soa_df soa_match date_col amount_col (result_refs r1) tr2 in
   result_outcome r3 = result_outcome r1 /\
   result_refs r3 = result_refs r1 /\
   exists evs, result_events r1 = tr1 ++ evs /\ result_events r3 = tr2 ++ evs).
Proof.
  intros Hday Hw Hcol. cbv zeta.
  assert (Hrefs : result_refs (run env1 soa_df soa_match date_col amount_col configs tr1)
                  = result_refs (run env2 soa_df soa_match date_col amount_col configs tr2)).
  { rewrite (run_prepend tr1), (run_prepend tr2).
    now rewrite (run_same_day env1 env2 _ _ _ _ _ [] Hday Hw Hcol). }
  split.
  - split; [|split; [exact Hrefs|]].
    + rewrite (run_prepend tr1), (run_prepend tr2).
      now rewrite (run_same_day env1 env2 _ _ _ _ _ [] Hday Hw Hcol).
    + rewrite (run_prepend tr1), (run_prepend tr2).
      rewrite (run_same_day env1 env2 _ _ _ _ _ [] Hday Hw Hcol).
      eexists. split; reflexivity.
  - intros Hs. rewrite Hrefs, (run_on_left_frames env2 _ _ _ _ _ tr2 Hs).
    rewrite (run_prepend tr1), (run_prepend tr2).
    rewrite (run_same_day env1 env2 _ _ _ _ _ [] Hday Hw Hcol).
    split; [reflexivity|]. split; [reflexivity|]. eexists. split; reflexivity.
Qed.

End Rerun.

Lemma rerun_gives_same_table_witness :
  let env1 := IsoDate.env_at 2024 6 30 (9 * 3600 * 1000000000) in
  let env2 := IsoDate.env_at 2024 6 30 (17 * 3600 * 1000000000) in
  let soa := [("Inv", [Str "123"; Str "9"]); ("Date", [Str "2024-06-16"; Str "n/a"])] in
  let r1 := RecoWorker.run env1 soa "Inv" (Some "Date") None Sample.four_refs [] in
  let r2 := RecoWorker.run env2 soa "Inv" (Some "Date") None Sample.four_refs [] in
  (RecoWorker.result_outcome r1 = RecoWorker.result_outcome r2 /\
   RecoWorker.result_refs r1 = RecoWorker.result_refs r2 /\
   exists evs, RecoWorker.result_events r1 = [] ++ evs /\
               RecoWorker.result_events r2 = [] ++ evs) /\
  (forallb stable_ref Sample.four_refs = true ->
   let r3 := RecoWorker.run env2 soa "Inv" (Some "Date") None
               (RecoWorker.result_refs r1) [] in
   RecoWorker.result_outcome r3 = RecoWorker.result_outcome r1 /\
   RecoWorker.result_refs r3 = RecoWorker.result_refs r1 /\
   exists evs, RecoWorker.result_events r1 = [] ++ evs /\
               RecoWorker.result_events r3 = [] ++ evs).
Proof.
  cbv zeta.
  apply (rerun_gives_same_table
           (IsoDate.env_at 2024 6 30 (9 * 3600 * 1000000000))
           (IsoDate.env_at 2024 6 30 (17 * 3600 * 1000000000))
           [("Inv", [Str "123"; Str "9"]); ("Date", [Str "2024-06-16"; Str "n/a"])]
           "Inv" (Some "Date") None Sample.four_refs [] []).
  - vm_compute. reflexivity.
  - reflexivity.
  - intros col Hc. injection Hc as <-. split; [reflexivity|].
    intros c [<-|[<-|[]]]; (split; [reflexivity|]); intros t Ht;
      vm_compute in Ht; [injection Ht as <-; reflexivity|discriminate Ht].
Defined.

(** C9 as stated fails in two ways.  The as-of date does not fix the ages:
    at 12:00 and at 14:00 of 2024-06-30 a document dated 2024-06-16 13:00 is
    13 and 14 days old.  And a second run on the reference frames the first
    run left behind is a run on other frames: the first run rewrites the
    reference key [''7] to ['7], which matches the statement key [7] only
    when the second run has normalised it once more. *)
Theorem rerun_can_differ :
  (let soa := [("Inv", [Str "1"]); ("Date", [Str "2024-06-16 13:00"])] in
   let at_noon := timed_env (12 * 3600 * 1000000000) in
   let at_two := timed_env (14 * 3600 * 1000000000) in
   today at_noon / day = today at_two / day /\
   exists out1 hl1 out2 hl2,
     RecoWorker.result_outcome
       (RecoWorker.run at_noon soa "Inv" (Some "Date") None [None; None; None; None] [])
     = RecoWorker.Completed out1 hl1 /\
     RecoWorker.result_outcome
       (RecoWorker.run at_two soa "Inv" (Some "Date") None [None; None; None; None] [])
     = RecoWorker.Completed out2 hl2 /\
     Frame.get_col "Age (Days)" out1 = Ok [Num 13 false] /\
     Frame.get_col "Age (Days)" out2 = Ok [Num 14 false]) /\
  (let soa := [("Inv", [Str "7"])] in
   let ref := {| ref_df := [("Inv", [Str "''7"]); ("Amt", [Str "9"])];
                 match_col := "Inv"; return_cols := ["Amt"] |} in
   let r1 := RecoWorker.run Sample.env soa "Inv" None None [Some ref] [] in
   let r2 := RecoWorker.run Sample.env soa "Inv" None None (RecoWorker.result_refs r1) [] in
   exists out1 hl1 out2 hl2,
     RecoWorker.result_outcome r1 = RecoWorker.Completed out1 hl1 /\
     RecoWorker.result_outcome r2 = RecoWorker.Completed out2 hl2 /\
     Frame.get_col "Ref1_Amt" out1 = Ok [NaN] /\
     Frame.get_col "Match Source" out1 = Ok [Str ""] /\
     Frame.get_col "Ref1_Amt" out2 = Ok [Str "9"] /\
     Frame.get_col "Match Source" out2 = Ok [Str "Ref1"]).
Proof.
  split.
  - cbv zeta. split; [vm_compute; reflexivity|].
    do 4 eexists. split; [vm_compute; reflexivity|].
    split; [vm_compute; reflexivity|]. split; vm_compute; reflexivity.
  - cbv zeta. do 4 eexists. split; [vm_compute; reflexivity|].
    split; [vm_compute; reflexivity|].
    repeat split; vm_compute; reflexivity.
Qed.

(** ** The match column through the slot loop *)

Section KeyLabel.

Import RecoWorker.

Lemma count_drop_col n (df : Frame.t) :
  count_occ string_dec (Frame.columns df) n = 1%nat ->
  count_occ string_dec (Frame.columns (Frame.drop_col n df)) n = O.
Proof.
  induction df as [|[m c] rest IH]; [discriminate|].
  unfold Frame.columns in *. cbn [map fst Frame.drop_col count_occ].
  destruct (string_dec m n) as [->|Hne].
  - rewrite String.eqb_refl. intros H. lia.
  - destruct (String.eqb_spec m n); [contradiction|]. cbn [map fst count_occ].
    destruct (string_dec m n); [contradiction|]. exact IH.
Qed.

Lemma count_one_In n (l : list string) :
  count_occ string_dec l n = 1%nat -> In n l.
Proof. intros H. apply (count_occ_In string_dec). lia. Qed.

Lemma renamed_count_one other sfx names soa_col :
  List.NoDup (map (Frame.suffix_overlap other sfx) names) ->
  In soa_col names -> Frame.mem soa_col other = false ->
  count_occ string_dec (map (Frame.suffix_overlap other sfx) names) soa_col = 1%nat.
Proof.
  intros Hnd Hin Hfree. apply (proj1 (NoDup_count_occ' string_dec _) Hnd).
  apply in_map_iff. exists soa_col. split; [|exact Hin].
  unfold Frame.suffix_overlap. now rewrite Hfree.
Qed.

Lemma renamed_count_zero other sfx names soa_col :
  (forall n, In n names ->
     n <> soa_col /\ (Frame.mem n other = true -> n +:+ sfx <> soa_col)) ->
  count_occ string_dec (map (Frame.suffix_overlap other sfx) names) soa_col = O.
Proof.
  intros H. apply count_occ_not_In. intros Hin.
  apply in_map_iff in Hin as (n & E & Hn). destruct (H n Hn) as [H1 H2].
  unfold Frame.suffix_overlap in E. destruct (Frame.mem n other); [now apply H2|contradiction].
Qed.

(** A successful merge keeps exactly one column with the match label. *)
Lemma merge_left_once soa_col m (refs : list string) (left right merged : Frame.t) :
  Frame.mem soa_col refs = false ->
  Frame.mem soa_col (map (fun r => r +:+ "_x") refs) = false ->
  Frame.mem soa_col (map (fun r => r +:+ "_y") refs) = false ->
  soa_col <> m +:+ "_y" ->
  Frame.columns right = m :: refs ->
  count_occ string_dec (Frame.columns left) soa_col = 1%nat ->
  Frame.merge_left left right soa_col m = Ok merged ->
  count_occ string_dec (Frame.columns merged) soa_col = 1%nat.
Proof.
  intros Hk Hx Hy Hm Hcols Hone Hmerge.
  pose proof (proj1 (mem_false _ _) Hk) as Hk'.
  pose proof (proj1 (mem_false _ _) Hx) as Hx'.
  pose proof (proj1 (mem_false _ _) Hy) as Hy'.
  assert (Hrefs : forall n, In n refs -> n <> soa_col /\ n +:+ "_y" <> soa_col
                                         /\ n +:+ "_x" <> soa_col).
  { intros n Hn. split; [|split]; intros E.
    - apply Hk'. now rewrite <- E.
    - apply Hy'. rewrite <- E. apply in_map_iff. now exists n.
    - apply Hx'. rewrite <- E. apply in_map_iff. now exists n. }
  unfold Frame.merge_left in Hmerge.
  destruct (Frame.get_col soa_col left) as [lkeys|]; cbn [bind] in Hmerge; [|discriminate].
  destruct (Frame.get_col m right) as [rkeys|]; cbn [bind] in Hmerge; [|discriminate].
  set (left' := if String.eqb soa_col m && Nat.eqb (Frame.nrows left) O
                then Frame.drop_col soa_col left else left) in *.
  set (right' := if String.eqb soa_col m && negb (Nat.eqb (Frame.nrows left) O)
                 then Frame.drop_col m right else right) in *.
  destruct (Frame.has_dup _ || Frame.has_dup _) eqn:Hd; [discriminate|].
  injection Hmerge as <-. apply orb_false_iff in Hd as [Hdl Hdr].
  apply has_dup_NoDup in Hdl, Hdr.
  unfold Frame.columns at 1. rewrite map_app.
  rewrite !columns_combine by (unfold Frame.columns; now rewrite !length_map).
  rewrite count_occ_app.
  subst left' right'.
  destruct (String.eqb_spec soa_col m) as [<-|Hne];
    [destruct (Nat.eqb (Frame.nrows left) O)|]; cbn [andb negb] in *.
  - (* equal labels, statement without rows *)
    pose proof (count_drop_col _ _ Hone) as Hzero.
    assert (Hnot : ~ In soa_col (Frame.columns (Frame.drop_col soa_col left))).
    { intros Hin. apply (count_occ_In string_dec) in Hin. lia. }
    rewrite renamed_count_zero, renamed_count_one; [reflexivity|exact Hdr| | |].
    + rewrite Hcols. now left.
    + now apply mem_false.
    + intros n Hn. split; [intros ->; contradiction|].
      intros Hmem. apply mem_In in Hmem. rewrite Hcols in Hmem.
      destruct Hmem as [->|Hmem]; [contradiction|]. apply (Hrefs n Hmem).
  - (* equal labels, statement with rows *)
    rewrite (drop_col_head _ _ _ Hcols) in *.
    rewrite renamed_count_one, renamed_count_zero; [reflexivity| |exact Hdl| |exact Hk].
    + intros n Hn. split; [apply (Hrefs n Hn)|]. intros _. apply (Hrefs n Hn).
    + now apply count_one_In.
  - (* different labels *)
    rewrite renamed_count_one, renamed_count_zero; [reflexivity| |exact Hdl| |].
    + intros n Hn. rewrite Hcols in Hn. destruct Hn as [<-|Hn].
      * split; [congruence|]. intros _. congruence.
      * split; [apply (Hrefs n Hn)|]. intros _. apply (Hrefs n Hn).
    + now apply count_one_In.
    + rewrite Hcols. cbn [Frame.mem existsb].
      apply String.eqb_neq in Hne. now rewrite Hne.
Qed.

Lemma insert_last_once soa_col name v (df df' : Frame.t) :
  Frame.insert_col (length df) name v df = Ok df' ->
  count_occ string_dec (Frame.columns df) soa_col = 1%nat ->
  count_occ string_dec (Frame.columns df') soa_col = 1%nat.
Proof.
  unfold Frame.insert_col. destruct (Frame.has_col name df) eqn:Hh; [discriminate|].
  intros [= <-] Hone. rewrite firstn_all, skipn_all. cbn [app].
  unfold Frame.columns in *. rewrite map_app, count_occ_app, Hone. cbn [map fst count_occ].
  destruct (string_dec name soa_col) as [->|_]; [|reflexivity].
  exfalso. apply count_one_In in Hone. apply mem_In in Hone.
  unfold Frame.has_col, Frame.columns in Hh. congruence.
Qed.

Lemma join_slot_once soa_col total idx ref m rets st :
  Frame.mem soa_col (map (ref_column idx) rets) = false ->
  Frame.mem soa_col (map (fun r => r +:+ "_x") (map (ref_column idx) rets)) = false ->
  Frame.mem soa_col (map (fun r => r +:+ "_y") (map (ref_column idx) rets)) = false ->
  soa_col <> m +:+ "_y" ->
  count_occ string_dec (Frame.columns (df_result st)) soa_col = 1%nat ->
  count_occ string_dec
    (Frame.columns (df_result (snd (join_slot soa_col total idx ref m rets st)))) soa_col
  = 1%nat.
Proof.
  intros Hk Hx Hy Hm Hone. unfold join_slot.
  destruct (Frame.select (m :: rets) ref) as [extract|e] eqn:Hs; [|exact Hone].
  destruct (Frame.merge_left _ _ soa_col m) as [merged|e] eqn:Hmg; [|exact Hone].
  assert (Hmk : count_occ string_dec (Frame.columns merged) soa_col = 1%nat).
  { eapply merge_left_once; [exact Hk|exact Hx|exact Hy|exact Hm| |exact Hone|exact Hmg].
    apply rename_all_columns.
    pose proof (select_columns _ _ _ Hs) as Hc. unfold Frame.columns in Hc.
    apply (f_equal (@length string)) in Hc. rewrite length_map in Hc.
    cbn [length] in *. rewrite length_map. lia. }
  destruct rets as [|r0 rest]; [exact Hmk|].
  destruct (Frame.get_col (ref_column idx r0) merged) as [col|e]; [|exact Hmk].
  pose proof (mask_loop_df (ref_label idx) soa_col total (map Frame.notna col) O
                (with_df merged st)) as Hdf.
  destruct (mask_loop _ soa_col total O _ (with_df merged st)) as [[e|] st1];
    cbn [snd with_df df_result] in *; [now rewrite Hdf|].
  destruct (Nat.ltb O idx); [|cbn [snd]; now rewrite Hdf].
  destruct (Frame.insert_col _ _ _ _) as [df|e] eqn:Hi; cbn [snd with_df df_result].
  - eapply insert_last_once; [exact Hi|]. now rewrite Hdf.
  - now rewrite Hdf.
Qed.

Lemma slot_step_once soa_col total idx config st :
  slot_clear soa_col idx config = true ->
  count_occ string_dec (Frame.columns (df_result st)) soa_col = 1%nat ->
  count_occ string_dec
    (Frame.columns (df_result (fst (slot_step soa_col total idx config st)))) soa_col
  = 1%nat.
Proof.
  intros Hc Hone. destruct config as [cfg|]; [|exact Hone].
  cbn [slot_clear] in Hc. cbv zeta in Hc.
  apply andb_true_iff in Hc as [Hc Hm]. apply andb_true_iff in Hc as [Hc Hy].
  apply andb_true_iff in Hc as [Hk Hx].
  apply negb_true_iff in Hk, Hx, Hy, Hm. apply String.eqb_neq in Hm.
  assert (Hb : count_occ string_dec
                 (Frame.columns (df_result (snd (fst (slot_body soa_col total idx cfg st)))))
                 soa_col = 1%nat).
  { unfold slot_body.
    destruct (Frame.get_col (match_col cfg) (ref_df cfg)) as [rcol|e]; [|exact Hone].
    cbn [emit df_result].
    destruct (Frame.get_col soa_col (df_result st)) as [lcol|e] eqn:Hl; [|exact Hone].
    cbn [fst]. apply join_slot_once; [exact Hk|exact Hx|exact Hy|exact Hm|].
    cbn [with_df df_result].
    rewrite set_col_columns; [exact Hone|]. eapply get_col_has_col. exact Hl. }
  cbn [slot_step].
  destruct (slot_body soa_col total idx cfg st) as [[[e|] st1] ref]; exact Hb.
Qed.

Lemma run_slots_once soa_col total configs : forall idx st,
  label_clear soa_col idx configs = true ->
  count_occ string_dec (Frame.columns (df_result st)) soa_col = 1%nat ->
  count_occ string_dec
    (Frame.columns (df_result (fst (run_slots soa_col total idx configs st)))) soa_col
  = 1%nat.
Proof.
  induction configs as [|config rest IH]; intros idx st Hc Hone; [exact Hone|].
  cbn [run_slots]. cbn [label_clear] in Hc. apply andb_true_iff in Hc as [Hhere Hrest].
  pose proof (slot_step_once soa_col total idx config st Hhere Hone) as H1.
  destruct (slot_step soa_col total idx config st) as [st1 config']. cbn [fst] in H1.
  pose proof (IH (S idx) st1 Hrest H1) as H2.
  now destruct (run_slots soa_col total (S idx) rest st1).
Qed.

Lemma label_clear_app soa_col pre : forall idx post,
  label_clear soa_col idx (pre ++ post)
  = label_clear soa_col idx pre && label_clear soa_col (idx + length pre) post.
Proof.
  induction pre as [|c pre IH]; intros idx post; cbn [app label_clear length].
  - now rewrite Nat.add_0_r.
  - rewrite IH, andb_assoc. do 2 f_equal. lia.
Qed.

End KeyLabel.

(** C6, as the code has it: when the body of slot [idx] raises, the exception
    is logged and reported, the loop goes on with the remaining slots from
    the state the slot left, and the run ends through the normal final stage:
    it is never aborted.  It completes and emits its merged table on a
    statement that has rows, provided the match label is not the new name
    [RefN_r] that a loaded slot gives one of its return columns (a label that
    does not begin with [Ref] never is); and on every statement, with or
    without rows, that has the match label once, provided the label is none of
    the names a join can give a reference column ([RefN_r], [RefN_r_x],
    [RefN_r_y], or [m_y] for a slot's match label [m]).  When the failed slot
    left the table, the dictionary and the step counter as they were, as a
    slot does whose match column is missing, the outcome is that of the run
    without this slot. *)
Theorem slot_failure_is_contained
  env soa_df soa_match date_col amount_col pre cfg post tr df0 keys e st' ref' :
  RecoWorker.prepare env date_col soa_df = Ok df0 ->
  Frame.get_col soa_match df0 = Ok keys ->
  let configs := pre ++ Some cfg :: post in
  let total := RecoWorker.total_steps configs df0 in
  let idx := length pre in
  let before := RecoWorker.run_slots soa_match total O pre
                  (RecoWorker.init_state df0 keys tr) in
  RecoWorker.slot_body soa_match total idx cfg (fst before) = (Some e, st', ref') ->
  let after := RecoWorker.run_slots soa_match total (S idx) post
                 (RecoWorker.slot_failed idx e st') in
  let r := RecoWorker.run env soa_df soa_match date_col amount_col configs tr in
  r = RecoWorker.finish env soa_match amount_col (fst after)
        (snd before ++ Some (RecoWorker.with_ref ref' cfg) :: snd after) /\
  In (Log ("Match Error " +:+ RecoWorker.ref_label idx +:+ ": " +:+ str_exn e))
     (RecoWorker.result_events r) /\
  In (Status ("Error matching " +:+ RecoWorker.ref_label idx +:+ ": " +:+ str_exn e))
     (RecoWorker.result_events r) /\
  RecoWorker.result_outcome r <> RecoWorker.Aborted /\
  ((0 < Frame.nrows df0)%nat -> keys <> [] ->
   label_kept soa_match O configs = true ->
   exists out hl, RecoWorker.result_outcome r = RecoWorker.Completed out hl /\
                  In (RecoComplete out) (RecoWorker.result_events r)) /\
  (Py.starts_with "Ref" soa_match = false -> label_kept soa_match O configs = true) /\
  (once soa_match df0 = true -> label_clear soa_match O configs = true ->
   exists out hl, RecoWorker.result_outcome r = RecoWorker.Completed out hl /\
                  In (RecoComplete out) (RecoWorker.result_events r)) /\
  (clear st' = clear (fst before) ->
   RecoWorker.result_outcome r =
   RecoWorker.result_outcome
     (RecoWorker.run env soa_df soa_match date_col amount_col (pre ++ None :: post) tr)) /\
  (Frame.has_col (match_col cfg) (ref_df cfg) = false -> clear st' = clear (fst before)).
Proof.
  intros Hprep Hkeys configs total idx before Hbody after r.
  assert (Hr : r = RecoWorker.finish env soa_match amount_col (fst after)
                     (snd before ++ Some (RecoWorker.with_ref ref' cfg) :: snd after)).
  { subst r. unfold RecoWorker.run. rewrite Hprep. unfold RecoWorker.reconcile.
    rewrite Hkeys. subst configs. rewrite run_slots_app.
    change (0 + length pre)%nat with idx. fold total. fold before.
    rewrite (run_slots_cons_failed _ _ _ _ _ _ _ _ _ Hbody). reflexivity. }
  split; [exact Hr|].
  destruct (run_slots_trace soa_match total (S idx) post (RecoWorker.slot_failed idx e st'))
    as [evs Hevs]. fold after in Hevs.
  destruct (slot_failed_trace idx e st') as [Hlog Hstatus].
  split; [|split; [|split; [|split; [|split; [|split; [|split]]]]]].
  - rewrite Hr. apply finish_keeps_trace. rewrite Hevs. apply in_or_app. now left.
  - rewrite Hr. apply finish_keeps_trace. rewrite Hevs. apply in_or_app. now left.
  - rewrite Hr. apply finish_not_aborted.
  - intros Hrows Hne Hkept. rewrite Hr. apply finish_completes.
    subst configs. rewrite label_kept_app in Hkept. cbn [label_kept] in Hkept.
    apply andb_true_iff in Hkept as [Kpre Kpost].
    apply andb_true_iff in Kpost as [Khere Kpost].
    change (0 + length pre)%nat with idx in Khere, Kpost.
    cbn [slot_keeps] in Khere. apply negb_true_iff in Khere.
    apply keyed_has_col. subst after. apply run_slots_keyed; [exact Kpost|].
    unfold RecoWorker.slot_failed, RecoWorker.emit. cbn [RecoWorker.df_result].
    pose proof (slot_body_keyed soa_match total idx cfg (fst before) Khere) as Hb.
    rewrite Hbody in Hb. cbn [fst snd] in Hb. apply Hb.
    subst before. apply run_slots_keyed; [exact Kpre|].
    cbn [RecoWorker.init_state RecoWorker.df_result].
    split; [exact Hrows|]. exists keys. split; [exact Hkeys|exact Hne].
  - intros Hpre. now apply label_kept_no_ref.
  - intros Honce Hclear. rewrite Hr. apply finish_completes.
    subst configs. rewrite label_clear_app in Hclear. cbn [label_clear] in Hclear.
    apply andb_true_iff in Hclear as [Kpre Kpost].
    apply andb_true_iff in Kpost as [Khere Kpost].
    change (0 + length pre)%nat with idx in Khere, Kpost.
    unfold once in Honce. apply Nat.eqb_eq in Honce.
    apply mem_In. apply count_one_In.
    subst after. apply run_slots_once; [exact Kpost|].
    unfold RecoWorker.slot_failed, RecoWorker.emit. cbn [RecoWorker.df_result].
    pose proof (slot_step_once soa_match total idx (Some cfg) (fst before) Khere) as Hb.
    cbn [RecoWorker.slot_step] in Hb. rewrite Hbody in Hb. cbn [fst] in Hb.
    unfold RecoWorker.slot_failed, RecoWorker.emit in Hb. cbn [RecoWorker.df_result] in Hb.
    apply Hb. subst before. apply run_slots_once; [exact Kpre|].
    cbn [RecoWorker.init_state RecoWorker.df_result]. exact Honce.
  - intros Hclear.
    rewrite Hr. unfold RecoWorker.run. rewrite Hprep. unfold RecoWorker.reconcile.
    rewrite Hkeys. rewrite run_slots_app.
    rewrite (total_steps_length (pre ++ None :: post) configs)
      by (subst configs; rewrite !length_app; reflexivity).
    change (0 + length pre)%nat with idx. fold total. fold before.
    rewrite run_slots_cons_absent. cbn [fst snd].
    destruct (run_slots_same_data soa_match total (S idx) post
                (RecoWorker.slot_failed idx e st') (fst before)) as [Hd Hrefs].
    { unfold RecoWorker.slot_failed. rewrite <- Hclear. reflexivity. }
    fold after in Hd, Hrefs.
    rewrite (finish_clear env soa_match amount_col (fst after)).
    rewrite (finish_clear env soa_match amount_col
               (fst (RecoWorker.run_slots soa_match total (S idx) post (fst before)))).
    rewrite Hd. cbn [prepend_events RecoWorker.result_outcome].
    apply finish_outcome_refs.
  - intros Hmiss.
    destruct (slot_body_missing_match soa_match total idx cfg (fst before) Hmiss)
      as (e0 & st0 & Hb0 & Hclear).
    rewrite Hbody in Hb0. injection Hb0 as _ -> _. exact Hclear.
Qed.

Lemma slot_failure_is_contained_witness :
  (exists out hl,
     RecoWorker.result_outcome
       (RecoWorker.run Sample.env Sample.soa "Inv" None None
          ([] ++ Some Sample.broken_ref :: [Some (Sample.ref_with "123" "20.00")]) [])
     = RecoWorker.Completed out hl /\
     In (RecoComplete out)
        (RecoWorker.result_events
           (RecoWorker.run Sample.env Sample.soa "Inv" None None
              ([] ++ Some Sample.broken_ref :: [Some (Sample.ref_with "123" "20.00")]) []))) /\
  RecoWorker.result_outcome
    (RecoWorker.run Sample.env Sample.soa "Inv" None None
       ([] ++ Some Sample.broken_ref :: [Some (Sample.ref_with "123" "20.00")]) [])
  = RecoWorker.result_outcome
      (RecoWorker.run Sample.env Sample.soa "Inv" None None
         ([] ++ None :: [Some (Sample.ref_with "123" "20.00")]) []) /\
  (exists out hl,
     RecoWorker.result_outcome
       (RecoWorker.run Sample.env [("Reference", [])] "Reference" None None
          ([] ++ Some Sample.broken_ref :: [Some (Sample.ref_with "123" "20.00")]) [])
     = RecoWorker.Completed out hl /\
     In (RecoComplete out)
        (RecoWorker.result_events
           (RecoWorker.run Sample.env [("Reference", [])] "Reference" None None
              ([] ++ Some Sample.broken_ref :: [Some (Sample.ref_with "123" "20.00")]) []))).
Proof.
  assert (Hbody : exists st',
            RecoWorker.slot_body "Inv"
              (RecoWorker.total_steps
                 ([] ++ Some Sample.broken_ref :: [Some (Sample.ref_with "123" "20.00")])
                 Sample.soa)
              (length (@nil (option RefConfig))) Sample.broken_ref
              (fst (RecoWorker.run_slots "Inv"
                      (RecoWorker.total_steps
                         ([] ++ Some Sample.broken_ref
                             :: [Some (Sample.ref_with "123" "20.00")])
                         Sample.soa)
                      O [] (RecoWorker.init_state Sample.soa [Str "123"; Str "9"] [])))
            = (Some (KeyError "Inv"), st', ref_df Sample.broken_ref)).
  { eexists. vm_compute. reflexivity. }
  destruct Hbody as [st' Hbody].
  pose proof (slot_failure_is_contained Sample.env Sample.soa "Inv" None None
                [] Sample.broken_ref [Some (Sample.ref_with "123" "20.00")] []
                Sample.soa [Str "123"; Str "9"] (KeyError "Inv") st'
                (ref_df Sample.broken_ref) eq_refl eq_refl Hbody)
    as (_ & _ & _ & _ & Hdone & _ & _ & Hsame & Hmiss).
  assert (Hempty : exists st0,
            RecoWorker.slot_body "Reference"
              (RecoWorker.total_steps
                 ([] ++ Some Sample.broken_ref :: [Some (Sample.ref_with "123" "20.00")])
                 [("Reference", [])])
              (length (@nil (option RefConfig))) Sample.broken_ref
              (fst (RecoWorker.run_slots "Reference"
                      (RecoWorker.total_steps
                         ([] ++ Some Sample.broken_ref
                             :: [Some (Sample.ref_with "123" "20.00")])
                         [("Reference", [])])
                      O [] (RecoWorker.init_state [("Reference", [])] [] [])))
            = (Some (KeyError "Inv"), st0, ref_df Sample.broken_ref)).
  { eexists. vm_compute. reflexivity. }
  destruct Hempty as [st0 Hempty].
  pose proof (slot_failure_is_contained Sample.env [("Reference", [])] "Reference" None None
                [] Sample.broken_ref [Some (Sample.ref_with "123" "20.00")] []
                [("Reference", [])] [] (KeyError "Inv") st0
                (ref_df Sample.broken_ref) eq_refl eq_refl Hempty)
    as (_ & _ & _ & _ & _ & _ & Hany & _ & _).
  split; [|split].
  - apply Hdone; [cbn; lia|discriminate|reflexivity].
  - apply Hsame. apply Hmiss. reflexivity.
  - apply Hany; reflexivity.
Defined.

(** C6 as stated fails: a failed slot can leave the table without its match
    column.  The statement's match column carries the label slot 1 gives its
    return column; the merge renames both, the slot fails at line 444 and is
    reported, and line 458 then raises outside every handler: the run ends
    without a table. *)
Theorem failed_slot_can_end_the_run :
  let ref := {| ref_df := [("Inv", [Str "7"]); ("Amt", [Str "9"])];
                match_col := "Inv"; return_cols := ["Amt"] |} in
  let r := RecoWorker.run Sample.env [("Ref1_Amt", [Str "7"])] "Ref1_Amt" None None
             [Some ref; None; None; None] [] in
  (exists st' ref',
     RecoWorker.slot_body "Ref1_Amt" 4 0 ref
       (RecoWorker.init_state [("Ref1_Amt", [Str "7"])] [Str "7"] [])
     = (Some (KeyError "Ref1_Amt"), st', ref')) /\
  In (Status ("Error matching Ref1: " +:+ str_exn (KeyError "Ref1_Amt")))
     (RecoWorker.result_events r) /\
  RecoWorker.result_outcome r = RecoWorker.Crashed (KeyError "Ref1_Amt") /\
  completions (RecoWorker.result_events r) = [].
Proof.
  cbv zeta. split; [|split; [|split]].
  - eexists. eexists. vm_compute. reflexivity.
  - vm_compute. tauto.
  - vm_compute. reflexivity.
  - vm_compute. reflexivity.
Qed.
